(** * UMNOpenMotor: propellant combustion model and contour perimeter

    A shallow embedding of [motorlib/propellant.py],
    [mathlib/_find_perimeter.py] and [uilib/widgets/grainPreviewGraph.py].
    Python floats are IEEE-754 binary64 values, modelled by Rocq's
    primitive floats, and the complex numbers a power can give are pairs
    of them; Python exceptions are the error side of a result type; the
    methods of [Propellant] and of the widget run in a state and error
    monad whose state is the object [self].  The first part holds the
    definitions, the second the lemmas and theorems. *)

From Stdlib Require Import ZArith NArith List String Ascii Bool Lia Floats.
From Stdlib Require Import Permutation.
From Stdlib Require Import DecimalString Decimal DecimalNat.
From Stdlib Require Uint63.
Import ListNotations.

Set Warnings "-inexact-float".

Local Open Scope float_scope.

(** [abs(x)] on a float. *)
Abbreviation fabs := PrimFloat.abs.

(* ===================================================================== *)
(** * The Python runtime the sources rely on *)
(* ===================================================================== *)

(** Exceptions raised by the builtins and by the sources themselves. *)
Inductive exn : Type :=
  | KeyError (key : string)
  | IndexError (msg : string)
  | ValueError (msg : string)
  | ZeroDivisionError (msg : string)
  | OverflowError (msg : string)
  | TypeError (msg : string).

(** Outcome of evaluating an expression: a value or a raised exception. *)
Inductive res (A : Type) : Type :=
  | OK (x : A)
  | Raise (e : exn).
Arguments OK {A} x.
Arguments Raise {A} e.

Definition res_bind {A B} (c : res A) (f : A -> res B) : res B :=
  match c with
  | OK x => f x
  | Raise e => Raise e
  end.

Declare Scope res_scope.
Delimit Scope res_scope with res.
Notation "'let?' x ':=' c 'in' k" := (res_bind c (fun x => k))
  (at level 10, x pattern, c at level 100, k at level 200) : res_scope.

(** [x / y] on floats: a zero divisor raises. *)
Definition py_div (x y : float) : res float :=
  if y =? 0 then Raise (ZeroDivisionError "float division by zero")
  else OK (x / y).

(** ** Numbers beyond the floats

    [x ** y] on two floats is a complex number when the base is negative
    and the exponent is not an integer; a complex number is a pair of
    binary64 values. *)
Record complex : Type := mkComplex {
  real : float;
  imag : float
}.

Inductive number : Type :=
  | Float (x : float)
  | Complex (z : complex).

(** A value is a number when it equals itself ([x == x] in Python). *)
Definition notnan (x : float) : bool := (x =? x).

(** [min(x, y)]: the first argument unless the second is smaller. *)
Definition py_min2 (x y : float) : float := if y <? x then y else x.

(** [min(list)] and [max(list)]: the first element, replaced by each later
    one that compares strictly below (above) the running value. *)
Definition py_min (l : list float) : res float :=
  match l with
  | [] => Raise (ValueError "min() arg is an empty sequence")
  | x :: r => OK (fold_left (fun best y => if y <? best then y else best) r x)
  end.

Definition py_max (l : list float) : res float :=
  match l with
  | [] => Raise (ValueError "max() arg is an empty sequence")
  | x :: r => OK (fold_left (fun best y => if best <? y then y else best) r x)
  end.

(** [list.sort(key=...)] is stable; on keys that are totally ordered the
    result is the only stable sorted arrangement, computed here by
    insertion: an element goes before the first one whose key is not below
    its own. *)
Section Sort.
Context {A : Type} (key : A -> float).

Fixpoint insert_by (x : A) (l : list A) : list A :=
  match l with
  | [] => [x]
  | y :: r => if key y <? key x then y :: insert_by x r else x :: l
  end.

Fixpoint sort_by (l : list A) : list A :=
  match l with
  | [] => []
  | x :: r => insert_by x (sort_by r)
  end.

(** When a key is NaN the comparisons contradict one another, and the
    arrangement [list.sort] leaves is the one its algorithm happens to
    reach for the length and the order of the list: some permutation,
    which is kept open. *)
Definition unordered : Type :=
  forall l : list A, {l' : list A | Permutation l l'}.

Definition list_sort (sort_unordered : unordered) (l : list A) : list A :=
  if forallb (fun x => notnan (key x)) l then sort_by l
  else proj1_sig (sort_unordered l).
End Sort.
Arguments unordered A : clear implicits.

(** What CPython computes outside the operations on floats written out
    here: the power of two floats, the arithmetic on the complex numbers
    it can give (done by the C library, and for mixed operands not in the
    same way by every version), and the sort on keys that are not
    ordered. *)
Record Python : Type := mkPython {
  (** [x ** y] on two floats; it raises [ZeroDivisionError] and
      [OverflowError]. *)
  float_pow : float -> float -> res number;
  (** [z ** y] on a complex and a float. *)
  complex_pow : complex -> float -> res complex;
  (** [x * z] on a float and a complex. *)
  complex_mul : float -> complex -> complex;
  (** [x / y] when one of the two is complex; a zero divisor raises. *)
  complex_div : number -> number -> res complex;
  sort_unordered : unordered (float * float)
}.

Section Arithmetic.
Variable py : Python.

(** [x ** y] on a number and a float. *)
Definition num_pow (x : number) (y : float) : res number :=
  match x with
  | Float v => float_pow py v y
  | Complex z => (let? r := complex_pow py z y in OK (Complex r))%res
  end.

(** [x * y] on a float and a number. *)
Definition num_mul (x : float) (y : number) : number :=
  match y with
  | Float v => Float (x * v)
  | Complex z => Complex (complex_mul py x z)
  end.

(** [x / y] on two numbers. *)
Definition num_div (x y : number) : res number :=
  match x, y with
  | Float u, Float v => (let? q := py_div u v in OK (Float q))%res
  | _, _ => (let? q := complex_div py x y in OK (Complex q))%res
  end.
End Arithmetic.

(** [enumerate(l)], counting from [i]. *)
Fixpoint enumerate_from {A} (i : nat) (l : list A) : list (nat * A) :=
  match l with
  | [] => []
  | x :: r => (i, x) :: enumerate_from (S i) r
  end.

Definition enumerate {A} (l : list A) : list (nat * A) := enumerate_from 0 l.

(** ['{}'.format(i)] for a non-negative integer. *)
Definition format_nat (i : nat) : string :=
  NilEmpty.string_of_uint (Nat.to_uint i).

(* ===================================================================== *)
(** * motorlib/simResult.py: alerts (declarations only) *)
(* ===================================================================== *)

Inductive SimAlertLevel : Type := ERROR | WARNING | MESSAGE.
Inductive SimAlertType : Type := GEOMETRY | CONSTRAINT | VALUE.

(** [SimAlert(level, type, description, location)]. *)
Record SimAlert : Type := mkSimAlert {
  level : SimAlertLevel;
  type : SimAlertType;
  description : string;
  location : string
}.

Definition SimAlert_eq_dec (x y : SimAlert) : {x = y} + {x <> y}.
Proof. repeat decide equality. Defined.

(* ===================================================================== *)
(** * motorlib/propellant.py *)
(* ===================================================================== *)

(** [PropellantTab]: the combustion properties over one pressure range,
    under the keys of the source. *)
Module Tab.
Record PropellantTab : Type := mk {
  minPressure : float;
  maxPressure : float;
  a : float;
  n : float;
  k : float;
  t : float;
  m : float
}.
End Tab.
Abbreviation PropellantTab := Tab.PropellantTab.

(** [Propellant]: the three properties set up by [__init__]. *)
Module Props.
Record Propellant : Type := mk {
  name : string;
  density : float;
  tabs : list PropellantTab
}.
End Props.
Abbreviation Propellant := Props.Propellant.

(** ** Methods: computations on [self] that may raise *)

Definition M (A : Type) : Type := Propellant -> res A * Propellant.

Definition ret {A} (x : A) : M A := fun self => (OK x, self).

Definition bind {A B} (c : M A) (f : A -> M B) : M B :=
  fun self =>
    match c self with
    | (OK x, self') => f x self'
    | (Raise e, self') => (Raise e, self')
    end.

Definition lift {A} (c : res A) : M A := fun self => (c, self).

(** [self.getProperty(key)], the key given by its projection. *)
Definition getProperty {A} (proj : Propellant -> A) : M A :=
  fun self => (OK (proj self), self).

Declare Scope method_scope.
Delimit Scope method_scope with method.
Notation "x <- c ;; k" := (bind c (fun x => k))
  (at level 100, c at next level, right associativity) : method_scope.
Notation "' p <- c ;; k" := (bind c (fun x => match x with p => k end))
  (at level 100, p pattern, c at next level, right associativity) : method_scope.

(** The five values [a, n, k, t, m] returned by [getCombustionProperties]. *)
Definition combustion : Type := (float * float * float * float * float)%type.

Definition properties_of (tab : PropellantTab) : combustion :=
  (Tab.a tab, Tab.n tab, Tab.k tab, Tab.t tab, Tab.m tab).

(** [tab['minPressure'] < pressure < tab['maxPressure']]. *)
Definition in_range (pressure : float) (tab : PropellantTab) : bool :=
  (Tab.minPressure tab <? pressure) && (pressure <? Tab.maxPressure tab).

(** The loop of [getCombustionProperties] with its two locals; [closest]
    starts as the empty dict, [None] here, whose lookup raises. *)
Fixpoint combustionLoop (pressure : float) (tabs : list PropellantTab)
    (closest : option PropellantTab) (closestPressure : float)
    : res combustion :=
  match tabs with
  | [] =>
      match closest with
      | Some c => OK (properties_of c)
      | None => Raise (KeyError "a")
      end
  | tab :: rest =>
      if in_range pressure tab then OK (properties_of tab)
      else
        let '(closest, closestPressure) :=
          if fabs (pressure - Tab.minPressure tab) <? closestPressure
          then (Some tab, fabs (pressure - Tab.minPressure tab))
          else (closest, closestPressure) in
        let '(closest, closestPressure) :=
          if fabs (pressure - Tab.maxPressure tab) <? closestPressure
          then (Some tab, fabs (pressure - Tab.maxPressure tab))
          else (closest, closestPressure) in
        combustionLoop pressure rest closest closestPressure
  end.

(** [scipy.optimize.fsolve] reaches the propellant only through the
    function it is given: a solver is a strategy that either returns its
    root array or asks for the function's value at a point and goes on
    from the answer. *)
Inductive solver : Type :=
  | Root (x : list float)
  | Call (kn : float) (next : float -> solver).

Fixpoint runSolver (s : solver) (func : float -> M float) : M (list float) :=
  match s with
  | Root x => ret x
  | Call kn next => bind (func kn) (fun y => runSolver (next y) func)
  end.

Section Methods.
Local Open Scope method_scope.

(** [constants.gasConstant]; the module is not part of the sources. *)
Variable gasConstant : float.

(** The power, the complex arithmetic and the sort on unordered keys. *)
Variable py : Python.

(** [fsolve(func, x0, maxfev=...)] as a strategy. *)
Variable fsolve : list float -> nat -> solver.

Definition getCombustionProperties (pressure : float) : M combustion :=
  tabs <- getProperty Props.tabs ;;
  lift (combustionLoop pressure tabs None 1e100).

Definition getCStar (pressure : float) : M number :=
  '(_, _, gamma, temp, molarMass) <- getCombustionProperties pressure ;;
  lift (let? q := py_div (gamma * gasConstant) molarMass in
        let? num := float_pow py (q * temp) 0.5 in
        let? b := py_div 2 (gamma + 1) in
        let? e := py_div (gamma + 1) (gamma - 1) in
        let? p := float_pow py b e in
        let? r := num_pow py p 0.5 in
        num_div py num (num_mul py gamma r))%res.

Definition getBurnRate (pressure : float) : M number :=
  '(ballA, ballN, _, _, _) <- getCombustionProperties pressure ;;
  lift (let? p := float_pow py pressure ballN in
        OK (num_mul py ballA p))%res.

Definition getMinimumValidPressure : M float :=
  tabs <- getProperty Props.tabs ;;
  lift (py_min (map Tab.minPressure tabs)).

Definition getMaximumValidPressure : M float :=
  tabs <- getProperty Props.tabs ;;
  lift (py_max (map Tab.maxPressure tabs)).

(** The value [tabPressure] computed at the top of the loop body of
    [getPressureFromKn]. *)
Definition tabPressure (kn density : float) (tab : PropellantTab)
    : res number :=
  (let num := kn * density * Tab.a tab in
   let? exponent := py_div 1 (1 - Tab.n tab) in
   let? q := py_div gasConstant (Tab.m tab) in
   let? g := py_div (Tab.k tab) (q * Tab.t tab) in
   let? b := py_div 2 (Tab.k tab + 1) in
   let? e := py_div (Tab.k tab + 1) (Tab.k tab - 1) in
   let? p := float_pow py b e in
   let? denom := num_pow py (num_mul py g p) 0.5 in
   let? x := num_div py (Float num) denom in
   num_pow py x exponent)%res.

(** [x < y] where one of the two is complex. *)
Definition complex_lt_float : exn :=
  TypeError "'<' not supported between instances of 'complex' and 'float'".
Definition float_lt_complex : exn :=
  TypeError "'<' not supported between instances of 'float' and 'complex'".

(** The error recorded for a tab that was not accepted. *)
Definition boundary_error (tab : PropellantTab) (tabPressure : float)
    : float :=
  py_min2 (fabs (Tab.minPressure tab - tabPressure))
          (fabs (tabPressure - Tab.maxPressure tab)).

(** The loop of [getPressureFromKn]; [tabPressures] collects the pairs
    of the tabs passed over.  A complex [tabPressure] raises at the first
    comparison that meets it: in the first test when the tab owns the
    lowest limit, and otherwise in the second or the third, which both
    begin with [minTabPressure < tabPressure]. *)
Fixpoint knLoop (kn density : float) (tabs : list PropellantTab)
    (tabPressures : list (float * float)) : M float :=
  match tabs with
  | [] =>
      match list_sort fst (sort_unordered py) tabPressures with
      | x :: _ => ret (snd x)
      | [] => lift (Raise (IndexError "list index out of range"))
      end
  | tab :: rest =>
      tabPressure <- lift (tabPressure kn density tab) ;;
      let minTabPressure := Tab.minPressure tab in
      let maxTabPressure := Tab.maxPressure tab in
      lo <- getMinimumValidPressure ;;
      match tabPressure with
      | Complex _ =>
          if minTabPressure =? lo then lift (Raise complex_lt_float)
          else
            hi <- getMaximumValidPressure ;;
            lift (Raise float_lt_complex)
      | Float tabPressure =>
          if (minTabPressure =? lo) && (tabPressure <? maxTabPressure)
          then ret tabPressure
          else
            hi <- getMaximumValidPressure ;;
            if (maxTabPressure =? hi) && (minTabPressure <? tabPressure)
            then ret tabPressure
            else if (minTabPressure <? tabPressure)
                    && (tabPressure <? maxTabPressure)
            then ret tabPressure
            else knLoop kn density rest
                   (tabPressures
                    ++ [(boundary_error tab tabPressure, tabPressure)])
      end
  end.

Definition getPressureFromKn (kn : float) : M float :=
  density <- getProperty Props.density ;;
  tabs <- getProperty Props.tabs ;;
  knLoop kn density tabs [].

Definition getKnFromPressure (pressure : float) : M (list float) :=
  let func := fun kn =>
    p <- getPressureFromKn kn ;; ret (p - pressure) in
  runSolver (fsolve [250] 1000) func.

End Methods.

Section Alerts.
Local Open Scope method_scope.

Definition sameLimitsAlert (tabId : nat) : SimAlert :=
  mkSimAlert ERROR VALUE
    ("Tab #" ++ format_nat (tabId + 1)
       ++ " has the same minimum and maximum pressures.")%string
    "Propellant".

Definition reversedLimitsAlert (tabId : nat) : SimAlert :=
  mkSimAlert ERROR VALUE
    ("Tab #" ++ format_nat (tabId + 1)
       ++ " has reversed pressure limits.")%string
    "Propellant".

Definition overlapAlert (tabId otherTabId : nat) : SimAlert :=
  mkSimAlert ERROR VALUE
    ("Tabs #" ++ format_nat (tabId + 1) ++ " and #"
       ++ format_nat (otherTabId + 1) ++ " have overlapping ranges.")%string
    "Propellant".

Definition pressureRangeAlert : SimAlert :=
  mkSimAlert WARNING VALUE
    "Chamber pressure deviated from propellant's entered ranges. Results may not be accurate."
    "Propellant".

(** [otherTab['minPressure'] < tab['maxPressure'] < otherTab['maxPressure']]. *)
Definition overlaps (tab otherTab : PropellantTab) : bool :=
  (Tab.minPressure otherTab <? Tab.maxPressure tab)
  && (Tab.maxPressure tab <? Tab.maxPressure otherTab).

(** What one round of the outer loop of [getErrors] appends. *)
Definition tabErrors (tabs : list PropellantTab) (tabId : nat)
    (tab : PropellantTab) : list SimAlert :=
  (if Tab.maxPressure tab =? Tab.minPressure tab
   then [sameLimitsAlert tabId] else [])
  ++ (if Tab.maxPressure tab <? Tab.minPressure tab
      then [reversedLimitsAlert tabId] else [])
  ++ flat_map
       (fun '(otherTabId, otherTab) =>
          if Nat.eqb tabId otherTabId then []
          else if overlaps tab otherTab
               then [overlapAlert tabId otherTabId] else [])
       (enumerate tabs).

Definition getErrors : M (list SimAlert) :=
  tabs <- getProperty Props.tabs ;;
  ret (flat_map (fun '(tabId, tab) => tabErrors tabs tabId tab)
         (enumerate tabs)).

(** The loop of [getPressureErrors]: leaves with the still empty list at
    the first tab holding the pressure. *)
Fixpoint pressureErrorsLoop (pressure : float) (tabs : list PropellantTab)
    (errors : list SimAlert) : list SimAlert :=
  match tabs with
  | [] => errors ++ [pressureRangeAlert]
  | tab :: rest =>
      if in_range pressure tab then errors
      else pressureErrorsLoop pressure rest errors
  end.

Definition getPressureErrors (pressure : float) : M (list SimAlert) :=
  tabs <- getProperty Props.tabs ;;
  ret (pressureErrorsLoop pressure tabs []).

(** Modelled from the spec: [addTab] appends to the tab list
    ([TabularProperty.addTab], which it calls, is not part of the
    sources). *)
Definition addTab (tab : PropellantTab) : M unit :=
  fun self =>
    (OK tt,
     Props.mk (Props.name self) (Props.density self)
              (Props.tabs self ++ [tab])).

End Alerts.

(* ===================================================================== *)
(** * mathlib/_find_perimeter.py *)
(* ===================================================================== *)

(** A numpy array of doubles: its shape and its items by index tuple. *)
Record ndarray : Type := mkArray {
  shape : list nat;
  item : list nat -> float
}.

Definition ndim (image : ndarray) : nat := List.length (shape image).

(** [image.shape[i]]: indexing the shape tuple. *)
Definition shape_at (image : ndarray) (i : nat) : res nat :=
  match nth_error (shape image) i with
  | Some d => OK d
  | None => Raise (IndexError "tuple index out of range")
  end.

Section FindPerimeter.
(** [_find_perimeter_cy._get_perimeter], compiled separately. *)
Variable _get_perimeter : ndarray -> float -> float.

Definition find_perimeter (image : ndarray) (level : float) : res float :=
  (let? h := shape_at image 0 in
   let? small :=
     (if Nat.ltb h 2 then OK true
      else let? w := shape_at image 1 in OK (Nat.ltb w 2)) in
   if (small : bool)
   then Raise (ValueError "Input array must be at least 2x2.")
   else if negb (Nat.eqb (ndim image) 2)
        then Raise (ValueError "Only 2D arrays are supported.")
        else OK (_get_perimeter image level))%res.
End FindPerimeter.

(* ===================================================================== *)
(** * uilib/widgets/grainPreviewGraph.py *)
(* ===================================================================== *)

Module Graph.

(** ** The matplotlib objects the widget drives

    Of an [Axes] only what the widget calls is kept: the lines and the
    images it holds, [plot], [imshow], [clear] and the [remove] of an
    artist. *)

(** A masked raster as [showImage] takes it; [None] is a masked entry. *)
Record masked : Type := mkMasked {
  rows : nat;
  cols : nat;
  entry : nat -> nat -> option float
}.

(** A raster of [uint8] grey levels, as handed to [imshow]. *)
Record raster : Type := mkRaster {
  height : nat;
  width : nat;
  grey : nat -> nat -> Z
}.

Record Line2D : Type := mkLine {
  xdata : list float;
  ydata : list float;
  linewidth : option float;
  color : string
}.

(** An image on the axes is an object of its own: the axes number the
    images they create. *)
Record AxesImage : Type := mkImage {
  number : nat;
  data : raster
}.

Record Axes : Type := mkAxes {
  lines : list Line2D;
  images : list AxesImage;
  created : nat
}.

(** [figure.add_subplot(111)]. *)
Definition add_subplot : Axes := mkAxes [] [] 0.

(** The data of a call of [plot] are taken as arrays of at least one
    dimension ([numpy.atleast_1d]), and then as columns: a
    one-dimensional array is a single column. *)
Definition first_dimension (a : ndarray) : nat :=
  match shape a with
  | [] => 1
  | d :: _ => d
  end.

Definition columns (a : ndarray) : nat :=
  match shape a with
  | _ :: c :: _ => c
  | _ => 1
  end.

Definition column (a : ndarray) (j : nat) : list float :=
  match shape a with
  | [] => [item a []]
  | [d] => map (fun i => item a [i]) (seq 0 d)
  | d :: _ => map (fun i => item a [i; j]) (seq 0 d)
  end.

(** The shape as Python prints the tuple. *)
Fixpoint format_dimensions (l : list nat) : string :=
  match l with
  | [] => ""
  | [d] => format_nat d
  | d :: r => format_nat d ++ ", " ++ format_dimensions r
  end.

Definition format_shape (a : ndarray) : string :=
  match shape a with
  | [] => "(1,)"
  | [d] => "(" ++ format_nat d ++ ",)"
  | l => "(" ++ format_dimensions l ++ ")"
  end.

(** A one-dimensional array of the given elements. *)
Definition flat (l : list float) : ndarray :=
  mkArray [List.length l] (fun index => nth (hd 0%nat index) l 0%float).

(** [Axes.plot(x, y, linewidth=..., c=...)]: one line for each column of
    the wider of the two arrays, the columns of the other taken round;
    no line when an array has no column; [ValueError] when the first
    dimensions differ, when an array has more than two dimensions and
    when both have several columns but not as many. *)
Definition plot_xy (x y : ndarray) (linewidth : option float)
    (color : string) (ax : Axes) : res (unit * Axes) :=
  if negb (Nat.eqb (first_dimension x) (first_dimension y))
  then Raise (ValueError
         ("x and y must have same first dimension, but have shapes "
          ++ format_shape x ++ " and " ++ format_shape y))
  else if Nat.ltb 2 (ndim x) || Nat.ltb 2 (ndim y)
  then Raise (ValueError
         ("x and y can be no greater than 2D, but have shapes "
          ++ format_shape x ++ " and " ++ format_shape y))
  else
    let ncx := columns x in
    let ncy := columns y in
    if Nat.ltb 1 ncx && Nat.ltb 1 ncy && negb (Nat.eqb ncx ncy)
    then Raise (ValueError
           ("x has " ++ format_nat ncx ++ " columns but y has "
            ++ format_nat ncy ++ " columns"))
    else if Nat.eqb ncx 0 || Nat.eqb ncy 0 then OK (tt, ax)
    else OK (tt,
             mkAxes
               (lines ax
                ++ map (fun j =>
                          mkLine (column x (j mod ncx)) (column y (j mod ncy))
                            linewidth color)
                     (seq 0 (Nat.max ncx ncy)))
               (images ax) (created ax)).

(** [Axes.imshow(image, ...)]: one image more, which is returned. *)
Definition imshow (image : raster) (ax : Axes) : res (nat * Axes) :=
  OK (created ax,
      mkAxes (lines ax) (images ax ++ [mkImage (created ax) image])
        (S (created ax))).

(** [Axes.clear()]. *)
Definition clear (ax : Axes) : res (unit * Axes) :=
  OK (tt, mkAxes [] [] (created ax)).

(** [axes.lines[0].remove()]. *)
Definition remove_first_line (ax : Axes) : res (unit * Axes) :=
  match lines ax with
  | [] => Raise (IndexError "list index out of range")
  | _ :: rest => OK (tt, mkAxes rest (images ax) (created ax))
  end.

Section Canvas.

(** What [remove] does on an image the axes hold no longer (after
    [clear]) differs between versions of matplotlib, which either raise
    or return: it is left open. *)
Variable detached_remove : res unit.

(** [image.remove()]. *)
Definition remove_image (image : nat) (ax : Axes) : res (unit * Axes) :=
  if existsb (fun im => Nat.eqb (number im) image) (images ax)
  then OK (tt, mkAxes (lines ax)
                 (filter (fun im => negb (Nat.eqb (number im) image))
                    (images ax))
                 (created ax))
  else (let? _ := detached_remove in OK (tt, ax))%res.

(** ** The widget

    Its attributes [image], [numContours] and [plot]; the preferences
    and the layout of the figure take no part in the methods below, and
    [draw] only renders. *)
Record GrainPreviewGraph : Type := mkGraph {
  image : option nat;
  numContours : nat;
  plot : Axes
}.

Definition W (A : Type) : Type :=
  GrainPreviewGraph -> res A * GrainPreviewGraph.

Definition done {A} (x : A) : W A := fun self => (OK x, self).

Definition and_then {A B} (c : W A) (f : A -> W B) : W B :=
  fun self =>
    match c self with
    | (OK x, self') => f x self'
    | (Raise e, self') => (Raise e, self')
    end.

Declare Scope widget_scope.
Delimit Scope widget_scope with widget.
Notation "x <- c ;; k" := (and_then c (fun x => k))
  (at level 100, c at next level, right associativity) : widget_scope.
Notation "'exec' c ;; k" := (and_then c (fun _ => k))
  (at level 100, c at next level, right associativity) : widget_scope.
Local Open Scope widget_scope.

Definition attribute {A} (proj : GrainPreviewGraph -> A) : W A :=
  fun self => (OK (proj self), self).

Definition set_image (value : option nat) : W unit :=
  fun self => (OK tt, mkGraph value (numContours self) (plot self)).

Definition set_numContours (value : nat) : W unit :=
  fun self => (OK tt, mkGraph (image self) value (plot self)).

(** A call on [self.plot]; when it raises the axes are as before. *)
Definition on_plot {A} (call : Axes -> res (A * Axes)) : W A :=
  fun self =>
    match call (plot self) with
    | OK (x, ax) => (OK x, mkGraph (image self) (numContours self) ax)
    | Raise e => (Raise e, self)
    end.

(** [for _ in range(0, n): body]. *)
Fixpoint for_range (n : nat) (body : W unit) : W unit :=
  match n with
  | O => done tt
  | S n' => exec body ;; for_range n' body
  end.

Definition __init__ : GrainPreviewGraph := mkGraph None 0 add_subplot.

Definition cleanup : W unit :=
  image <- attribute image ;;
  exec match image with
       | Some image => exec on_plot (remove_image image) ;; set_image None
       | None => done tt
       end ;;
  numContours <- attribute numContours ;;
  if Nat.ltb 0 numContours
  then exec for_range numContours (on_plot remove_first_line) ;;
       set_numContours 0
  else done tt.

(** [app] is [QApplication.instance()] with the answer of its
    [isDarkMode]: [None] when there is no application. *)
Definition showImage (app : option bool) (image : masked) : W unit :=
  let isDarkMode := match app with Some dark => dark | None => false end in
  let filled := fun i j =>
    match entry image i j with Some v => v | None => 0%float end in
  let asbool := fun i j => negb (filled i j =? 0) in
  let coreColor := if isDarkMode then 30%Z else 255%Z in
  let propellantColor := if isDarkMode then 192%Z else 0%Z in
  let image := mkRaster (rows image) (cols image)
      (fun i j => if asbool i j then propellantColor else coreColor) in
  image <- on_plot (imshow image) ;;
  set_image (Some image).

(** [next] on [itertools.cycle] of a list that is not empty: [rest] is
    what is left of the current round. *)
Definition cycle_next {A} (first : A) (others rest : list A) : A * list A :=
  match rest with
  | x :: rest' => (x, rest')
  | [] => (first, others)
  end.

(** A contour is an array of two columns; its rows are kept as pairs,
    and its columns [contour[:, 0]] and [contour[:, 1]] are
    one-dimensional. *)
Definition contour : Type := list (float * float).

Fixpoint contourSetLoop (color : string) (contourSet : list contour)
    : W unit :=
  match contourSet with
  | [] => done tt
  | contour :: more =>
      exec on_plot (plot_xy (flat (map snd contour))
                      (flat (map fst contour)) (Some 1%float) color) ;;
      numContours <- attribute numContours ;;
      exec set_numContours (numContours + 1) ;;
      contourSetLoop color more
  end.

Fixpoint contoursLoop (colorCycle : list string)
    (contours : list (list contour)) : W unit :=
  match contours with
  | [] => done tt
  | contourSet :: more =>
      let '(color, colorCycle) :=
        cycle_next "r"%string ["g"; "b"; "y"]%string colorCycle in
      exec contourSetLoop color contourSet ;;
      contoursLoop colorCycle more
  end.

Definition showContours (contours : list (list contour)) : W unit :=
  contoursLoop ["r"; "g"; "b"; "y"]%string contours.

(** [points[0]] and [points[1]] are the two arrays of coordinates. *)
Definition showGraph (points : ndarray * ndarray) : W unit :=
  exec on_plot (plot_xy (fst points) (snd points) None "b"%string) ;;
  numContours <- attribute numContours ;;
  set_numContours (numContours + 1).

(** [setupGraphPlot] only blanks the tick labels. *)
Definition resetGraphBounds : W unit :=
  on_plot clear.

End Canvas.

End Graph.

(* ===================================================================== *)
(** * The contour tracer and the perimeter accumulator *)
(* ===================================================================== *)

(** Modelled from the spec: the compiled [_find_perimeter_cy] is missing
    from the sources; this part follows sections 4.1 and 4.2.  A grid
    index as a double. *)
Definition float_of_N (i : N) : float :=
  PrimFloat.of_uint63 (Uint63.of_Z (Z.of_N i)).

Definition float_of_nat (i : nat) : float := float_of_N (N.of_nat i).

Inductive edge : Type := Top | Bottom | Left | Right.

Definition point : Type := (float * float)%type.

(** Modelled from the spec: the position where the contour crosses an
    edge (section 4.1; the compiled [_find_perimeter_cy] is missing from
    the sources).  [pos = start + (level - vStart) / (vEnd - vStart) *
    (end - start)], and the midpoint of the edge when [vStart == vEnd]. *)
Definition crossing (start stop vStart vEnd level : float) : float :=
  if vStart =? vEnd then (start + stop) / 2
  else start + (level - vStart) / (vEnd - vStart) * (stop - start).

(** Modelled from the spec: the marching-squares table of section 4.1,
    indexed by the four corners being above the level (upper left, upper
    right, lower left, lower right); the two saddle entries pair the
    diagonals by the cell average being above the level. *)
Definition case_table (ul ur ll lr centre : bool) : list (edge * edge) :=
  match ul, ur, ll, lr with
  | false, false, false, false => []
  | true, false, false, false => [(Top, Left)]
  | false, true, false, false => [(Right, Top)]
  | true, true, false, false => [(Right, Left)]
  | false, false, true, false => [(Left, Bottom)]
  | true, false, true, false => [(Top, Bottom)]
  | false, true, true, false =>
      if centre then [(Left, Top); (Right, Bottom)]
      else [(Right, Top); (Left, Bottom)]
  | true, true, true, false => [(Right, Bottom)]
  | false, false, false, true => [(Bottom, Right)]
  | true, false, false, true =>
      if centre then [(Top, Right); (Bottom, Left)]
      else [(Top, Left); (Bottom, Right)]
  | false, true, false, true => [(Bottom, Top)]
  | true, true, false, true => [(Bottom, Left)]
  | false, false, true, true => [(Left, Right)]
  | true, false, true, true => [(Top, Right)]
  | false, true, true, true => [(Left, Top)]
  | true, true, true, true => []
  end.

(** Modelled from the spec: the segments of the unit cell whose upper
    left corner is at row [r0] and column [c0] (section 4.1). *)
Definition cell_segments (image : ndarray) (level : float) (r0 c0 : nat)
    : list (point * point) :=
  let r1 := (r0 + 1)%nat in
  let c1 := (c0 + 1)%nat in
  let ul := item image [r0; c0] in
  let ur := item image [r0; c1] in
  let ll := item image [r1; c0] in
  let lr := item image [r1; c1] in
  let on (e : edge) : point :=
    match e with
    | Top =>
        (float_of_nat r0,
         crossing (float_of_nat c0) (float_of_nat c1) ul ur level)
    | Bottom =>
        (float_of_nat r1,
         crossing (float_of_nat c0) (float_of_nat c1) ll lr level)
    | Left =>
        (crossing (float_of_nat r0) (float_of_nat r1) ul ll level,
         float_of_nat c0)
    | Right =>
        (crossing (float_of_nat r0) (float_of_nat r1) ur lr level,
         float_of_nat c1)
    end in
  map (fun '(e1, e2) => (on e1, on e2))
      (case_table (level <? ul) (level <? ur) (level <? ll) (level <? lr)
                  (level <? (ul + ur + ll + lr) / 4)).

(** Modelled from the spec: the Euclidean length of a segment on the
    unit grid (section 4.2). *)
Definition segment_length (s : point * point) : float :=
  let '((r, c), (r', c')) := s in
  sqrt ((r' - r) * (r' - r) + (c' - c) * (c' - c)).

(** Modelled from the spec: the perimeter query on a two-dimensional
    raster (sections 4.1 and 4.2): the cells are visited in row-major
    order and the lengths of their segments are added up. *)
Definition get_perimeter (image : ndarray) (level : float) : float :=
  let rows := nth 0 (shape image) 0%nat in
  let cols := nth 1 (shape image) 0%nat in
  fold_left
    (fun total r0 =>
       fold_left
         (fun total c0 =>
            fold_left (fun total s => total + segment_length s)
                      (cell_segments image level r0 c0) total)
         (seq 0 (cols - 1)) total)
    (seq 0 (rows - 1)) 0.

(* ===================================================================== *)
(** * Definitions used to state the properties *)
(* ===================================================================== *)

(** ** Ordering of binary64 values *)

(** Position of a value on the extended real line, as a triple compared
    lexicographically; a NaN has none. *)
Definition rank (x : spec_float) : option (Z * Z * Z) :=
  match x with
  | S754_nan => None
  | S754_zero _ => Some (0, 0, 0)%Z
  | S754_infinity true => Some (-2, 0, 0)%Z
  | S754_infinity false => Some (2, 0, 0)%Z
  | S754_finite true m e => Some (-1, - e, Z.neg m)%Z
  | S754_finite false m e => Some (1, e, Z.pos m)%Z
  end.

Definition lexcmp (a b : Z * Z * Z) : comparison :=
  let '(a1, a2, a3) := a in
  let '(b1, b2, b3) := b in
  match (a1 ?= b1)%Z with
  | Eq => match (a2 ?= b2)%Z with
          | Eq => (a3 ?= b3)%Z
          | c => c
          end
  | c => c
  end.

Definition lexlt (a b : Z * Z * Z) : Prop :=
  let '(a1, a2, a3) := a in
  let '(b1, b2, b3) := b in
  (a1 < b1 \/ (a1 = b1 /\ (a2 < b2 \/ (a2 = b2 /\ a3 < b3))))%Z.

Definition lexle (a b : Z * Z * Z) : Prop :=
  let '(a1, a2, a3) := a in
  let '(b1, b2, b3) := b in
  (a1 < b1 \/ (a1 = b1 /\ (a2 < b2 \/ (a2 = b2 /\ a3 <= b3))))%Z.

(** ** Pure queries *)

(** The outcome of a method call, exception included, as a value. *)
Definition observe {A} (c : M A) : M (res A) :=
  fun self => let '(r, self') := c self in (OK r, self').

(** Calling twice in a row and keeping both outcomes. *)
Definition twice {A} (c : M A) : M (res A * res A) :=
  bind (observe c) (fun r1 => bind (observe c) (fun r2 => ret (r1, r2))).

Definition unchanged {A} (c : M A) : Prop :=
  forall self, snd (c self) = self.

(** A pure query: the object is left as it was and a second call gives
    the outcome of the first. *)
Definition pure_query {A} (c : M A) : Prop :=
  forall self, exists r, c self = (r, self) /\ twice c self = (OK (r, r), self).

(** ** Tab selection *)

(** Distance from the pressure to the nearer of the two limits of a tab,
    [min(|pressure - minPressure|, |pressure - maxPressure|)]. *)
Definition nearest_limit (pressure : float) (tab : PropellantTab) : float :=
  py_min2 (fabs (pressure - Tab.minPressure tab))
          (fabs (pressure - Tab.maxPressure tab)).

(** Both distances of a tab are numbers. *)
Definition numeric (pressure : float) (tab : PropellantTab) : bool :=
  notnan (fabs (pressure - Tab.minPressure tab))
  && notnan (fabs (pressure - Tab.maxPressure tab)).

(** The half-open window [minPressure, maxPressure) of the written rule. *)
Definition in_window (pressure : float) (tab : PropellantTab) : bool :=
  (Tab.minPressure tab <=? pressure) && (pressure <? Tab.maxPressure tab).

(** Tab number [i] is the first of the list that minimises the distance
    to its nearer limit. *)
Definition first_nearest (tabs : list PropellantTab) (pressure : float)
    (i : nat) (tab : PropellantTab) : bool :=
  forallb (fun o => nearest_limit pressure tab <=? nearest_limit pressure o)
          tabs
  && forallb (fun o => nearest_limit pressure tab <? nearest_limit pressure o)
             (firstn i tabs).

(** The selection rule as written: tab number [i] is chosen when its
    half-open window holds the pressure (the first such tab), or when no
    window does and it is the first tab nearest to the pressure. *)
Definition written_rule (tabs : list PropellantTab) (pressure : float)
    (i : nat) : bool :=
  match nth_error tabs i with
  | None => false
  | Some tab =>
      (in_window pressure tab
       && forallb (fun o => negb (in_window pressure o)) (firstn i tabs))
      || (forallb (fun o => negb (in_window pressure o)) tabs
          && first_nearest tabs pressure i tab)
  end.

(** The selection rule of the code: the windows are open, and the nearest
    tab is found only when its distance is below the starting value
    [1e100] of [closestPressure] (all distances being numbers). *)
Definition selects (tabs : list PropellantTab) (pressure : float)
    (i : nat) : bool :=
  match nth_error tabs i with
  | None => false
  | Some tab =>
      (in_range pressure tab
       && forallb (fun o => negb (in_range pressure o)) (firstn i tabs))
      || (forallb (fun o => negb (in_range pressure o)) tabs
          && forallb (numeric pressure) tabs
          && (nearest_limit pressure tab <? 1e100)
          && first_nearest tabs pressure i tab)
  end.

(** A tab can be selected: some open window holds the pressure, or all
    distances are numbers and one of them is below 1e100. *)
Definition reachable (tabs : list PropellantTab) (pressure : float) : Prop :=
  existsb (in_range pressure) tabs = true
  \/ (forallb (numeric pressure) tabs = true
      /\ existsb (fun o => nearest_limit pressure o <? 1e100) tabs = true).

(** One round of the loop on a tab that does not hold the pressure. *)
Definition closer (pressure : float)
    (st : option PropellantTab * float) (tab : PropellantTab)
    : option PropellantTab * float :=
  if nearest_limit pressure tab <? snd st
  then (Some tab, nearest_limit pressure tab)
  else st.

Definition lookup (closest : option PropellantTab) : res combustion :=
  match closest with
  | Some c => OK (properties_of c)
  | None => Raise (KeyError "a")
  end.

(** ** The formulas *)

Section Formulas.
Variable gasConstant : float.
Variable py : Python.
Variables kn density lo hi : float.

(** [a * pressure^n]. *)
Definition burn_rate_formula (a n pressure : float) : res number :=
  (let? power := float_pow py pressure n in OK (num_mul py a power))%res.

(** The square root, taken as the power one half. *)
Definition root (x : number) : res number := num_pow py x 0.5.

(** [sqrt(k*R/m*t) / (k * ((2/(k+1))^((k+1)/(k-1)))^0.5)], numerator first,
    with [R] the gas constant. *)
Definition cstar_formula (k t m : float) : res number :=
  (let? kRm := py_div (k * gasConstant) m in
   let? numerator := root (Float (kRm * t)) in
   let? base := py_div 2 (k + 1) in
   let? exponent := py_div (k + 1) (k - 1) in
   let? power := float_pow py base exponent in
   let? half := num_pow py power 0.5 in
   num_div py numerator (num_mul py k half))%res.

(** [exponent = 1/(1-n)], [denom = sqrt((k/((R/m)*t)) *
    (2/(k+1))^((k+1)/(k-1)))], [pressure = (kn*density*a/denom)^exponent],
    computed in this order, the square root being the power one half. *)
Definition kn_pressure_formula (a n k t m : float) : res number :=
  (let? exponent := py_div 1 (1 - n) in
   let? Rm := py_div gasConstant m in
   let? factor1 := py_div k (Rm * t) in
   let? base := py_div 2 (k + 1) in
   let? e := py_div (k + 1) (k - 1) in
   let? factor2 := float_pow py base e in
   let? denom := root (num_mul py factor1 factor2) in
   let? ratio := num_div py (Float (kn * density * a)) denom in
   num_pow py ratio exponent)%res.

(** The pressure the formula gives for a tab. *)
Definition tab_formula (tab : PropellantTab) : res number :=
  kn_pressure_formula (Tab.a tab) (Tab.n tab) (Tab.k tab) (Tab.t tab)
    (Tab.m tab).

(** ** Acceptance in getPressureFromKn *)

(** The three acceptance tests (a), (b), (c), in their order; [lo] is the
    global minimum [minPressure] and [hi] the global maximum
    [maxPressure]. *)
Definition accepts (lo hi : float) (tab : PropellantTab) (pressure : float)
    : bool :=
  (Tab.minPressure tab =? lo) && (pressure <? Tab.maxPressure tab)
  || (Tab.maxPressure tab =? hi) && (Tab.minPressure tab <? pressure)
  || (Tab.minPressure tab <? pressure) && (pressure <? Tab.maxPressure tab).

(** The tab is passed over: the formula gives it a real pressure, which
    is not accepted. *)
Definition passed_over (tab : PropellantTab) : bool :=
  match tab_formula tab with
  | OK (Float p) => negb (accepts lo hi tab p)
  | _ => false
  end.

(** The candidate a tab that is passed over leaves: the distance of its
    pressure to the nearer of its two limits, and the pressure. *)
Definition recorded (tab : PropellantTab) : float * float :=
  match tab_formula tab with
  | OK (Float p) => (nearest_limit p tab, p)
  | _ => (nan, nan)
  end.

(** Tab number [i] gives the result: it is the first accepted tab, or no
    tab is accepted and it is the first one with the smallest distance
    to its nearer limit. *)
Definition kn_selects (tabs : list PropellantTab) (i : nat) : bool :=
  match nth_error tabs i with
  | None => false
  | Some tab =>
      match tab_formula tab with
      | OK (Float p) =>
          (accepts lo hi tab p && forallb passed_over (firstn i tabs))
          || (forallb passed_over tabs
              && forallb (fun o => fst (recorded tab) <=? fst (recorded o)) tabs
              && forallb (fun o => fst (recorded tab) <? fst (recorded o))
                         (firstn i tabs))
      | _ => false
      end
  end.

(** Tab number [i] ends the call with the exception [e]: the tabs before
    it are passed over, and its pressure raises [e] while it is computed,
    or is complex, which the first comparison refuses. *)
Definition kn_raises (tabs : list PropellantTab) (i : nat) (e : exn)
    : Prop :=
  exists tab,
    nth_error tabs i = Some tab
    /\ forallb passed_over (firstn i tabs) = true
    /\ (tab_formula tab = Raise e
        \/ exists z,
             tab_formula tab = OK (Complex z)
             /\ e = if Tab.minPressure tab =? lo
                    then TypeError
                      "'<' not supported between instances of 'complex' and 'float'"
                    else TypeError
                      "'<' not supported between instances of 'float' and 'complex'").

(** No tab is accepted or raises, and the distance of some candidate is
    not a number: the candidates are then sorted on unordered keys. *)
Definition kn_unordered (tabs : list PropellantTab) : bool :=
  forallb passed_over tabs
  && negb (forallb (fun o => notnan (fst (recorded o))) tabs).

End Formulas.

(** ** Alerts *)

Fixpoint no_space (s : string) : bool :=
  match s with
  | EmptyString => true
  | String c r => negb (Ascii.eqb c " ") && no_space r
  end.

(** What the inner loop of [getErrors] appends for one other tab. *)
Definition overlapErrors (tab : PropellantTab) (tabId : nat)
    (other : nat * PropellantTab) : list SimAlert :=
  let '(otherTabId, otherTab) := other in
  if Nat.eqb tabId otherTabId then []
  else if overlaps tab otherTab then [overlapAlert tabId otherTabId] else [].

Abbreviation count := (count_occ SimAlert_eq_dec).

(** ** Rasters with one element set *)

(** A raster of zeros with the element at row [r], column [c] set to one. *)
Definition one_hot (rows cols r c : nat) : ndarray :=
  mkArray [rows; cols]
    (fun index =>
       match index with
       | [i; j] => if Nat.eqb i r && Nat.eqb j c then 1 else 0
       | _ => 0
       end).

(** The largest number of rows and of columns covered below. *)
Definition max_side : nat := N.to_nat 65536.

(** The cell that touches the corner coordinate [k] on a side of the
    given size: the first one, or the last one. *)
Definition near (side k : nat) : nat :=
  if Nat.eqb k 0 then 0%nat else (side - 2)%nat.

Fixpoint check_range (fuel : nat) (start : N) (p : N -> bool) : bool :=
  match fuel with
  | O => true
  | S fuel' => p start && check_range fuel' (N.succ start) p
  end.

(** The crossing on an edge from index [i] to [i + 1] whose values go
    from 0 to 1, at level one half. *)
Definition mid (i : N) : float :=
  crossing (float_of_N i) (float_of_N (i + 1)) 0 1 0.5.

Definition mid_ok (i : N) : bool :=
  Leibniz.eqb (mid i - float_of_N (i + 1)) (-0.5)
  && Leibniz.eqb (float_of_N (i + 1) - mid i) 0.5.

(** ** Pressures no tab answers for *)

(** The tab neither holds the pressure nor has a limit within [1e100] of
    it: the round of [getCombustionProperties] on it keeps [closest]
    empty. *)
Definition out_of_reach (pressure : float) (tab : PropellantTab) : bool :=
  negb (in_range pressure tab)
  && negb (fabs (pressure - Tab.minPressure tab) <? 1e100)
  && negb (fabs (pressure - Tab.maxPressure tab) <? 1e100).

(** The tab has none of the defects [getErrors] looks for: its limits are
    neither equal nor reversed and its upper limit lies in no other tab. *)
Definition sound_tab (tabs : list PropellantTab) (tabId : nat)
    (tab : PropellantTab) : bool :=
  negb (Tab.maxPressure tab =? Tab.minPressure tab)
  && negb (Tab.maxPressure tab <? Tab.minPressure tab)
  && forallb
       (fun '(otherTabId, otherTab) =>
          Nat.eqb tabId otherTabId || negb (overlaps tab otherTab))
       (enumerate tabs).

(** ** The preview widget in use *)

(** The counter of the widget matches the lines on its axes, its image
    is on the axes, and the images on the axes were numbered by them. *)
Definition tidy (self : Graph.GrainPreviewGraph) : Prop :=
  Graph.numContours self = List.length (Graph.lines (Graph.plot self))
  /\ (forall image, Graph.image self = Some image ->
        existsb (fun im => Nat.eqb (Graph.number im) image)
          (Graph.images (Graph.plot self)) = true)
  /\ Forall (fun im => (Graph.number im < Graph.created (Graph.plot self))%nat)
       (Graph.images (Graph.plot self)).

(** The states a widget gets into when, once created, it is only
    cleaned up and shown images, contours and graphs of one-dimensional
    data, whether the calls return or raise. *)
Inductive in_use (detached_remove : res unit)
    : Graph.GrainPreviewGraph -> Prop :=
  | use_init : in_use detached_remove Graph.__init__
  | use_cleanup self :
      in_use detached_remove self ->
      in_use detached_remove (snd (Graph.cleanup detached_remove self))
  | use_showImage self app image :
      in_use detached_remove self ->
      in_use detached_remove (snd (Graph.showImage app image self))
  | use_showContours self contours :
      in_use detached_remove self ->
      in_use detached_remove (snd (Graph.showContours contours self))
  | use_showGraph self points :
      in_use detached_remove self ->
      (ndim (fst points) <= 1)%nat ->
      (ndim (snd points) <= 1)%nat ->
      in_use detached_remove (snd (Graph.showGraph points self)).

(** The number of lines a call of [showGraph] that returns has drawn. *)
Definition lines_drawn (points : ndarray * ndarray) : nat :=
  if Nat.eqb (Graph.columns (fst points)) 0
     || Nat.eqb (Graph.columns (snd points)) 0
  then 0%nat
  else Nat.max (Graph.columns (fst points)) (Graph.columns (snd points)).

(** The images left on the axes once the widget's own is removed. *)
Definition other_images (self : Graph.GrainPreviewGraph)
    : list Graph.AxesImage :=
  match Graph.image self with
  | Some image =>
      filter (fun im => negb (Nat.eqb (Graph.number im) image))
        (Graph.images (Graph.plot self))
  | None => Graph.images (Graph.plot self)
  end.

(** The line [showContours] draws for a contour. *)
Definition contour_line (color : string) (contour : Graph.contour)
    : Graph.Line2D :=
  Graph.mkLine (map snd contour) (map fst contour) (Some 1) color.

(** The colours [showContours] goes round. *)
Definition colours : list string := ["r"; "g"; "b"; "y"]%string.

(** The lines [showContours] draws, set [i] in colour [i mod 4]. *)
Definition contour_lines (first : nat) (contours : list (list Graph.contour))
    : list Graph.Line2D :=
  flat_map (fun '(i, contourSet) =>
              map (contour_line (nth (i mod 4) colours "r"%string)) contourSet)
    (enumerate_from first contours).

(* ===================================================================== *)
(** * Sample data used by the worked instances *)
(* ===================================================================== *)

(** A sample of [x ** y], on the exponents 0, 1, 2 and one half: the
    result is exact where it is representable, as on the perfect squares,
    and the correctly rounded value otherwise, from which that of the C
    library may differ in the last place.  Outside the table the sample
    raises; no instance below goes there. *)
Definition pow_exact (x y : float) : res number :=
  if y =? 0 then OK (Float 1)
  else if y =? 1 then OK (Float x)
  else if y =? 2 then
    if (fabs (x * x) =? infinity) && negb (fabs x =? infinity)
    then Raise (OverflowError "(34, 'Numerical result out of range')")
    else OK (Float (x * x))
  else if y =? 0.5 then
    if x =? 0 then OK (Float 0)
    else if x =? neg_infinity then OK (Float infinity)
    else if x <? 0
    then OK (Complex (mkComplex (sqrt (- x) * 6.123233995736766e-17)
                        (sqrt (- x))))
    else OK (Float (sqrt x))
  else Raise (OverflowError "exponent outside the table").

(** The product of a float and a complex number, the float taken as a
    complex number without imaginary part. *)
Definition mul_exact (x : float) (z : complex) : complex :=
  mkComplex (x * real z - 0 * imag z) (x * imag z + 0 * real z).

(** The sample interpreter: on unordered keys its sort leaves the list as
    it is, and it stops at a power or a quotient of complex numbers,
    which no instance below asks for. *)
Definition exact : Python :=
  mkPython pow_exact
    (fun _ _ => Raise (OverflowError "complex exponentiation"))
    mul_exact
    (fun _ _ => Raise (ZeroDivisionError "complex division by zero"))
    (fun l => exist _ l (Permutation_refl l)).

(** A strategy that asks once, at its starting point, and returns it. *)
Definition one_shot (x0 : list float) (maxfev : nat) : solver :=
  match x0 with
  | x :: _ => Call x (fun _ => Root [x])
  | [] => Root []
  end.

(** Two adjacent ranges sharing the boundary 100. *)
Definition lowTab : PropellantTab := Tab.mk 0 100 1 0 3 2 4.
Definition highTab : PropellantTab := Tab.mk 100 200 2 0.5 3 2 4.
Definition twoTabs : Propellant := Props.mk "sample" 1 [lowTab; highTab].

(** Two ranges away from the pressure 74.4 that KN 1 gives for both,
    the second tab with a larger coefficient: none is accepted, and the
    pressure of the second, 79.1, is the nearer to a limit. *)
Definition nearTab : PropellantTab := Tab.mk 80 200 1.0625 0 3 2 4.
Definition apart : Propellant :=
  Props.mk "apart" 1 [Tab.mk 0 50 1 0 3 2 4; nearTab].

(** A range around zero with the exponent one half. *)
Definition wide : Propellant :=
  Props.mk "wide" 1 [Tab.mk (-10) 10 2 0.5 3 2 4].

(** A burn rate exponent of 1. *)
Definition linearTab : PropellantTab := Tab.mk 0 100 1 1 3 2 4.
Definition linear : Propellant := Props.mk "linear" 1 [linearTab].

(** Two adjacent ranges that differ in temperature. *)
Definition hotTab : PropellantTab := Tab.mk 100 200 2 0.5 3 8 4.
Definition twoTemperatures : Propellant :=
  Props.mk "sample" 1 [lowTab; hotTab].

(** Points of one curve, of two curves side by side, and of none. *)
Definition oneCurve : ndarray * ndarray :=
  (Graph.flat [1; 2], Graph.flat [3; 4]).
Definition twoCurves : ndarray * ndarray :=
  (Graph.flat [1; 2],
   mkArray [2; 2]%nat
     (fun index => if Nat.eqb (nth 1%nat index 0%nat) 0%nat then 3 else 4)).
Definition noCurve : ndarray * ndarray :=
  (mkArray [2; 0]%nat (fun _ => 0), mkArray [2; 0]%nat (fun _ => 0)).

(** Overlapping, degenerate and reversed ranges. *)
Definition range (lo hi : float) : PropellantTab := Tab.mk lo hi 1 0 3 2 4.
Definition overlapping : Propellant :=
  Props.mk "overlapping" 1 [range 0 100; range 50 150].
Definition degenerate : Propellant := Props.mk "degenerate" 1 [range 100 100].
Definition reversed : Propellant := Props.mk "reversed" 1 [range 100 50].

(* ===================================================================== *)
(** * Ordering of binary64 values *)
(* ===================================================================== *)

Module FloatOrder.

Lemma SFcompare_rank (x y : spec_float) :
  SFcompare x y =
  match rank x, rank y with
  | Some a, Some b => Some (lexcmp a b)
  | _, _ => None
  end.
Proof.
  destruct x as [sx|sx| |sx mx ex], y as [sy|sy| |sy my ey];
    try destruct sx; try destruct sy; try reflexivity.
  cbn [SFcompare rank lexcmp]. simpl (-1 ?= -1)%Z. cbv iota.
  rewrite Z.compare_opp.
  rewrite (Z.compare_antisym ex ey).
  destruct (ex ?= ey)%Z; simpl; reflexivity.
Qed.

Lemma lexcmp_Lt a b : lexcmp a b = Lt <-> lexlt a b.
Proof.
  destruct a as [[a1 a2] a3], b as [[b1 b2] b3]. unfold lexcmp, lexlt.
  destruct (Z.compare_spec a1 b1), (Z.compare_spec a2 b2),
    (Z.compare_spec a3 b3); split; intros; try discriminate;
    try reflexivity; lia.
Qed.

Lemma lexcmp_Le a b : lexcmp a b <> Gt <-> lexle a b.
Proof.
  destruct a as [[a1 a2] a3], b as [[b1 b2] b3]. unfold lexcmp, lexle.
  destruct (Z.compare_spec a1 b1), (Z.compare_spec a2 b2),
    (Z.compare_spec a3 b3); split; intros; try discriminate;
    try congruence; lia.
Qed.

Lemma notnan_rank x : notnan x = true <-> exists a, rank (Prim2SF x) = Some a.
Proof.
  unfold notnan. rewrite eqb_spec. unfold SFeqb. rewrite SFcompare_rank.
  destruct (rank (Prim2SF x)) as [a|].
  - split; [eauto|intros _].
    destruct a as [[a1 a2] a3]. unfold lexcmp.
    now rewrite !Z.compare_refl.
  - split; [discriminate|intros [a Ha]; discriminate].
Qed.

Lemma ltb_rank x y :
  (x <? y) = true <->
  exists a b, rank (Prim2SF x) = Some a /\ rank (Prim2SF y) = Some b /\ lexlt a b.
Proof.
  rewrite ltb_spec. unfold SFltb. rewrite SFcompare_rank.
  destruct (rank (Prim2SF x)) as [a|], (rank (Prim2SF y)) as [b|];
    try (split; [discriminate|intros (a' & b' & ? & ? & _); discriminate]).
  split.
  - intros H. exists a, b. repeat split. apply lexcmp_Lt.
    destruct (lexcmp a b); congruence.
  - intros (a' & b' & Ha & Hb & Hlt). inversion Ha; inversion Hb; subst.
    apply lexcmp_Lt in Hlt. now rewrite Hlt.
Qed.

Lemma leb_rank x y :
  (x <=? y) = true <->
  exists a b, rank (Prim2SF x) = Some a /\ rank (Prim2SF y) = Some b /\ lexle a b.
Proof.
  rewrite leb_spec. unfold SFleb. rewrite SFcompare_rank.
  destruct (rank (Prim2SF x)) as [a|], (rank (Prim2SF y)) as [b|];
    try (split; [discriminate|intros (a' & b' & ? & ? & _); discriminate]).
  split.
  - intros H. exists a, b. repeat split. apply lexcmp_Le.
    destruct (lexcmp a b); congruence.
  - intros (a' & b' & Ha & Hb & Hle). inversion Ha; inversion Hb; subst.
    apply lexcmp_Le in Hle. destruct (lexcmp a' b'); congruence.
Qed.

(** Brings every comparison of the context to ranks and closes the goal by
    linear arithmetic on the triples. *)
Ltac rank_hyps :=
  repeat match goal with
  | H : notnan _ = true |- _ => apply notnan_rank in H; destruct H as [? H]
  | H : (_ <? _) = true |- _ =>
      apply ltb_rank in H; destruct H as (? & ? & ? & ? & H)
  | H : (_ <=? _) = true |- _ =>
      apply leb_rank in H; destruct H as (? & ? & ? & ? & H)
  end;
  repeat match goal with
  | H1 : rank ?x = Some ?a, H2 : rank ?x = Some ?b |- _ =>
      rewrite H1 in H2; inversion H2; subst; clear H2
  end.

Ltac lex_solve :=
  repeat match goal with
  | a : (Z * Z * Z)%type |- _ => destruct a as [[? ?] ?]
  end;
  unfold lexlt, lexle in *; lia.

Lemma ltb_trans x y z : (x <? y) = true -> (y <? z) = true -> (x <? z) = true.
Proof.
  intros H1 H2. rank_hyps. apply ltb_rank. do 2 eexists.
  repeat split; eauto. lex_solve.
Qed.

Lemma ltb_leb_trans x y z :
  (x <? y) = true -> (y <=? z) = true -> (x <? z) = true.
Proof.
  intros H1 H2. rank_hyps. apply ltb_rank. do 2 eexists.
  repeat split; eauto. lex_solve.
Qed.

Lemma leb_ltb_trans x y z :
  (x <=? y) = true -> (y <? z) = true -> (x <? z) = true.
Proof.
  intros H1 H2. rank_hyps. apply ltb_rank. do 2 eexists.
  repeat split; eauto. lex_solve.
Qed.

Lemma leb_trans x y z :
  (x <=? y) = true -> (y <=? z) = true -> (x <=? z) = true.
Proof.
  intros H1 H2. rank_hyps. apply leb_rank. do 2 eexists.
  repeat split; eauto. lex_solve.
Qed.

Lemma ltb_leb x y : (x <? y) = true -> (x <=? y) = true.
Proof.
  intros H1. rank_hyps. apply leb_rank. do 2 eexists.
  repeat split; eauto. lex_solve.
Qed.

Lemma leb_refl x : notnan x = true -> (x <=? x) = true.
Proof.
  intros H1. rank_hyps. apply leb_rank. do 2 eexists.
  repeat split; eauto. lex_solve.
Qed.

Lemma leb_not_ltb x y : (x <=? y) = true -> (y <? x) = false.
Proof.
  intros H1. destruct (y <? x) eqn:H2; [|reflexivity].
  exfalso. rank_hyps. lex_solve.
Qed.

Lemma ltb_not_leb x y : (x <? y) = true -> (y <=? x) = false.
Proof.
  intros H1. destruct (y <=? x) eqn:H2; [|reflexivity].
  exfalso. rank_hyps. lex_solve.
Qed.

Lemma not_ltb_leb x y :
  notnan x = true -> notnan y = true -> (x <? y) = false -> (y <=? x) = true.
Proof.
  intros Hx Hy H.
  apply notnan_rank in Hx as [a Ha]. apply notnan_rank in Hy as [b Hb].
  assert (Hn : ~ lexlt a b).
  { intros Hlt. assert (Ht : (x <? y) = true) by (apply ltb_rank; eauto).
    congruence. }
  apply leb_rank. exists b, a. repeat split; auto.
  destruct a as [[a1 a2] a3], b as [[b1 b2] b3].
  unfold lexlt, lexle in *. lia.
Qed.

Lemma ltb_notnan_l x y : (x <? y) = true -> notnan x = true.
Proof. intros H. rank_hyps. apply notnan_rank. eauto. Qed.

Lemma ltb_notnan_r x y : (x <? y) = true -> notnan y = true.
Proof. intros H. rank_hyps. apply notnan_rank. eauto. Qed.

End FloatOrder.

Import FloatOrder.

(* ===================================================================== *)
(** * Queries leave [self] as it is *)
(* ===================================================================== *)

Lemma unchanged_ret {A} (x : A) : unchanged (ret x).
Proof. intros self. reflexivity. Qed.

Lemma unchanged_lift {A} (c : res A) : unchanged (lift c).
Proof. intros self. reflexivity. Qed.

Lemma unchanged_getProperty {A} (proj : Propellant -> A) :
  unchanged (getProperty proj).
Proof. intros self. reflexivity. Qed.

Lemma unchanged_bind {A B} (c : M A) (f : A -> M B) :
  unchanged c -> (forall x, unchanged (f x)) -> unchanged (bind c f).
Proof.
  intros Hc Hf self. unfold bind. specialize (Hc self).
  destruct (c self) as [[x|e] self']; simpl in *; subst.
  - apply Hf.
  - reflexivity.
Qed.

Lemma unchanged_runSolver (s : solver) (func : float -> M float) :
  (forall kn, unchanged (func kn)) -> unchanged (runSolver s func).
Proof.
  intros Hf. induction s as [x|kn next IH]; simpl.
  - apply unchanged_ret.
  - apply unchanged_bind; auto.
Qed.

Lemma unchanged_pure {A} (c : M A) : unchanged c -> pure_query c.
Proof.
  intros Hc self. exists (fst (c self)). specialize (Hc self).
  unfold twice, observe, bind, ret.
  destruct (c self) as [r self'] eqn:E. simpl in *. subst self'.
  rewrite E. split; reflexivity.
Qed.

Create HintDb frame discriminated.
#[local] Hint Resolve unchanged_ret unchanged_lift unchanged_getProperty
  unchanged_runSolver : frame.

Ltac frame :=
  repeat first
    [ apply unchanged_bind; [|intros ?]
    | solve [auto with frame]
    | match goal with
      | |- unchanged (match ?x with _ => _ end) => destruct x
      | |- unchanged (if ?b then _ else _) => destruct b
      end ].

Section Frame.
Variable gasConstant : float.
Variable py : Python.
Variable fsolve : list float -> nat -> solver.

Lemma unchanged_getCombustionProperties pressure :
  unchanged (getCombustionProperties pressure).
Proof. unfold getCombustionProperties. frame. Qed.

Lemma unchanged_getMinimumValidPressure : unchanged getMinimumValidPressure.
Proof. unfold getMinimumValidPressure. frame. Qed.

Lemma unchanged_getMaximumValidPressure : unchanged getMaximumValidPressure.
Proof. unfold getMaximumValidPressure. frame. Qed.

Lemma unchanged_knLoop kn density tabs acc :
  unchanged (knLoop gasConstant py kn density tabs acc).
Proof.
  revert acc. induction tabs as [|tab rest IH]; intros acc; simpl.
  - destruct (list_sort fst (sort_unordered py) acc); auto with frame.
  - apply unchanged_bind; [auto with frame|intros p].
    apply unchanged_bind; [apply unchanged_getMinimumValidPressure|intros lo].
    destruct p as [p|z].
    + destruct (_ && _); [auto with frame|].
      apply unchanged_bind;
        [apply unchanged_getMaximumValidPressure|intros hi].
      destruct (_ && _); [auto with frame|].
      destruct (_ && _); [auto with frame|apply IH].
    + destruct (_ =? _); [auto with frame|].
      apply unchanged_bind;
        [apply unchanged_getMaximumValidPressure|intros hi].
      auto with frame.
Qed.

Lemma unchanged_getPressureFromKn kn :
  unchanged (getPressureFromKn gasConstant py kn).
Proof.
  unfold getPressureFromKn.
  apply unchanged_bind; [auto with frame|intros density].
  apply unchanged_bind; [auto with frame|intros tabs].
  apply unchanged_knLoop.
Qed.

Lemma unchanged_getKnFromPressure pressure :
  unchanged (getKnFromPressure gasConstant py fsolve pressure).
Proof.
  unfold getKnFromPressure. apply unchanged_runSolver. intros kn.
  apply unchanged_bind; [apply unchanged_getPressureFromKn|intros p].
  auto with frame.
Qed.

Lemma unchanged_getCStar pressure :
  unchanged (getCStar gasConstant py pressure).
Proof.
  unfold getCStar.
  apply unchanged_bind; [apply unchanged_getCombustionProperties|].
  intros [[[[? ?] ?] ?] ?]. auto with frame.
Qed.

Lemma unchanged_getBurnRate pressure :
  unchanged (getBurnRate py pressure).
Proof.
  unfold getBurnRate.
  apply unchanged_bind; [apply unchanged_getCombustionProperties|].
  intros [[[[? ?] ?] ?] ?]. auto with frame.
Qed.

Lemma unchanged_getErrors : unchanged getErrors.
Proof. unfold getErrors. frame. Qed.

Lemma unchanged_getPressureErrors pressure :
  unchanged (getPressureErrors pressure).
Proof. unfold getPressureErrors. frame. Qed.

(** C9. Every query of [Propellant] is pure: [getBurnRate], [getCStar],
    [getPressureFromKn], [getKnFromPressure], [getCombustionProperties],
    [getMinimumValidPressure], [getMaximumValidPressure], [getErrors] and
    [getPressureErrors] return with the propellant (name, density and tab
    list) as it was, whether they return a value or raise, and a second
    call on the same propellant with the same argument gives the outcome of
    the first. *)
Theorem queries_are_pure (pressure kn : float) :
  pure_query (getBurnRate py pressure)
  /\ pure_query (getCStar gasConstant py pressure)
  /\ pure_query (getPressureFromKn gasConstant py kn)
  /\ pure_query (getKnFromPressure gasConstant py fsolve pressure)
  /\ pure_query (getCombustionProperties pressure)
  /\ pure_query getMinimumValidPressure
  /\ pure_query getMaximumValidPressure
  /\ pure_query getErrors
  /\ pure_query (getPressureErrors pressure).
Proof.
  repeat split; apply unchanged_pure.
  - apply unchanged_getBurnRate.
  - apply unchanged_getCStar.
  - apply unchanged_getPressureFromKn.
  - apply unchanged_getKnFromPressure.
  - apply unchanged_getCombustionProperties.
  - apply unchanged_getMinimumValidPressure.
  - apply unchanged_getMaximumValidPressure.
  - apply unchanged_getErrors.
  - apply unchanged_getPressureErrors.
Qed.

End Frame.

(** By contrast [addTab] is not a query: it changes the tab list. *)
Example addTab_changes_self :
  snd (addTab highTab degenerate) <> degenerate.
Proof.
  intros H. apply (f_equal (fun s => List.length (Props.tabs s))) in H.
  discriminate H.
Qed.

(* ===================================================================== *)
(** * A propellant without tabs *)
(* ===================================================================== *)

(** C10. On a propellant whose tab list is empty every pressure and KN
    query raises instead of returning: [getMinimumValidPressure] and
    [getMaximumValidPressure] (minimum and maximum of an empty sequence),
    [getCombustionProperties] and with it [getBurnRate] and [getCStar]
    (lookup in the empty [closest]), and [getPressureFromKn] (index into
    the empty candidate list). *)
Theorem empty_tabs_raise (gasConstant : float)
    (py : Python)
    (name : string) (density pressure kn : float) :
  let self := Props.mk name density [] in
  getMinimumValidPressure self
    = (Raise (ValueError "min() arg is an empty sequence"), self)
  /\ getMaximumValidPressure self
    = (Raise (ValueError "max() arg is an empty sequence"), self)
  /\ getCombustionProperties pressure self = (Raise (KeyError "a"), self)
  /\ getBurnRate py pressure self = (Raise (KeyError "a"), self)
  /\ getCStar gasConstant py pressure self
    = (Raise (KeyError "a"), self)
  /\ getPressureFromKn gasConstant py kn self
    = (Raise (IndexError "list index out of range"), self).
Proof. repeat split. Qed.

(* ===================================================================== *)
(** * getPressureErrors *)
(* ===================================================================== *)

Lemma pressureErrorsLoop_outside pressure tabs errors :
  (forall tab, In tab tabs -> in_range pressure tab = false) ->
  pressureErrorsLoop pressure tabs errors = errors ++ [pressureRangeAlert].
Proof.
  induction tabs as [|tab rest IH]; intros Hout; simpl.
  - reflexivity.
  - rewrite (Hout tab) by (left; reflexivity).
    apply IH. intros o Ho. apply Hout. right. exact Ho.
Qed.

Lemma pressureErrorsLoop_inside pressure tabs errors :
  (exists tab, In tab tabs /\ in_range pressure tab = true) ->
  pressureErrorsLoop pressure tabs errors = errors.
Proof.
  induction tabs as [|tab rest IH]; intros (o & Hin & Ho); simpl.
  - destruct Hin.
  - destruct (in_range pressure tab) eqn:E; [reflexivity|].
    apply IH. destruct Hin as [->|Hin]; [congruence|eauto].
Qed.

(** C5. [getPressureErrors(p)] returns a list holding exactly one alert,
    of level warning, when [p] lies outside the open interval
    (minPressure, maxPressure) of every tab, and the empty list when some
    tab's open interval holds [p]. *)
Theorem getPressureErrors_spec (self : Propellant) (pressure : float) :
  level pressureRangeAlert = WARNING
  /\ ((forall tab, In tab (Props.tabs self) ->
         (Tab.minPressure tab <? pressure) && (pressure <? Tab.maxPressure tab)
         = false) ->
      getPressureErrors pressure self = (OK [pressureRangeAlert], self))
  /\ ((exists tab, In tab (Props.tabs self) /\
         (Tab.minPressure tab <? pressure) && (pressure <? Tab.maxPressure tab)
         = true) ->
      getPressureErrors pressure self = (OK [], self)).
Proof.
  split; [reflexivity|]. unfold getPressureErrors, bind, getProperty, ret.
  split; intros H.
  - now rewrite pressureErrorsLoop_outside.
  - now rewrite pressureErrorsLoop_inside.
Qed.

Lemma getPressureErrors_spec_witness :
  getPressureErrors 100 twoTabs = (OK [pressureRangeAlert], twoTabs)
  /\ getPressureErrors 150 twoTabs = (OK [], twoTabs).
Proof.
  split.
  - apply (getPressureErrors_spec twoTabs 100).
    intros tab [<-|[<-|[]]]; reflexivity.
  - apply (getPressureErrors_spec twoTabs 150).
    exists highTab. split; [right; left; reflexivity|reflexivity].
Defined.

(* ===================================================================== *)
(** * Tab selection: getCombustionProperties *)
(* ===================================================================== *)

Lemma combustionLoop_first_in_range pressure pre tab post c cp :
  forallb (fun o => negb (in_range pressure o)) pre = true ->
  in_range pressure tab = true ->
  combustionLoop pressure (pre ++ tab :: post) c cp = OK (properties_of tab).
Proof.
  revert c cp. induction pre as [|o pre IH]; intros c cp Hpre Hin; simpl.
  - now rewrite Hin.
  - simpl in Hpre. apply andb_true_iff in Hpre as [Ho Hpre].
    apply negb_true_iff in Ho. rewrite Ho.
    destruct (_ <? cp); destruct (_ <? _); apply IH; assumption.
Qed.

Lemma closer_round pressure tab c cp :
  numeric pressure tab = true -> notnan cp = true ->
  (let '(c1, cp1) :=
     if fabs (pressure - Tab.minPressure tab) <? cp
     then (Some tab, fabs (pressure - Tab.minPressure tab))
     else (c, cp) in
   if fabs (pressure - Tab.maxPressure tab) <? cp1
   then (Some tab, fabs (pressure - Tab.maxPressure tab))
   else (c1, cp1))
  = closer pressure (c, cp) tab.
Proof.
  unfold numeric, closer, nearest_limit, py_min2. cbn [snd].
  set (d1 := fabs (pressure - Tab.minPressure tab)).
  set (d2 := fabs (pressure - Tab.maxPressure tab)).
  intros Hn Hcp. apply andb_true_iff in Hn as [Hd1 Hd2].
  destruct (d1 <? cp) eqn:E1.
  - destruct (d2 <? d1) eqn:E2.
    + now rewrite (ltb_trans _ _ _ E2 E1).
    + now rewrite E1.
  - destruct (d2 <? cp) eqn:E2.
    + assert (E3 : (d2 <? d1) = true).
      { eapply ltb_leb_trans; [exact E2|]. now apply not_ltb_leb. }
      now rewrite E3, E2.
    + destruct (d2 <? d1); [now rewrite E2|now rewrite E1].
Qed.

Lemma closer_notnan pressure tab st :
  numeric pressure tab = true -> notnan (snd st) = true ->
  notnan (snd (closer pressure st tab)) = true.
Proof.
  intros Hn Hst. unfold closer.
  destruct (_ <? snd st) eqn:E; [|exact Hst].
  cbn [snd]. eapply ltb_notnan_l. exact E.
Qed.

Lemma combustionLoop_fallback pressure tabs c cp :
  forallb (fun o => negb (in_range pressure o)) tabs = true ->
  forallb (numeric pressure) tabs = true ->
  notnan cp = true ->
  combustionLoop pressure tabs c cp
  = lookup (fst (fold_left (closer pressure) tabs (c, cp))).
Proof.
  revert c cp. induction tabs as [|tab rest IH]; intros c cp Hout Hnum Hcp.
  - reflexivity.
  - simpl in Hout, Hnum.
    apply andb_true_iff in Hout as [Ho Hout].
    apply andb_true_iff in Hnum as [Hn Hnum].
    apply negb_true_iff in Ho.
    cbn [combustionLoop fold_left]. rewrite Ho.
    pose proof (closer_round pressure tab c cp Hn Hcp) as Hr.
    pose proof (closer_notnan pressure tab (c, cp) Hn Hcp) as Hnn.
    destruct (closer pressure (c, cp) tab) as [c2 cp2] eqn:E2.
    destruct (fabs (pressure - Tab.minPressure tab) <? cp);
      destruct (_ <? _); inversion Hr; subst; apply IH; assumption.
Qed.

(** Rounds over tabs that are all farther than [tab] keep the running
    distance above the distance of [tab]. *)
Lemma closer_stays_above pressure tab pre st :
  (nearest_limit pressure tab <? snd st) = true ->
  forallb (fun o => nearest_limit pressure tab <? nearest_limit pressure o)
          pre = true ->
  (nearest_limit pressure tab <? snd (fold_left (closer pressure) pre st))
  = true.
Proof.
  revert st. induction pre as [|o pre IH]; intros st Hst Hpre; simpl.
  - exact Hst.
  - simpl in Hpre. apply andb_true_iff in Hpre as [Ho Hpre].
    apply IH; [|exact Hpre]. unfold closer.
    destruct (nearest_limit pressure o <? snd st); [exact Ho|exact Hst].
Qed.

(** Rounds over tabs that are not nearer than [tab] keep [tab]. *)
Lemma closer_keeps pressure tab post :
  forallb (fun o => nearest_limit pressure tab <=? nearest_limit pressure o)
          post = true ->
  fold_left (closer pressure) post (Some tab, nearest_limit pressure tab)
  = (Some tab, nearest_limit pressure tab).
Proof.
  induction post as [|o post IH]; intros Hpost; simpl.
  - reflexivity.
  - simpl in Hpost. apply andb_true_iff in Hpost as [Ho Hpost].
    unfold closer at 2. cbn [snd]. rewrite (leb_not_ltb _ _ Ho). now apply IH.
Qed.

Lemma closer_first_nearest pressure pre tab post c cp :
  (nearest_limit pressure tab <? cp) = true ->
  first_nearest (pre ++ tab :: post) pressure (List.length pre) tab = true ->
  fold_left (closer pressure) (pre ++ tab :: post) (c, cp)
  = (Some tab, nearest_limit pressure tab).
Proof.
  intros Hcp Hfirst. unfold first_nearest in Hfirst.
  apply andb_true_iff in Hfirst as [Hall Hpre].
  rewrite firstn_app, firstn_all, Nat.sub_diag in Hpre.
  simpl in Hpre. rewrite app_nil_r in Hpre.
  rewrite forallb_app in Hall. apply andb_true_iff in Hall as [_ Hall].
  simpl in Hall. apply andb_true_iff in Hall as [_ Hpost].
  rewrite fold_left_app. cbn [fold_left].
  pose proof (closer_stays_above pressure tab pre (c, cp) Hcp Hpre) as Habove.
  unfold closer at 2. rewrite Habove. now apply closer_keeps.
Qed.

Lemma selects_combustionLoop tabs pressure i tab :
  selects tabs pressure i = true ->
  nth_error tabs i = Some tab ->
  combustionLoop pressure tabs None 1e100 = OK (properties_of tab).
Proof.
  unfold selects. intros Hsel Hnth. rewrite Hnth in Hsel.
  destruct (nth_error_split tabs i Hnth) as (pre & post & -> & Hlen).
  apply orb_true_iff in Hsel as [Hsel|Hsel].
  - apply andb_true_iff in Hsel as [Hin Hpre].
    rewrite <- Hlen, firstn_app, firstn_all, Nat.sub_diag in Hpre.
    simpl in Hpre. rewrite app_nil_r in Hpre.
    now apply combustionLoop_first_in_range.
  - apply andb_true_iff in Hsel as [Hsel Hfirst].
    apply andb_true_iff in Hsel as [Hsel Hlt].
    apply andb_true_iff in Hsel as [Hout Hnum].
    rewrite combustionLoop_fallback by (auto; reflexivity).
    subst i. now rewrite (closer_first_nearest _ _ _ _ _ _ Hlt Hfirst).
Qed.

Section FirstMinimum.
Context {A : Type} (key : A -> float).

(** In a list some element satisfies [f]: the first one that does. *)
Lemma first_satisfying (f : A -> bool) (l : list A) :
  existsb f l = true ->
  exists i x, nth_error l i = Some x /\ f x = true
              /\ forallb (fun o => negb (f o)) (firstn i l) = true.
Proof.
  induction l as [|y l IH]; simpl; intros H; [discriminate|].
  destruct (f y) eqn:E.
  - exists 0%nat, y. repeat split; assumption.
  - destruct (IH H) as (i & x & Hn & Hx & Hpre).
    exists (S i), x. simpl. rewrite E. repeat split; assumption.
Qed.

(** A non-empty list of numbers has a first minimum. *)
Lemma first_minimum (l : list A) :
  l <> [] ->
  forallb (fun o => notnan (key o)) l = true ->
  exists i x, nth_error l i = Some x
              /\ forallb (fun o => key x <=? key o) l = true
              /\ forallb (fun o => key x <? key o) (firstn i l) = true.
Proof.
  induction l as [|y l IH]; intros Hne Hnum; [congruence|].
  simpl in Hnum. apply andb_true_iff in Hnum as [Hy Hnum].
  destruct l as [|z l].
  - exists 0%nat, y. simpl. rewrite (leb_refl _ Hy). repeat split.
  - assert (Hr : z :: l <> []) by discriminate.
    remember (z :: l) as r eqn:Er. clear Er.
    destruct (IH Hr Hnum) as (i & x & Hn & Hall & Hpre).
    destruct (key x <? key y) eqn:E.
    + exists (S i), x. cbn [nth_error firstn forallb].
      rewrite (ltb_leb _ _ E), E. repeat split; assumption.
    + exists 0%nat, y. cbn [nth_error firstn]. repeat split.
      assert (Hx : notnan (key x) = true).
      { apply nth_error_In in Hn. rewrite forallb_forall in Hnum.
        now apply Hnum. }
      pose proof (not_ltb_leb _ _ Hx Hy E) as Hyx.
      cbn [forallb]. rewrite (leb_refl _ Hy). cbn [andb].
      apply forallb_forall. intros o Ho. rewrite forallb_forall in Hall.
      eapply leb_trans; [exact Hyx|]. now apply Hall.
Qed.

End FirstMinimum.

Lemma numeric_nearest_limit pressure tab :
  numeric pressure tab = true -> notnan (nearest_limit pressure tab) = true.
Proof.
  unfold numeric, nearest_limit, py_min2. intros H.
  apply andb_true_iff in H as [H1 H2]. now destruct (_ <? _).
Qed.

Lemma selects_total tabs pressure :
  reachable tabs pressure -> exists i, selects tabs pressure i = true.
Proof.
  unfold reachable. intros H.
  destruct (existsb (in_range pressure) tabs) eqn:E.
  - destruct (first_satisfying (in_range pressure) tabs E)
      as (i & x & Hn & Hx & Hpre).
    exists i. unfold selects. now rewrite Hn, Hx, Hpre.
  - destruct H as [H|[Hnum Hnear]]; [congruence|].
    assert (Hout : forallb (fun o => negb (in_range pressure o)) tabs = true).
    { apply forallb_forall. intros o Ho. apply negb_true_iff.
      destruct (in_range pressure o) eqn:Eo; [|reflexivity].
      assert (existsb (in_range pressure) tabs = true)
        by (apply existsb_exists; eauto).
      congruence. }
    assert (Hne : tabs <> []) by (destruct tabs; [discriminate|discriminate]).
    destruct (first_minimum (nearest_limit pressure) tabs Hne)
      as (i & x & Hn & Hall & Hpre).
    { apply forallb_forall. intros o Ho. apply numeric_nearest_limit.
      rewrite forallb_forall in Hnum. now apply Hnum. }
    exists i. unfold selects, first_nearest. rewrite Hn, Hout, Hnum, Hall, Hpre.
    apply existsb_exists in Hnear as (o & Ho & Hlt).
    rewrite forallb_forall in Hall.
    rewrite (leb_ltb_trans _ _ _ (Hall o Ho) Hlt).
    apply orb_true_r.
Qed.

Lemma selects_nth tabs pressure i :
  selects tabs pressure i = true -> exists tab, nth_error tabs i = Some tab.
Proof.
  unfold selects. destruct (nth_error tabs i) as [tab|]; [eauto|discriminate].
Qed.

Lemma reachable_selected tabs pressure :
  reachable tabs pressure ->
  exists i tab, selects tabs pressure i = true /\ nth_error tabs i = Some tab.
Proof.
  intros H. destruct (selects_total tabs pressure H) as [i Hi].
  destruct (selects_nth tabs pressure i Hi) as [tab Htab]. eauto.
Qed.

Lemma selects_getCombustionProperties self pressure i tab :
  selects (Props.tabs self) pressure i = true ->
  nth_error (Props.tabs self) i = Some tab ->
  getCombustionProperties pressure self = (OK (properties_of tab), self).
Proof.
  intros Hsel Hnth.
  unfold getCombustionProperties, bind, getProperty, lift.
  now rewrite (selects_combustionLoop _ _ _ _ Hsel Hnth).
Qed.

(** C1 (as the code has it).  The tab used by [getCombustionProperties],
    and through it by [getBurnRate] and [getCStar], is the first tab whose
    open window (minPressure, maxPressure) holds the pressure; when no
    open window holds it, it is the first tab in stored order that
    minimises min(|p - minPressure|, |p - maxPressure|), provided the
    distances are numbers and that minimum is below 1e100.  Such a tab
    exists as soon as some open window holds the pressure, or all
    distances are numbers and one of them is below 1e100. *)
Theorem tab_selection (self : Propellant) (pressure : float) :
  (forall i tab,
     selects (Props.tabs self) pressure i = true ->
     nth_error (Props.tabs self) i = Some tab ->
     getCombustionProperties pressure self = (OK (properties_of tab), self))
  /\ (reachable (Props.tabs self) pressure ->
      exists i, selects (Props.tabs self) pressure i = true).
Proof.
  split.
  - intros i tab. apply selects_getCombustionProperties.
  - apply selects_total.
Qed.

Lemma tab_selection_witness :
  getCombustionProperties 100 twoTabs = (OK (properties_of lowTab), twoTabs)
  /\ getCombustionProperties 150 twoTabs = (OK (properties_of highTab), twoTabs)
  /\ exists i, selects (Props.tabs twoTabs) 250 i = true.
Proof.
  split; [|split].
  - apply (proj1 (tab_selection twoTabs 100) 0%nat lowTab); reflexivity.
  - apply (proj1 (tab_selection twoTabs 150) 1%nat highTab); reflexivity.
  - apply (proj2 (tab_selection twoTabs 250)). right. split; reflexivity.
Defined.

(** The starting value of [closestPressure] bounds the fallback: with
    every distance at or above 1e100 no tab is kept and the lookup in the
    empty [closest] raises. *)
Example far_pressure_raises :
  getCombustionProperties 1e200 twoTabs = (Raise (KeyError "a"), twoTabs).
Proof. reflexivity. Qed.

(** Two floats that compare different are different. *)
Lemma float_neq (x y : float) : (x =? y) = false -> notnan x = true -> x <> y.
Proof. unfold notnan. intros H Hx ->. congruence. Qed.

(** C1 (as written) fails.  With the ranges 0..100 and 100..200 and the
    pressure 100, the half-open window of the second tab holds the
    pressure and that of the first does not, so the written rule chooses
    the second tab; the code returns the properties of the first. *)
Lemma written_rule_counterexample :
  written_rule (Props.tabs twoTabs) 100 1%nat = true
  /\ written_rule (Props.tabs twoTabs) 100 0%nat = false
  /\ nth_error (Props.tabs twoTabs) 1%nat = Some highTab
  /\ getCombustionProperties 100 twoTabs
     = (OK (properties_of lowTab), twoTabs)
  /\ getCombustionProperties 100 twoTabs
     <> (OK (properties_of highTab), twoTabs).
Proof.
  repeat split. intros H.
  assert (E : Tab.a lowTab = Tab.a highTab) by (vm_compute in H; congruence).
  revert E. apply float_neq; reflexivity.
Qed.

(* ===================================================================== *)
(** * getPressureFromKn *)
(* ===================================================================== *)

Section SortHead.
Context {A : Type} (key : A -> float).

Lemma insert_by_In x y l : In y (insert_by key x l) -> y = x \/ In y l.
Proof.
  induction l as [|z l IH]; simpl.
  - intros [<-|[]]. now left.
  - destruct (key z <? key x); simpl.
    + intros [<-|H]; [right; now left|].
      destruct (IH H) as [->|H']; [now left|right; now right].
    + intros [<-|[<-|H]]; [now left|right; now left|right; now right].
Qed.

Lemma sort_by_In y l : In y (sort_by key l) -> In y l.
Proof.
  induction l as [|x l IH]; simpl; [trivial|].
  intros H. destruct (insert_by_In _ _ _ H) as [->|H']; [now left|].
  right. now apply IH.
Qed.

Lemma In_insert_by x y l : y = x \/ In y l -> In y (insert_by key x l).
Proof.
  induction l as [|z l IH]; simpl.
  - intros [->|[]]. now left.
  - destruct (key z <? key x); simpl.
    + intros [->|[->|H]]; [right; apply IH; now left|now left|].
      right. apply IH. now right.
    + intros [->|[->|H]]; [now left|right; now left|right; now right].
Qed.

Lemma In_sort_by y l : In y l -> In y (sort_by key l).
Proof.
  induction l as [|x l IH]; simpl; [trivial|].
  intros [->|H]; apply In_insert_by; [now left|right; now apply IH].
Qed.

(** The sorted list starts with the first minimum of the list. *)
Lemma sort_by_head (l : list A) (i : nat) (x : A) :
  nth_error l i = Some x ->
  forallb (fun o => key x <=? key o) l = true ->
  forallb (fun o => key x <? key o) (firstn i l) = true ->
  exists rest, sort_by key l = x :: rest.
Proof.
  revert i. induction l as [|y l IH]; intros i Hn Hall Hpre.
  - destruct i; discriminate.
  - simpl in Hall. apply andb_true_iff in Hall as [Hy Hall].
    destruct i as [|i]; simpl in Hn.
    + inversion Hn; subst y. simpl.
      destruct (sort_by key l) as [|h t] eqn:E; simpl; [eauto|].
      assert (Hh : In h l) by (apply sort_by_In; rewrite E; now left).
      rewrite forallb_forall in Hall.
      rewrite (leb_not_ltb _ _ (Hall h Hh)). eauto.
    + simpl in Hpre. apply andb_true_iff in Hpre as [Hxy Hpre].
      destruct (IH i Hn Hall Hpre) as [rest Hrest].
      simpl. rewrite Hrest. simpl. rewrite Hxy. eauto.
Qed.

(** ** The sort with its unordered case *)

Variable sort_unordered : unordered A.

Lemma list_sort_numbers (l : list A) :
  forallb (fun x => notnan (key x)) l = true ->
  list_sort key sort_unordered l = sort_by key l.
Proof. unfold list_sort. now intros ->. Qed.

Lemma list_sort_In (y : A) (l : list A) :
  In y (list_sort key sort_unordered l) <-> In y l.
Proof.
  unfold list_sort. destruct (forallb _ l).
  - split; [apply sort_by_In|apply In_sort_by].
  - destruct (sort_unordered l) as [l' Hp]. cbn [proj1_sig]. split.
    + apply Permutation_in. now apply Permutation_sym.
    + now apply Permutation_in.
Qed.

Lemma list_sort_single (x : A) : list_sort key sort_unordered [x] = [x].
Proof.
  unfold list_sort. destruct (forallb _ [x]); [reflexivity|].
  destruct (sort_unordered [x]) as [l' Hp]. cbn [proj1_sig].
  now apply Permutation_length_1_inv.
Qed.

Lemma list_sort_head (l : list A) :
  l <> [] -> exists x rest, list_sort key sort_unordered l = x :: rest
                            /\ In x l.
Proof.
  intros Hne. destruct (list_sort key sort_unordered l) as [|x rest] eqn:E.
  - destruct l as [|y l]; [congruence|].
    assert (H : In y (list_sort key sort_unordered (y :: l)))
      by (apply list_sort_In; now left).
    rewrite E in H. destruct H.
  - exists x, rest. split; [reflexivity|].
    apply list_sort_In. rewrite E. now left.
Qed.

End SortHead.

Lemma forallb_over_map {A B} (f : B -> bool) (g : A -> B) (l : list A) :
  forallb f (map g l) = forallb (fun x => f (g x)) l.
Proof. induction l as [|x l IH]; simpl; [reflexivity|now rewrite IH]. Qed.

(** ** The distance between two floats does not depend on their order *)

Lemma binary_round_abs (s s' : bool) (m : positive) (e : Z) :
  SFabs (binary_round prec emax s m e) = SFabs (binary_round prec emax s' m e).
Proof.
  unfold binary_round.
  destruct (shl_align m e _) as [mz ez]. unfold binary_round_aux.
  destruct (shr_fexp prec emax (Z.pos mz) ez loc_Exact) as [mrs e1].
  destruct (shr_fexp prec emax _ e1 loc_Exact) as [mrs2 e2].
  destruct (shr_m mrs2); try reflexivity.
  destruct (e2 <=? emax - prec)%Z; reflexivity.
Qed.

Lemma binary_normalize_abs (m e : Z) :
  SFabs (binary_normalize prec emax m e false)
  = SFabs (binary_normalize prec emax (- m) e false).
Proof.
  destruct m; cbn [binary_normalize Z.opp]; [reflexivity| |];
    apply binary_round_abs.
Qed.

Lemma SFsub_abs (x y : spec_float) :
  SFabs (SF64sub x y) = SFabs (SF64sub y x).
Proof.
  unfold SF64sub.
  destruct x as [sx|sx| |sx mx ex], y as [sy|sy| |sy my ey];
    try destruct sx; try destruct sy; try reflexivity;
    cbn [SFsub]; cbv zeta;
    change IntDef.Z.min with Z.min;
    rewrite (Z.min_comm ey ex);
    rewrite binary_normalize_abs; f_equal; f_equal; lia.
Qed.

Lemma abs_sub_swap (x y : float) : fabs (x - y) = fabs (y - x).
Proof.
  apply Prim2SF_inj. rewrite !abs_spec, !sub_spec. apply SFsub_abs.
Qed.

(** The error the loop records is the distance to the nearer limit. *)
Lemma boundary_error_nearest_limit (tab : PropellantTab) (p : float) :
  boundary_error tab p = nearest_limit p tab.
Proof.
  unfold boundary_error, nearest_limit.
  now rewrite (abs_sub_swap (Tab.minPressure tab) p).
Qed.

Lemma leb_notnan_r x y : (x <=? y) = true -> notnan y = true.
Proof.
  intros H. apply FloatOrder.leb_rank in H as (a & b & _ & Hb & _).
  apply FloatOrder.notnan_rank. eauto.
Qed.

Section KnRule.
Variable gasConstant : float.
Variable py : Python.
Variables kn density lo hi : float.

Local Abbreviation tab_formula' := (tab_formula gasConstant py kn density).
Local Abbreviation passed_over' :=
  (passed_over gasConstant py kn density lo hi).
Local Abbreviation recorded' := (recorded gasConstant py kn density).
Local Abbreviation kn_selects' :=
  (kn_selects gasConstant py kn density lo hi).
Local Abbreviation kn_raises' :=
  (kn_raises gasConstant py kn density lo hi).
Local Abbreviation kn_unordered' :=
  (kn_unordered gasConstant py kn density lo hi).

(** The loop computes the pressure of a tab in the order of the
    formula. *)
Lemma tabPressure_formula (tab : PropellantTab) :
  tabPressure gasConstant py kn density tab = tab_formula' tab.
Proof. reflexivity. Qed.

Lemma knLoop_round (self : Propellant) tab rest acc p :
  py_min (map Tab.minPressure (Props.tabs self)) = OK lo ->
  py_max (map Tab.maxPressure (Props.tabs self)) = OK hi ->
  tab_formula' tab = OK (Float p) ->
  knLoop gasConstant py kn density (tab :: rest) acc self
  = if accepts lo hi tab p then (OK p, self)
    else knLoop gasConstant py kn density rest
           (acc ++ [(nearest_limit p tab, p)]) self.
Proof.
  intros Hlo Hhi Hp. cbn [knLoop]. rewrite tabPressure_formula.
  unfold getMinimumValidPressure, getMaximumValidPressure.
  unfold bind, lift, getProperty, ret, accepts.
  rewrite Hp, Hlo.
  destruct ((Tab.minPressure tab =? lo) && (p <? Tab.maxPressure tab));
    [reflexivity|].
  rewrite Hhi.
  destruct ((Tab.maxPressure tab =? hi) && (Tab.minPressure tab <? p));
    [reflexivity|].
  destruct ((Tab.minPressure tab <? p) && (p <? Tab.maxPressure tab));
    [reflexivity|].
  now rewrite boundary_error_nearest_limit.
Qed.

Lemma knLoop_raise (self : Propellant) tab rest acc e :
  tab_formula' tab = Raise e ->
  knLoop gasConstant py kn density (tab :: rest) acc self = (Raise e, self).
Proof.
  intros He. cbn [knLoop]. rewrite tabPressure_formula.
  unfold bind, lift. now rewrite He.
Qed.

Lemma knLoop_complex (self : Propellant) tab rest acc z :
  py_min (map Tab.minPressure (Props.tabs self)) = OK lo ->
  py_max (map Tab.maxPressure (Props.tabs self)) = OK hi ->
  tab_formula' tab = OK (Complex z) ->
  knLoop gasConstant py kn density (tab :: rest) acc self
  = (Raise (if Tab.minPressure tab =? lo
            then complex_lt_float else float_lt_complex), self).
Proof.
  intros Hlo Hhi Hz. cbn [knLoop]. rewrite tabPressure_formula.
  unfold getMinimumValidPressure, getMaximumValidPressure.
  unfold bind, lift, getProperty, ret.
  rewrite Hz, Hlo. destruct (Tab.minPressure tab =? lo); [reflexivity|].
  now rewrite Hhi.
Qed.

Lemma passed_over_inv (tab : PropellantTab) :
  passed_over' tab = true ->
  exists p, tab_formula' tab = OK (Float p)
            /\ accepts lo hi tab p = false
            /\ recorded' tab = (nearest_limit p tab, p).
Proof.
  unfold passed_over, recorded.
  destruct (tab_formula' tab) as [[p|z]|e]; try discriminate.
  intros H. apply negb_true_iff in H. eauto.
Qed.

(** Passing over the tabs [pre] adds their candidates to the list. *)
Lemma knLoop_skip (self : Propellant) pre post acc :
  py_min (map Tab.minPressure (Props.tabs self)) = OK lo ->
  py_max (map Tab.maxPressure (Props.tabs self)) = OK hi ->
  forallb passed_over' pre = true ->
  knLoop gasConstant py kn density (pre ++ post) acc self
  = knLoop gasConstant py kn density post (acc ++ map recorded' pre) self.
Proof.
  intros Hlo Hhi. revert acc.
  induction pre as [|o pre IH]; intros acc Hpre.
  - cbn [List.app map]. now rewrite app_nil_r.
  - simpl in Hpre. apply andb_true_iff in Hpre as [Ho Hpre].
    destruct (passed_over_inv o Ho) as (q & Eq & Hacc & Hrec).
    cbn [List.app map].
    rewrite (knLoop_round self o _ acc q Hlo Hhi Eq), Hacc.
    rewrite (IH _ Hpre), Hrec, <- app_assoc. reflexivity.
Qed.

Lemma knLoop_accepts (self : Propellant) pre tab post acc p :
  py_min (map Tab.minPressure (Props.tabs self)) = OK lo ->
  py_max (map Tab.maxPressure (Props.tabs self)) = OK hi ->
  forallb passed_over' pre = true ->
  tab_formula' tab = OK (Float p) ->
  accepts lo hi tab p = true ->
  knLoop gasConstant py kn density (pre ++ tab :: post) acc self
  = (OK p, self).
Proof.
  intros Hlo Hhi Hpre Hp Hacc.
  rewrite (knLoop_skip self pre _ acc Hlo Hhi Hpre).
  rewrite (knLoop_round self tab post _ p Hlo Hhi Hp). now rewrite Hacc.
Qed.

Lemma knLoop_passed_over (self : Propellant) tabs acc :
  py_min (map Tab.minPressure (Props.tabs self)) = OK lo ->
  py_max (map Tab.maxPressure (Props.tabs self)) = OK hi ->
  forallb passed_over' tabs = true ->
  knLoop gasConstant py kn density tabs acc self
  = match list_sort fst (sort_unordered py) (acc ++ map recorded' tabs) with
    | x :: _ => (OK (snd x), self)
    | [] => (Raise (IndexError "list index out of range"), self)
    end.
Proof.
  intros Hlo Hhi Hall.
  rewrite <- (app_nil_r tabs) at 1.
  rewrite (knLoop_skip self tabs [] acc Hlo Hhi Hall). cbn [knLoop].
  now destruct (list_sort fst (sort_unordered py) _).
Qed.

Lemma split_at (tabs : list PropellantTab) i tab :
  nth_error tabs i = Some tab ->
  exists post, tabs = firstn i tabs ++ tab :: post.
Proof.
  intros Hnth. destruct (nth_error_split _ _ Hnth) as (pre & post & E & Hlen).
  exists post. rewrite E at 2.
  rewrite E, <- Hlen, firstn_app, firstn_all, Nat.sub_diag.
  cbn [firstn]. now rewrite app_nil_r.
Qed.

Lemma kn_selects_knLoop (self : Propellant) i tab p :
  py_min (map Tab.minPressure (Props.tabs self)) = OK lo ->
  py_max (map Tab.maxPressure (Props.tabs self)) = OK hi ->
  kn_selects' (Props.tabs self) i = true ->
  nth_error (Props.tabs self) i = Some tab ->
  tab_formula' tab = OK (Float p) ->
  knLoop gasConstant py kn density (Props.tabs self) [] self
  = (OK p, self).
Proof.
  intros Hlo Hhi Hsel Hnth Hp. unfold kn_selects in Hsel.
  rewrite Hnth, Hp in Hsel. apply orb_true_iff in Hsel as [Hsel|Hsel].
  - apply andb_true_iff in Hsel as [Hacc Hpre].
    destruct (split_at _ _ _ Hnth) as [post E]. rewrite E.
    now apply knLoop_accepts.
  - apply andb_true_iff in Hsel as [Hsel Hpre].
    apply andb_true_iff in Hsel as [Hall Hle].
    rewrite (knLoop_passed_over self _ [] Hlo Hhi Hall). cbn [List.app].
    rewrite list_sort_numbers.
    + destruct (sort_by_head fst (map recorded' (Props.tabs self)) i
                  (recorded' tab)) as [rest ->].
      * now apply map_nth_error.
      * now rewrite forallb_over_map.
      * now rewrite firstn_map, forallb_over_map.
      * unfold recorded. now rewrite Hp.
    + rewrite forallb_over_map. apply forallb_forall. intros o Ho.
      rewrite forallb_forall in Hle. apply (leb_notnan_r _ _ (Hle o Ho)).
Qed.

Lemma kn_raises_knLoop (self : Propellant) i e :
  py_min (map Tab.minPressure (Props.tabs self)) = OK lo ->
  py_max (map Tab.maxPressure (Props.tabs self)) = OK hi ->
  kn_raises' (Props.tabs self) i e ->
  knLoop gasConstant py kn density (Props.tabs self) [] self
  = (Raise e, self).
Proof.
  intros Hlo Hhi (tab & Hnth & Hpre & Hout).
  destruct (split_at _ _ _ Hnth) as [post E]. rewrite E.
  rewrite (knLoop_skip self _ _ [] Hlo Hhi Hpre).
  destruct Hout as [He|(z & Hz & ->)].
  - now apply knLoop_raise.
  - now rewrite (knLoop_complex self tab post _ z Hlo Hhi Hz).
Qed.

(** On unordered keys the result is still the pressure of a tab. *)
Lemma kn_unordered_knLoop (self : Propellant) :
  py_min (map Tab.minPressure (Props.tabs self)) = OK lo ->
  py_max (map Tab.maxPressure (Props.tabs self)) = OK hi ->
  kn_unordered' (Props.tabs self) = true ->
  exists tab p,
    In tab (Props.tabs self)
    /\ tab_formula' tab = OK (Float p)
    /\ knLoop gasConstant py kn density (Props.tabs self) [] self
       = (OK p, self).
Proof.
  intros Hlo Hhi Hun. unfold kn_unordered in Hun.
  apply andb_true_iff in Hun as [Hall Hnan].
  rewrite (knLoop_passed_over self _ [] Hlo Hhi Hall). cbn [List.app].
  destruct (list_sort_head fst (sort_unordered py)
              (map recorded' (Props.tabs self))) as (x & rest & -> & Hx).
  { destruct (Props.tabs self); [discriminate Hnan|discriminate]. }
  apply in_map_iff in Hx as (tab & <- & Hin).
  rewrite forallb_forall in Hall.
  destruct (passed_over_inv tab (Hall tab Hin)) as (p & Hp & _ & ->).
  exists tab, p. auto.
Qed.

(** Every run of the loop on a non-empty list ends in one of the three
    ways. *)
Lemma kn_outcome (tabs : list PropellantTab) :
  tabs <> [] ->
  (exists i, kn_selects' tabs i = true)
  \/ (exists i e, kn_raises' tabs i e)
  \/ kn_unordered' tabs = true.
Proof.
  intros Hne.
  destruct (existsb (fun o => negb (passed_over' o)) tabs) eqn:E.
  - destruct (first_satisfying _ tabs E) as (i & x & Hn & Hx & Hpre).
    assert (Hpre' : forallb passed_over' (firstn i tabs) = true).
    { apply forallb_forall. intros o Ho. rewrite forallb_forall in Hpre.
      specialize (Hpre o Ho). now rewrite negb_involutive in Hpre. }
    apply negb_true_iff in Hx.
    destruct (tab_formula' x) as [[p|z]|e] eqn:Ex.
    + left. exists i. unfold kn_selects. rewrite Hn, Ex.
      unfold passed_over in Hx. rewrite Ex in Hx.
      apply negb_false_iff in Hx. now rewrite Hx, Hpre'.
    + right. left. exists i. eexists. exists x. repeat split; eauto.
    + right. left. exists i, e, x. repeat split; auto.
  - assert (Hall : forallb passed_over' tabs = true).
    { apply forallb_forall. intros o Ho.
      destruct (passed_over' o) eqn:Eo; [reflexivity|].
      assert (existsb (fun o => negb (passed_over' o)) tabs = true).
      { apply existsb_exists. exists o. now rewrite Eo. }
      congruence. }
    destruct (forallb (fun o => notnan (fst (recorded' o))) tabs) eqn:Hnum.
    + left.
      destruct (first_minimum (fun o => fst (recorded' o)) tabs Hne Hnum)
        as (i & x & Hn & Hle & Hpre).
      exists i. unfold kn_selects. rewrite Hn.
      rewrite forallb_forall in Hall.
      destruct (passed_over_inv x (Hall x (nth_error_In _ _ Hn)))
        as (p & -> & _ & _).
      rewrite Hle, Hpre.
      replace (forallb passed_over' tabs) with true
        by (symmetry; now apply forallb_forall).
      apply orb_true_r.
    + right. right. unfold kn_unordered. now rewrite Hall, Hnum.
Qed.

End KnRule.

(** [min(list)] of numbers is an element of the list below all others. *)
Lemma py_min_least (l : list float) (lo : float) :
  forallb notnan l = true -> py_min l = OK lo ->
  In lo l /\ forallb (fun x => lo <=? x) l = true.
Proof.
  destruct l as [|x r]; [discriminate|]. simpl. intros Hnum E.
  inversion E as [E']; clear E E'.
  apply andb_true_iff in Hnum as [Hx Hnum].
  revert x Hx. induction r as [|y r IH]; intros x Hx.
  - simpl. rewrite (leb_refl _ Hx). auto.
  - simpl in Hnum. apply andb_true_iff in Hnum as [Hy Hnum].
    cbn [fold_left]. set (b := if y <? x then y else x).
    assert (Hb : notnan b = true) by (unfold b; now destruct (y <? x)).
    assert (Hbx : (b <=? x) = true /\ (b <=? y) = true /\ (b = x \/ b = y)).
    { unfold b. destruct (y <? x) eqn:E.
      - split; [now apply ltb_leb|split; [now apply leb_refl|now right]].
      - split; [now apply leb_refl|split; [now apply not_ltb_leb|now left]]. }
    destruct Hbx as (Hb1 & Hb2 & Hb3).
    destruct (IH Hnum b Hb) as [Hin Hall].
    apply andb_true_iff in Hall as [Hmb Hall]. split.
    + destruct Hin as [Hin|Hin]; [|right; right; exact Hin].
      rewrite <- Hin. destruct Hb3 as [->| ->]; [now left|right; now left].
    + cbn [forallb]. rewrite Hall, (leb_trans _ _ _ Hmb Hb1),
        (leb_trans _ _ _ Hmb Hb2). reflexivity.
Qed.

(** [max(list)] of numbers is an element of the list above all others. *)
Lemma py_max_greatest (l : list float) (hi : float) :
  forallb notnan l = true -> py_max l = OK hi ->
  In hi l /\ forallb (fun x => x <=? hi) l = true.
Proof.
  destruct l as [|x r]; [discriminate|]. simpl. intros Hnum E.
  inversion E as [E']; clear E E'.
  apply andb_true_iff in Hnum as [Hx Hnum].
  revert x Hx. induction r as [|y r IH]; intros x Hx.
  - simpl. rewrite (leb_refl _ Hx). auto.
  - simpl in Hnum. apply andb_true_iff in Hnum as [Hy Hnum].
    cbn [fold_left]. set (b := if x <? y then y else x).
    assert (Hb : notnan b = true) by (unfold b; now destruct (x <? y)).
    assert (Hbx : (x <=? b) = true /\ (y <=? b) = true /\ (b = x \/ b = y)).
    { unfold b. destruct (x <? y) eqn:E.
      - split; [now apply ltb_leb|split; [now apply leb_refl|now right]].
      - split; [now apply leb_refl|split; [now apply not_ltb_leb|now left]]. }
    destruct Hbx as (Hb1 & Hb2 & Hb3).
    destruct (IH Hnum b Hb) as [Hin Hall].
    apply andb_true_iff in Hall as [Hmb Hall]. split.
    + destruct Hin as [Hin|Hin]; [|right; right; exact Hin].
      rewrite <- Hin. destruct Hb3 as [->| ->]; [now left|right; now left].
    + cbn [forallb]. rewrite Hall, (leb_trans _ _ _ Hb1 Hmb),
        (leb_trans _ _ _ Hb2 Hmb). reflexivity.
Qed.




(* ===================================================================== *)
(** * getErrors *)
(* ===================================================================== *)

(** ** The alert texts tell the tabs apart *)

Lemma string_of_uint_no_space (d : Decimal.uint) :
  no_space (NilEmpty.string_of_uint d) = true.
Proof. induction d; simpl; auto. Qed.

Lemma format_nat_no_space i : no_space (format_nat i) = true.
Proof. apply string_of_uint_no_space. Qed.

Lemma format_nat_inj i j : format_nat i = format_nat j -> i = j.
Proof.
  unfold format_nat. intros H. apply Unsigned.to_uint_inj.
  apply (f_equal NilEmpty.uint_of_string) in H.
  rewrite !NilEmpty.usu in H. congruence.
Qed.

(** Two texts that start with a number and a space agree on both parts. *)
Lemma split_at_space (d1 d2 r1 r2 : string) :
  no_space d1 = true -> no_space d2 = true ->
  (d1 ++ String " " r1 = d2 ++ String " " r2)%string ->
  d1 = d2 /\ r1 = r2.
Proof.
  revert d2. induction d1 as [|c d1 IH]; intros [|c' d2] H1 H2 E; simpl in *.
  - inversion E. auto.
  - inversion E; subst c'. discriminate H2.
  - inversion E; subst c. discriminate H1.
  - inversion E; subst c'.
    apply andb_true_iff in H1 as [_ H1]. apply andb_true_iff in H2 as [_ H2].
    destruct (IH d2 H1 H2 ltac:(assumption)) as [-> ->]. auto.
Qed.

Lemma format_nat_split i j (r1 r2 : string) :
  (format_nat (i + 1) ++ String " " r1
   = format_nat (j + 1) ++ String " " r2)%string ->
  i = j /\ r1 = r2.
Proof.
  intros E. apply split_at_space in E as [E ->];
    try apply format_nat_no_space.
  apply format_nat_inj in E. split; [lia|reflexivity].
Qed.

Lemma sameLimitsAlert_inj i j : sameLimitsAlert i = sameLimitsAlert j -> i = j.
Proof.
  unfold sameLimitsAlert. intros H. injection H as H.
  now apply format_nat_split in H.
Qed.

Lemma reversedLimitsAlert_inj i j :
  reversedLimitsAlert i = reversedLimitsAlert j -> i = j.
Proof.
  unfold reversedLimitsAlert. intros H. injection H as H.
  now apply format_nat_split in H.
Qed.

Lemma overlapAlert_inj i j i' j' :
  overlapAlert i j = overlapAlert i' j' -> i = i' /\ j = j'.
Proof.
  unfold overlapAlert. intros H. injection H as H.
  apply format_nat_split in H as [-> H].
  simpl in H. injection H as H. apply format_nat_split in H as [-> _]. auto.
Qed.

Lemma same_not_reversed i j : sameLimitsAlert i <> reversedLimitsAlert j.
Proof.
  unfold sameLimitsAlert, reversedLimitsAlert. intros H.
  injection H as H.
  apply format_nat_split in H as [_ H]. discriminate H.
Qed.

Lemma same_not_overlap i j j' : sameLimitsAlert i <> overlapAlert j j'.
Proof. unfold sameLimitsAlert, overlapAlert. intros H. discriminate H. Qed.

Lemma reversed_not_overlap i j j' : reversedLimitsAlert i <> overlapAlert j j'.
Proof. unfold reversedLimitsAlert, overlapAlert. intros H. discriminate H. Qed.

(** ** Counting alerts *)

Lemma count_flat_map {A} (g : A -> list SimAlert) (l : list A) (b : SimAlert) :
  count (flat_map g l) b = list_sum (map (fun y => count (g y) b) l).
Proof.
  induction l as [|y l IH]; simpl; [reflexivity|].
  now rewrite count_occ_app, IH.
Qed.

Lemma In_enumerate_from {A} (l : list A) (k i : nat) (x : A) :
  In (i, x) (enumerate_from k l) <->
  (k <= i)%nat /\ nth_error l (i - k) = Some x.
Proof.
  revert k. induction l as [|y l IH]; intros k; simpl.
  - split; [intros []|intros [_ H]]. now destruct (i - k)%nat.
  - rewrite IH. split.
    + intros [E|[Hk Hn]].
      * inversion E; subst. rewrite Nat.sub_diag. split; [lia|reflexivity].
      * split; [lia|]. replace (i - k)%nat with (S (i - S k)) by lia.
        exact Hn.
    + intros [Hk Hn]. destruct (Nat.eq_dec k i) as [->|Hne].
      * rewrite Nat.sub_diag in Hn. left. simpl in Hn. congruence.
      * right. split; [lia|].
        replace (i - k)%nat with (S (i - S k)) in Hn by lia. exact Hn.
Qed.

Lemma list_sum_enumerate_zero {A} (h : nat * A -> nat) (l : list A) (k : nat) :
  (forall i x, In (i, x) (enumerate_from k l) -> h (i, x) = 0%nat) ->
  list_sum (map h (enumerate_from k l)) = 0%nat.
Proof.
  revert k. induction l as [|y l IH]; intros k H; simpl; [reflexivity|].
  rewrite (H k y) by (left; reflexivity).
  rewrite IH; [reflexivity|]. intros i x Hin. apply H. now right.
Qed.

(** A sum over the numbered elements in which one index only counts. *)
Lemma list_sum_enumerate_single {A} (h : nat * A -> nat) (l : list A)
    (k target : nat) (x0 : A) :
  (k <= target)%nat ->
  nth_error l (target - k) = Some x0 ->
  (forall i x, In (i, x) (enumerate_from k l) -> i <> target ->
               h (i, x) = 0%nat) ->
  list_sum (map h (enumerate_from k l)) = h (target, x0).
Proof.
  revert k. induction l as [|y l IH]; intros k Hk Hn H.
  - now destruct (target - k)%nat.
  - simpl. destruct (Nat.eq_dec k target) as [->|Hne].
    + rewrite Nat.sub_diag in Hn. simpl in Hn. inversion Hn; subst y.
      rewrite list_sum_enumerate_zero; [lia|].
      intros i x Hin. apply H; [now right|].
      apply In_enumerate_from in Hin. lia.
    + rewrite (H k y (or_introl eq_refl) Hne).
      replace (target - k)%nat with (S (target - S k)) in Hn by lia.
      simpl in Hn. apply IH; [lia|exact Hn|].
      intros i x Hin. apply H. now right.
Qed.

Lemma tabErrors_parts tabs tabId tab :
  tabErrors tabs tabId tab
  = (if Tab.maxPressure tab =? Tab.minPressure tab
     then [sameLimitsAlert tabId] else [])
    ++ (if Tab.maxPressure tab <? Tab.minPressure tab
        then [reversedLimitsAlert tabId] else [])
    ++ flat_map (overlapErrors tab tabId) (enumerate tabs).
Proof.
  reflexivity.
Qed.

Lemma In_overlapErrors tabs tab i e :
  In e (flat_map (overlapErrors tab i) (enumerate tabs)) <->
  exists j other, nth_error tabs j = Some other /\ i <> j
                  /\ overlaps tab other = true /\ e = overlapAlert i j.
Proof.
  rewrite in_flat_map. split.
  - intros ([j other] & Hin & He).
    apply In_enumerate_from in Hin as [_ Hn]. rewrite Nat.sub_0_r in Hn.
    unfold overlapErrors in He.
    destruct (Nat.eqb_spec i j) as [->|Hne]; [destruct He|].
    destruct (overlaps tab other) eqn:E; [|destruct He].
    destruct He as [<-|[]]. exists j, other. auto.
  - intros (j & other & Hn & Hne & Hov & ->).
    exists (j, other). split.
    + apply In_enumerate_from. rewrite Nat.sub_0_r. split; [lia|exact Hn].
    + unfold overlapErrors.
      destruct (Nat.eqb_spec i j) as [->|_]; [congruence|].
      rewrite Hov. now left.
Qed.

Lemma count_singleton_if (c : bool) (a b : SimAlert) :
  count (if c then [a] else []) b
  = if c then (if SimAlert_eq_dec a b then 1%nat else 0%nat) else 0%nat.
Proof. destruct c; simpl; [|reflexivity]. now destruct (SimAlert_eq_dec a b). Qed.

Lemma count_overlapErrors tabs tab i j other :
  i <> j -> nth_error tabs j = Some other ->
  count (flat_map (overlapErrors tab i) (enumerate tabs)) (overlapAlert i j)
  = if overlaps tab other then 1%nat else 0%nat.
Proof.
  intros Hne Hn. rewrite count_flat_map. unfold enumerate.
  rewrite (list_sum_enumerate_single _ tabs 0 j other);
    [|lia|now rewrite Nat.sub_0_r|].
  - unfold overlapErrors. destruct (Nat.eqb_spec i j); [congruence|].
    rewrite count_singleton_if.
    destruct (SimAlert_eq_dec _ _); [reflexivity|congruence].
  - intros j' o _ Hj'. unfold overlapErrors.
    destruct (Nat.eqb i j'); [reflexivity|]. rewrite count_singleton_if.
    destruct (overlaps tab o); [|reflexivity].
    destruct (SimAlert_eq_dec _ _) as [E|]; [|reflexivity].
    apply overlapAlert_inj in E as [_ E]. congruence.
Qed.

(** The alerts of one tab, counted. *)
Lemma count_tabErrors_same tabs i tab t :
  count (tabErrors tabs i tab) (sameLimitsAlert t)
  = if Nat.eqb i t
    then (if Tab.maxPressure tab =? Tab.minPressure tab then 1%nat else 0%nat)
    else 0%nat.
Proof.
  rewrite tabErrors_parts, !count_occ_app, !count_singleton_if.
  replace (count (flat_map _ _) _) with 0%nat.
  2:{ symmetry. apply count_occ_not_In. intros H.
      apply In_overlapErrors in H as (j & o & _ & _ & _ & E).
      now apply same_not_overlap in E. }
  destruct (SimAlert_eq_dec (reversedLimitsAlert i) _) as [E|_].
  { symmetry in E. now apply same_not_reversed in E. }
  destruct (SimAlert_eq_dec (sameLimitsAlert i) _) as [E|Hne].
  - apply sameLimitsAlert_inj in E as ->. rewrite Nat.eqb_refl.
    destruct (_ =? _), (_ <? _); reflexivity.
  - destruct (Nat.eqb_spec i t) as [->|_]; [congruence|].
    destruct (_ =? _), (_ <? _); reflexivity.
Qed.

Lemma count_tabErrors_reversed tabs i tab t :
  count (tabErrors tabs i tab) (reversedLimitsAlert t)
  = if Nat.eqb i t
    then (if Tab.maxPressure tab <? Tab.minPressure tab then 1%nat else 0%nat)
    else 0%nat.
Proof.
  rewrite tabErrors_parts, !count_occ_app, !count_singleton_if.
  replace (count (flat_map _ _) _) with 0%nat.
  2:{ symmetry. apply count_occ_not_In. intros H.
      apply In_overlapErrors in H as (j & o & _ & _ & _ & E).
      now apply reversed_not_overlap in E. }
  destruct (SimAlert_eq_dec (sameLimitsAlert i) _) as [E|_].
  { now apply same_not_reversed in E. }
  destruct (SimAlert_eq_dec (reversedLimitsAlert i) _) as [E|Hne].
  - apply reversedLimitsAlert_inj in E as ->. rewrite Nat.eqb_refl.
    destruct (_ =? _), (_ <? _); reflexivity.
  - destruct (Nat.eqb_spec i t) as [->|_]; [congruence|].
    destruct (_ =? _), (_ <? _); reflexivity.
Qed.

Lemma count_tabErrors_overlap tabs i tab t j other :
  t <> j -> nth_error tabs j = Some other ->
  count (tabErrors tabs i tab) (overlapAlert t j)
  = if Nat.eqb i t
    then (if overlaps tab other then 1%nat else 0%nat)
    else 0%nat.
Proof.
  intros Hne Hn.
  rewrite tabErrors_parts, !count_occ_app, !count_singleton_if.
  destruct (SimAlert_eq_dec (sameLimitsAlert i) _) as [E|_].
  { now apply same_not_overlap in E. }
  destruct (SimAlert_eq_dec (reversedLimitsAlert i) _) as [E|_].
  { now apply reversed_not_overlap in E. }
  destruct (Nat.eqb_spec i t) as [->|Hit].
  - rewrite (count_overlapErrors tabs tab t j other Hne Hn).
    destruct (_ =? _), (_ <? _); reflexivity.
  - replace (count (flat_map _ _) _) with 0%nat.
    + destruct (_ =? _), (_ <? _); reflexivity.
    + symmetry. apply count_occ_not_In. intros H.
      apply In_overlapErrors in H as (j' & o & _ & _ & _ & E).
      apply overlapAlert_inj in E as [E _]. congruence.
Qed.

Lemma count_getErrors (tabs : list PropellantTab) (b : SimAlert)
    (i : nat) (tab : PropellantTab) :
  nth_error tabs i = Some tab ->
  (forall i' tab', i' <> i -> count (tabErrors tabs i' tab') b = 0%nat) ->
  count (flat_map (fun '(tabId, tab) => tabErrors tabs tabId tab)
           (enumerate tabs)) b
  = count (tabErrors tabs i tab) b.
Proof.
  intros Hn Hother. rewrite count_flat_map. unfold enumerate.
  rewrite (list_sum_enumerate_single _ tabs 0 i tab);
    [reflexivity|lia|now rewrite Nat.sub_0_r|].
  intros i' tab' _ Hne. now apply Hother.
Qed.

Lemma In_singleton_if (c : bool) (a e : SimAlert) :
  In e (if c then [a] else []) -> c = true /\ e = a.
Proof. destruct c; simpl; [intros [<-|[]]; auto|intros []]. Qed.

(** C4. [getErrors] returns exactly one alert for each tab with
    maxPressure == minPressure, exactly one for each tab with
    maxPressure < minPressure, and for each ordered pair of distinct tabs
    (tab, otherTab) exactly one overlap alert when
    otherTab.minPressure < tab.maxPressure < otherTab.maxPressure, none
    otherwise, and nothing else; on the tabs [0,100] and [50,150] this is
    one overlap alert, on the tab [100,100] one alert for equal limits,
    and on the tab [100,50] one alert for reversed limits. *)
Theorem getErrors_spec (self : Propellant) :
  let tabs := Props.tabs self in
  (exists errors, getErrors self = (OK errors, self))
  /\ (forall errors, getErrors self = (OK errors, self) ->
      (forall i tab, nth_error tabs i = Some tab ->
         count errors (sameLimitsAlert i)
         = if Tab.maxPressure tab =? Tab.minPressure tab
           then 1%nat else 0%nat)
      /\ (forall i tab, nth_error tabs i = Some tab ->
            count errors (reversedLimitsAlert i)
            = if Tab.maxPressure tab <? Tab.minPressure tab
              then 1%nat else 0%nat)
      /\ (forall i j tab otherTab,
            i <> j ->
            nth_error tabs i = Some tab ->
            nth_error tabs j = Some otherTab ->
            count errors (overlapAlert i j)
            = if (Tab.minPressure otherTab <? Tab.maxPressure tab)
                 && (Tab.maxPressure tab <? Tab.maxPressure otherTab)
              then 1%nat else 0%nat)
      /\ (forall e, In e errors ->
            exists i tab, nth_error tabs i = Some tab
              /\ ((e = sameLimitsAlert i
                   /\ (Tab.maxPressure tab =? Tab.minPressure tab) = true)
                  \/ (e = reversedLimitsAlert i
                      /\ (Tab.maxPressure tab <? Tab.minPressure tab) = true)
                  \/ (exists j otherTab,
                        nth_error tabs j = Some otherTab /\ i <> j
                        /\ overlaps tab otherTab = true
                        /\ e = overlapAlert i j))))
  /\ getErrors overlapping = (OK [overlapAlert 0 1], overlapping)
  /\ getErrors degenerate = (OK [sameLimitsAlert 0], degenerate)
  /\ getErrors reversed = (OK [reversedLimitsAlert 0], reversed).
Proof.
  intros tabs. split; [eexists; reflexivity|].
  split; [|repeat split].
  intros errors E. unfold getErrors, bind, getProperty, ret in E.
  inversion E as [E']; clear E E'. fold tabs.
  split; [|split; [|split]].
  - intros i tab Hn. rewrite (count_getErrors tabs _ i tab Hn).
    + now rewrite count_tabErrors_same, Nat.eqb_refl.
    + intros i' tab' Hne. rewrite count_tabErrors_same.
      now destruct (Nat.eqb_spec i' i).
  - intros i tab Hn. rewrite (count_getErrors tabs _ i tab Hn).
    + now rewrite count_tabErrors_reversed, Nat.eqb_refl.
    + intros i' tab' Hne. rewrite count_tabErrors_reversed.
      now destruct (Nat.eqb_spec i' i).
  - intros i j tab other Hij Hi Hj.
    rewrite (count_getErrors tabs _ i tab Hi).
    + now rewrite (count_tabErrors_overlap tabs i tab i j other Hij Hj),
        Nat.eqb_refl.
    + intros i' tab' Hne.
      rewrite (count_tabErrors_overlap tabs i' tab' i j other Hij Hj).
      now destruct (Nat.eqb_spec i' i).
  - intros e He. apply in_flat_map in He as ([i tab] & Hin & He).
    apply In_enumerate_from in Hin as [_ Hn]. rewrite Nat.sub_0_r in Hn.
    exists i, tab. split; [exact Hn|].
    rewrite tabErrors_parts in He.
    apply in_app_or in He as [He|He];
      [apply In_singleton_if in He as [Hc ->]; now left|].
    apply in_app_or in He as [He|He];
      [apply In_singleton_if in He as [Hc ->]; right; now left|].
    right; right. now apply In_overlapErrors in He.
Qed.

Lemma getErrors_spec_witness :
  count [overlapAlert 0 1] (overlapAlert 0 1) = 1%nat
  /\ count [overlapAlert 0 1] (overlapAlert 1 0) = 0%nat
  /\ count [sameLimitsAlert 0] (sameLimitsAlert 0) = 1%nat
  /\ count [reversedLimitsAlert 0] (reversedLimitsAlert 0) = 1%nat.
Proof.
  pose proof (proj1 (proj2 (getErrors_spec overlapping))
                [overlapAlert 0 1] eq_refl) as (_ & _ & Hov & _).
  pose proof (proj1 (proj2 (getErrors_spec degenerate))
                [sameLimitsAlert 0] eq_refl) as (Hsame & _).
  pose proof (proj1 (proj2 (getErrors_spec reversed))
                [reversedLimitsAlert 0] eq_refl) as (_ & Hrev & _).
  split; [|split; [|split]].
  - apply (Hov 0%nat 1%nat (range 0 100) (range 50 150));
      [discriminate|reflexivity|reflexivity].
  - apply (Hov 1%nat 0%nat (range 50 150) (range 0 100));
      [discriminate|reflexivity|reflexivity].
  - apply (Hsame 0%nat (range 100 100)). reflexivity.
  - apply (Hrev 0%nat (range 100 50)). reflexivity.
Defined.

(* ===================================================================== *)
(** * The perimeter of a raster with one corner set *)
(* ===================================================================== *)

Example docstring_example :
  find_perimeter get_perimeter (one_hot 3 3 0 0) 0.5 = OK 0.7071067811865476.
Proof. reflexivity. Qed.

(** ** Crossings at the middle of an edge, checked over the covered range *)

Lemma check_range_spec (fuel : nat) (start : N) (p : N -> bool) :
  check_range fuel start p = true ->
  forall i, (start <= i < start + N.of_nat fuel)%N -> p i = true.
Proof.
  revert start. induction fuel as [|fuel IH]; intros start H i Hi.
  - lia.
  - simpl in H. apply andb_true_iff in H as [H0 H].
    destruct (N.eq_dec i start) as [->|Hne]; [exact H0|].
    apply (IH (N.succ start) H). lia.
Qed.

Lemma mid_checked : check_range max_side 0 mid_ok = true.
Proof. vm_compute. reflexivity. Qed.

Lemma mid_spec (i : nat) :
  (N.of_nat i < 65536)%N ->
  crossing (float_of_nat i) (float_of_nat (i + 1)) 0 1 0.5
    - float_of_nat (i + 1) = -0.5
  /\ float_of_nat (i + 1)
     - crossing (float_of_nat i) (float_of_nat (i + 1)) 0 1 0.5 = 0.5.
Proof.
  intros Hi. unfold float_of_nat. rewrite Nat2N.inj_add.
  change (N.of_nat 1) with 1%N.
  pose proof (check_range_spec _ _ _ mid_checked (N.of_nat i)) as H.
  assert (Hr : (0 <= N.of_nat i < 0 + N.of_nat max_side)%N).
  { change (N.of_nat max_side) with 65536%N. lia. }
  specialize (H Hr). unfold mid_ok in H.
  apply andb_true_iff in H as [H1 H2].
  apply Leibniz.eqb_spec in H1. apply Leibniz.eqb_spec in H2.
  split; assumption.
Qed.

(** ** Loops in which one round only does something *)

Lemma fold_left_idle {T} (f : T -> nat -> T) (l : list nat) (a : T) :
  (forall j, In j l -> forall b, f b j = b) -> fold_left f l a = a.
Proof.
  revert a. induction l as [|j l IH]; intros a H; simpl; [reflexivity|].
  rewrite (H j) by (left; reflexivity). apply IH.
  intros j' Hj'. apply H. now right.
Qed.

Lemma fold_left_one {T} (f : T -> nat -> T) (l : list nat) (i : nat) (a : T) :
  NoDup l -> In i l ->
  (forall j, In j l -> j <> i -> forall b, f b j = b) ->
  fold_left f l a = f a i.
Proof.
  revert a. induction l as [|j l IH]; intros a Hnd Hin H; [destruct Hin|].
  inversion Hnd as [|? ? Hj Hnd']; subst. simpl.
  destruct (Nat.eq_dec j i) as [->|Hne].
  - apply fold_left_idle. intros j' Hj' b. apply H; [now right|].
    intros ->. contradiction.
  - rewrite (H j) by (auto; left; reflexivity).
    destruct Hin as [->|Hin]; [congruence|].
    apply IH; auto. intros j' Hj'. apply H. now right.
Qed.

(** ** A raster of zeros with one corner set *)

Lemma one_hot_item rows cols r c i j :
  item (one_hot rows cols r c) [i; j]
  = if Nat.eqb i r && Nat.eqb j c then 1 else 0.
Proof. reflexivity. Qed.

Lemma one_hot_idle_cell rows cols r c r0 c0 :
  (2 <= rows)%nat -> (2 <= cols)%nat ->
  r = 0%nat \/ r = (rows - 1)%nat ->
  c = 0%nat \/ c = (cols - 1)%nat ->
  (r0 < rows - 1)%nat -> (c0 < cols - 1)%nat ->
  r0 <> near rows r \/ c0 <> near cols c ->
  cell_segments (one_hot rows cols r c) 0.5 r0 c0 = [].
Proof.
  intros Hrows Hcols Hr Hc Hr0 Hc0 Hne. unfold cell_segments.
  rewrite !one_hot_item. unfold near in Hne.
  assert (E : (Nat.eqb r0 r = false /\ Nat.eqb (r0 + 1) r = false)
              \/ (Nat.eqb c0 c = false /\ Nat.eqb (c0 + 1) c = false)).
  { destruct Hne as [Hne|Hne]; [left|right];
      rewrite !Nat.eqb_neq;
      [destruct (Nat.eqb_spec r 0)|destruct (Nat.eqb_spec c 0)]; lia. }
  destruct E as [[-> ->]|[E1 E2]].
  - reflexivity.
  - rewrite E1, E2, !andb_false_r. reflexivity.
Qed.

Lemma near_first side : near side 0 = 0%nat.
Proof. reflexivity. Qed.

Lemma near_last n : near (n + 2) (n + 2 - 1) = n.
Proof. unfold near. destruct (Nat.eqb_spec (n + 2 - 1) 0); lia. Qed.

Lemma eqb_succ_l n : Nat.eqb (n + 1) n = false.
Proof. apply Nat.eqb_neq. lia. Qed.

Lemma eqb_succ_r n : Nat.eqb n (n + 2 - 1) = false.
Proof. apply Nat.eqb_neq. lia. Qed.

Lemma eqb_last n : Nat.eqb (n + 1) (n + 2 - 1) = true.
Proof. apply Nat.eqb_eq. lia. Qed.

Arguments crossing : simpl never.
Arguments float_of_nat : simpl never.

Lemma one_hot_corner_cell rows cols r c :
  (2 <= rows)%nat -> (N.of_nat rows <= 65536)%N ->
  (2 <= cols)%nat -> (N.of_nat cols <= 65536)%N ->
  r = 0%nat \/ r = (rows - 1)%nat ->
  c = 0%nat \/ c = (cols - 1)%nat ->
  fold_left (fun total s => total + segment_length s)
    (cell_segments (one_hot rows cols r c) 0.5 (near rows r) (near cols c)) 0
  = sqrt 2 / 2.
Proof.
  intros Hrows Hrows' Hcols Hcols' Hr Hc.
  replace rows with (rows - 2 + 2)%nat in Hr |- * by lia.
  replace cols with (cols - 2 + 2)%nat in Hc |- * by lia.
  destruct (mid_spec (rows - 2)) as [Hr1 Hr2]; [lia|].
  destruct (mid_spec (cols - 2)) as [Hc1 Hc2]; [lia|].
  set (n := (rows - 2)%nat) in *. clearbody n.
  set (k := (cols - 2)%nat) in *. clearbody k.
  unfold cell_segments. rewrite !one_hot_item.
  destruct Hr as [->| ->], Hc as [->| ->];
    rewrite ?near_first, ?near_last, ?Nat.eqb_refl, ?eqb_succ_l, ?eqb_succ_r,
      ?eqb_last, ?andb_false_r, ?andb_false_l.
  all: cbn; rewrite ?Hr1, ?Hr2, ?Hc1, ?Hc2; reflexivity.
Qed.

Lemma one_hot_perimeter rows cols r c :
  (2 <= rows)%nat -> (N.of_nat rows <= 65536)%N ->
  (2 <= cols)%nat -> (N.of_nat cols <= 65536)%N ->
  r = 0%nat \/ r = (rows - 1)%nat ->
  c = 0%nat \/ c = (cols - 1)%nat ->
  get_perimeter (one_hot rows cols r c) 0.5 = sqrt 2 / 2.
Proof.
  intros Hrows Hrows' Hcols Hcols' Hr Hc. unfold get_perimeter.
  change (nth 0 (shape (one_hot rows cols r c)) 0%nat) with rows.
  change (nth 1 (shape (one_hot rows cols r c)) 0%nat) with cols.
  assert (Hnr : (near rows r < rows - 1)%nat).
  { unfold near. destruct (Nat.eqb r 0); lia. }
  assert (Hnc : (near cols c < cols - 1)%nat).
  { unfold near. destruct (Nat.eqb c 0); lia. }
  rewrite (fold_left_one _ _ (near rows r)).
  - rewrite (fold_left_one _ _ (near cols c)).
    + now apply one_hot_corner_cell.
    + apply seq_NoDup.
    + apply in_seq. lia.
    + intros c0 Hc0 Hne total. apply in_seq in Hc0.
      rewrite one_hot_idle_cell; auto; lia.
  - apply seq_NoDup.
  - apply in_seq. lia.
  - intros r0 Hr0 Hne total. apply in_seq in Hr0.
    apply fold_left_idle. intros c0 Hc0 b. apply in_seq in Hc0.
    rewrite one_hot_idle_cell; auto; lia.
Qed.

(** C8. On a raster of zeros in which exactly one corner element is 1.0
    (rows and columns between 2 and 65536), the perimeter query at level
    0.5 returns sqrt(2)/2, the double 0.7071067811865476, which lies
    between 0.70710678 and 0.70710679. *)
Theorem corner_perimeter (rows cols r c : nat) :
  (2 <= rows)%nat -> (N.of_nat rows <= 65536)%N ->
  (2 <= cols)%nat -> (N.of_nat cols <= 65536)%N ->
  r = 0%nat \/ r = (rows - 1)%nat ->
  c = 0%nat \/ c = (cols - 1)%nat ->
  find_perimeter get_perimeter (one_hot rows cols r c) 0.5 = OK (sqrt 2 / 2)
  /\ sqrt 2 / 2 = 0.7071067811865476
  /\ (0.70710678 <? sqrt 2 / 2) && (sqrt 2 / 2 <? 0.70710679) = true.
Proof.
  intros Hrows Hrows' Hcols Hcols' Hr Hc.
  split; [|split; reflexivity].
  unfold find_perimeter, shape_at, ndim. cbn [shape one_hot nth_error res_bind].
  destruct (Nat.ltb_spec rows 2) as [|_]; [lia|].
  cbn [res_bind]. destruct (Nat.ltb_spec cols 2) as [|_]; [lia|].
  cbn. f_equal. now apply one_hot_perimeter.
Qed.

Lemma corner_perimeter_witness :
  find_perimeter get_perimeter (one_hot 3 3 0 0) 0.5 = OK (sqrt 2 / 2)
  /\ find_perimeter get_perimeter (one_hot 4 5 3 4) 0.5 = OK (sqrt 2 / 2).
Proof.
  split.
  - apply (corner_perimeter 3 3 0 0); try lia; left; reflexivity.
  - apply (corner_perimeter 4 5 3 4); try lia; right; reflexivity.
Defined.

(* ===================================================================== *)
(** * The guards of find_perimeter *)
(* ===================================================================== *)

Section Guards.
Variable _get_perimeter : ndarray -> float -> float.

(** A two-dimensional raster with a side below 2 is refused. *)
Lemma find_perimeter_too_small (rows cols : nat) (items : list nat -> float)
    (level : float) :
  (rows < 2)%nat \/ (cols < 2)%nat ->
  find_perimeter _get_perimeter (mkArray [rows; cols] items) level
  = Raise (ValueError "Input array must be at least 2x2.").
Proof.
  intros H. unfold find_perimeter, shape_at. cbn [shape nth_error res_bind].
  destruct (Nat.ltb_spec rows 2); [reflexivity|]. cbn [res_bind].
  destruct (Nat.ltb_spec cols 2); [reflexivity|lia].
Qed.

(** A raster of three or more dimensions whose first two are at least 2
    is refused for its rank. *)
Lemma find_perimeter_rank_above (d0 d1 d2 : nat) (more : list nat)
    (items : list nat -> float) (level : float) :
  (2 <= d0)%nat -> (2 <= d1)%nat ->
  find_perimeter _get_perimeter (mkArray (d0 :: d1 :: d2 :: more) items) level
  = Raise (ValueError "Only 2D arrays are supported.").
Proof.
  intros H0 H1. unfold find_perimeter, shape_at, ndim.
  cbn [shape nth_error res_bind].
  destruct (Nat.ltb_spec d0 2); [lia|]. cbn [res_bind].
  destruct (Nat.ltb_spec d1 2); [lia|]. reflexivity.
Qed.

(** C3 (where the code departs).  On a one-dimensional array of five
    elements the size test reads the missing second entry of the shape:
    the call raises [IndexError] before the test of the rank is reached,
    and not the error of that test; an array without dimensions fails the
    same way on the first entry. *)
Theorem find_perimeter_rank_one (items : list nat -> float) (level : float) :
  find_perimeter _get_perimeter (mkArray [5%nat] items) level
  = Raise (IndexError "tuple index out of range")
  /\ find_perimeter _get_perimeter (mkArray [] items) level
     = Raise (IndexError "tuple index out of range").
Proof. split; reflexivity. Qed.

End Guards.

(* ===================================================================== *)
(** * Further properties of the combustion queries *)
(* ===================================================================== *)

(** ** More on the ordering of binary64 values *)

Lemma eqb_not_ltb (x y : float) :
  (x =? y) = true -> (x <? y) = false /\ (y <? x) = false.
Proof.
  rewrite eqb_spec, !ltb_spec. unfold SFeqb, SFltb.
  rewrite !FloatOrder.SFcompare_rank.
  destruct (rank (Prim2SF x)) as [[[a1 a2] a3]|],
    (rank (Prim2SF y)) as [[[b1 b2] b3]|]; try discriminate.
  unfold lexcmp. rewrite (Z.compare_antisym a1 b1), (Z.compare_antisym a2 b2),
    (Z.compare_antisym a3 b3).
  destruct (a1 ?= b1)%Z, (a2 ?= b2)%Z, (a3 ?= b3)%Z; simpl;
    try discriminate; auto.
Qed.

Lemma nan_spec (x : float) : notnan x = false -> Prim2SF x = S754_nan.
Proof.
  unfold notnan. rewrite eqb_spec. unfold SFeqb.
  rewrite FloatOrder.SFcompare_rank.
  destruct (Prim2SF x) as [s|s| |s m e]; try reflexivity;
    try destruct s; simpl; try discriminate;
    rewrite Z.compare_refl; try rewrite Pos.compare_refl;
    try rewrite Z.compare_refl; discriminate.
Qed.

Lemma nan_ltb_l (x y : float) : Prim2SF x = S754_nan -> (x <? y) = false.
Proof. intros H. rewrite ltb_spec, H. reflexivity. Qed.

Lemma nan_ltb_r (x y : float) : Prim2SF y = S754_nan -> (x <? y) = false.
Proof.
  intros H. rewrite ltb_spec, H. unfold SFltb.
  now destruct (Prim2SF x) as [s|s| |s m e].
Qed.

Lemma nan_distance (x y : float) :
  Prim2SF x = S754_nan -> Prim2SF (fabs (x - y)) = S754_nan.
Proof.
  intros H. rewrite abs_spec, sub_spec, H. reflexivity.
Qed.

(** ** When getCombustionProperties answers *)

Lemma combustionLoop_started pressure tabs c cp :
  exists tab, (Some tab = Some c \/ In tab tabs)
              /\ combustionLoop pressure tabs (Some c) cp
                 = OK (properties_of tab).
Proof.
  revert c cp. induction tabs as [|tab rest IH]; intros c cp.
  - exists c. auto.
  - cbn [combustionLoop]. destruct (in_range pressure tab).
    + exists tab. split; [right; now left|reflexivity].
    + destruct (_ <? cp); destruct (_ <? _); cbv beta iota;
        [ destruct (IH tab (fabs (pressure - Tab.maxPressure tab)))
            as (o & Ho & E)
        | destruct (IH tab (fabs (pressure - Tab.minPressure tab)))
            as (o & Ho & E)
        | destruct (IH tab (fabs (pressure - Tab.maxPressure tab)))
            as (o & Ho & E)
        | destruct (IH c cp) as (o & Ho & E) ];
        exists o; (split; [|exact E]);
        (destruct Ho as [Ho|Ho]; [|right; now right]);
        inversion Ho; subst; auto; right; now left.
Qed.

Lemma combustionLoop_outcome pressure tabs :
  if forallb (out_of_reach pressure) tabs
  then combustionLoop pressure tabs None 1e100 = Raise (KeyError "a")
  else exists tab, In tab tabs
                   /\ combustionLoop pressure tabs None 1e100
                      = OK (properties_of tab).
Proof.
  induction tabs as [|tab rest IH]; [reflexivity|].
  cbn [forallb combustionLoop]. unfold out_of_reach at 1.
  destruct (in_range pressure tab); cbn [negb andb].
  { exists tab. split; [now left|reflexivity]. }
  destruct (fabs (pressure - Tab.minPressure tab) <? 1e100) eqn:E1;
    cbn [negb andb].
  { cbv beta iota.
    destruct (fabs (pressure - Tab.maxPressure tab)
              <? fabs (pressure - Tab.minPressure tab));
      [ destruct (combustionLoop_started pressure rest tab
                    (fabs (pressure - Tab.maxPressure tab)))
          as (o & Ho & E)
      | destruct (combustionLoop_started pressure rest tab
                    (fabs (pressure - Tab.minPressure tab)))
          as (o & Ho & E) ];
      exists o; (split; [|exact E]);
      (destruct Ho as [Ho|Ho]; [|now right]);
      inversion Ho; subst; now left. }
  destruct (fabs (pressure - Tab.maxPressure tab) <? 1e100) eqn:E2;
    cbn [negb andb].
  { destruct (combustionLoop_started pressure rest tab
                (fabs (pressure - Tab.maxPressure tab)))
      as (o & [Ho|Ho] & E).
    - exists o. split; [|exact E]. inversion Ho; subst; now left.
    - exists o. split; [now right|exact E]. }
  destruct (forallb (out_of_reach pressure) rest); [exact IH|].
  destruct IH as (o & Ho & E). exists o. split; [now right|exact E].
Qed.

(** X1. What [getCombustionProperties] returns is always the five
    properties of one of the stored tabs: the fallback never invents or
    mixes values. *)
Theorem getCombustionProperties_from_tabs (self : Propellant)
    (pressure : float) (c : combustion) (self' : Propellant) :
  getCombustionProperties pressure self = (OK c, self') ->
  exists tab, In tab (Props.tabs self) /\ c = properties_of tab.
Proof.
  unfold getCombustionProperties, bind, getProperty, lift. intros H.
  pose proof (combustionLoop_outcome pressure (Props.tabs self)) as Ho.
  destruct (forallb (out_of_reach pressure) (Props.tabs self)).
  - rewrite Ho in H. discriminate H.
  - destruct Ho as (tab & Hin & E). rewrite E in H.
    exists tab. split; [exact Hin|]. congruence.
Qed.

Lemma getCombustionProperties_from_tabs_witness :
  exists tab, In tab (Props.tabs twoTabs)
              /\ properties_of highTab = properties_of tab.
Proof.
  apply (getCombustionProperties_from_tabs twoTabs 150 _ twoTabs).
  reflexivity.
Defined.

(** X2. [getCombustionProperties] raises exactly when every tab is out of
    reach (no open window holds the pressure and no limit is within 1e100
    of it), the empty tab list included; the exception is then the
    [KeyError] of the lookup in the empty [closest], and in every other
    case a value is returned. *)
Theorem getCombustionProperties_raises_iff (self : Propellant)
    (pressure : float) :
  (forallb (out_of_reach pressure) (Props.tabs self) = true ->
   getCombustionProperties pressure self = (Raise (KeyError "a"), self))
  /\ (forallb (out_of_reach pressure) (Props.tabs self) = false ->
      exists c, getCombustionProperties pressure self = (OK c, self))
  /\ (forall e, getCombustionProperties pressure self = (Raise e, self) ->
      e = KeyError "a"
      /\ forallb (out_of_reach pressure) (Props.tabs self) = true).
Proof.
  unfold getCombustionProperties, bind, getProperty, lift.
  pose proof (combustionLoop_outcome pressure (Props.tabs self)) as Ho.
  destruct (forallb (out_of_reach pressure) (Props.tabs self)).
  - rewrite Ho. split; [reflexivity|]. split; [discriminate|].
    intros e H. split; [congruence|reflexivity].
  - destruct Ho as (tab & _ & E). rewrite E.
    split; [discriminate|]. split; [eauto|]. intros e H. discriminate H.
Qed.

Lemma getCombustionProperties_raises_iff_witness :
  getCombustionProperties 1e200 twoTabs = (Raise (KeyError "a"), twoTabs)
  /\ (exists c, getCombustionProperties 250 twoTabs = (OK c, twoTabs)).
Proof.
  split.
  - apply (proj1 (getCombustionProperties_raises_iff twoTabs 1e200)).
    reflexivity.
  - apply (proj1 (proj2 (getCombustionProperties_raises_iff twoTabs 250))).
    reflexivity.
Defined.

(* ===================================================================== *)
(** * getBurnRate and getCStar *)
(* ===================================================================== *)

Section FormulaTheorems.
Variable gasConstant : float.
Variable py : Python.

Lemma formula_of_selected {A} (self : Propellant) (pressure : float)
    (method : M A) (formula : PropellantTab -> res A) :
  (forall tab c,
     getCombustionProperties pressure self = (c, self) ->
     c = OK (properties_of tab) -> method self = (formula tab, self)) ->
  (forall e,
     getCombustionProperties pressure self = (Raise e, self) ->
     method self = (Raise e, self)) ->
  (forall i tab,
     selects (Props.tabs self) pressure i = true ->
     nth_error (Props.tabs self) i = Some tab ->
     method self = (formula tab, self))
  /\ (reachable (Props.tabs self) pressure ->
      exists i tab,
        selects (Props.tabs self) pressure i = true
        /\ nth_error (Props.tabs self) i = Some tab
        /\ method self = (formula tab, self))
  /\ (forallb (out_of_reach pressure) (Props.tabs self) = true ->
      method self = (Raise (KeyError "a"), self))
  /\ (forallb (out_of_reach pressure) (Props.tabs self) = false ->
      exists tab, In tab (Props.tabs self)
                  /\ method self = (formula tab, self)).
Proof.
  intros Hok Hraise.
  assert (H : forall i tab,
     selects (Props.tabs self) pressure i = true ->
     nth_error (Props.tabs self) i = Some tab ->
     method self = (formula tab, self)).
  { intros i tab Hsel Hnth. apply (Hok tab (OK (properties_of tab))); auto.
    now apply (selects_getCombustionProperties self pressure i tab). }
  split; [exact H|]. split; [|split].
  - intros Hr.
    destruct (reachable_selected _ _ Hr) as (i & tab & Hsel & Hnth).
    exists i, tab. repeat split; eauto.
  - intros Hout. apply Hraise.
    unfold getCombustionProperties, bind, getProperty, lift.
    pose proof (combustionLoop_outcome pressure (Props.tabs self)) as Hc.
    rewrite Hout in Hc. now rewrite Hc.
  - intros Hout.
    pose proof (combustionLoop_outcome pressure (Props.tabs self)) as Hc.
    rewrite Hout in Hc. destruct Hc as (tab & Hin & Hc).
    exists tab. split; [exact Hin|].
    apply (Hok tab (OK (properties_of tab))); [|reflexivity].
    unfold getCombustionProperties, bind, getProperty, lift.
    now rewrite Hc.
Qed.

(** C6 (amended). [getBurnRate(p)] is [a * p^n] with [a] and [n] of the
    tab that the selection rule of the code chooses for the pressure [p]:
    the first tab whose open window (minPressure, maxPressure) holds [p],
    otherwise the first tab nearest to [p] when the distances are numbers
    and the least is below 1e100; such a tab exists as soon as an open
    window holds [p] or those conditions hold.  When every tab is out of
    reach of [p] the call raises [KeyError], and in every other case its
    result is [a * p^n] for some tab of the list.  The power can raise
    and can be complex; the propellant is left as it was. *)
Theorem getBurnRate_formula (self : Propellant) (pressure : float) :
  (forall i tab,
     selects (Props.tabs self) pressure i = true ->
     nth_error (Props.tabs self) i = Some tab ->
     getBurnRate py pressure self
     = (burn_rate_formula py (Tab.a tab) (Tab.n tab) pressure, self))
  /\ (reachable (Props.tabs self) pressure ->
      exists i tab,
        selects (Props.tabs self) pressure i = true
        /\ nth_error (Props.tabs self) i = Some tab
        /\ getBurnRate py pressure self
           = (burn_rate_formula py (Tab.a tab) (Tab.n tab) pressure,
              self))
  /\ (forallb (out_of_reach pressure) (Props.tabs self) = true ->
      getBurnRate py pressure self = (Raise (KeyError "a"), self))
  /\ (forallb (out_of_reach pressure) (Props.tabs self) = false ->
      exists tab,
        In tab (Props.tabs self)
        /\ getBurnRate py pressure self
           = (burn_rate_formula py (Tab.a tab) (Tab.n tab) pressure,
              self)).
Proof.
  apply (formula_of_selected self pressure (getBurnRate py pressure)
           (fun tab =>
              burn_rate_formula py (Tab.a tab) (Tab.n tab) pressure)).
  - intros tab c Hc ->. unfold getBurnRate, bind. now rewrite Hc.
  - intros e He. unfold getBurnRate, bind. now rewrite He.
Qed.

(** C7 (amended). [getCStar(p)] is
    sqrt(k*R/m*t) / (k * ((2/(k+1))^((k+1)/(k-1)))^0.5) with [k], [t] and
    [m] of the tab that the selection rule of the code chooses for the
    pressure [p] (the first tab whose open window holds [p], otherwise
    the first nearest tab when the distances are numbers and the least
    is below 1e100) and [R] the gas constant.  When every tab is out of
    reach of [p] the call raises [KeyError], and in every other case its
    result is the formula on some tab of the list.  The formula can
    raise and can be complex; the propellant is left as it was. *)
Theorem getCStar_formula (self : Propellant) (pressure : float) :
  (forall i tab,
     selects (Props.tabs self) pressure i = true ->
     nth_error (Props.tabs self) i = Some tab ->
     getCStar gasConstant py pressure self
     = (cstar_formula gasConstant py
          (Tab.k tab) (Tab.t tab) (Tab.m tab), self))
  /\ (reachable (Props.tabs self) pressure ->
      exists i tab,
        selects (Props.tabs self) pressure i = true
        /\ nth_error (Props.tabs self) i = Some tab
        /\ getCStar gasConstant py pressure self
           = (cstar_formula gasConstant py
                (Tab.k tab) (Tab.t tab) (Tab.m tab), self))
  /\ (forallb (out_of_reach pressure) (Props.tabs self) = true ->
      getCStar gasConstant py pressure self = (Raise (KeyError "a"), self))
  /\ (forallb (out_of_reach pressure) (Props.tabs self) = false ->
      exists tab,
        In tab (Props.tabs self)
        /\ getCStar gasConstant py pressure self
           = (cstar_formula gasConstant py
                (Tab.k tab) (Tab.t tab) (Tab.m tab), self)).
Proof.
  apply (formula_of_selected self pressure
           (getCStar gasConstant py pressure)
           (fun tab =>
              cstar_formula gasConstant py
                (Tab.k tab) (Tab.t tab) (Tab.m tab))).
  - intros tab c Hc ->. unfold getCStar, bind. now rewrite Hc.
  - intros e He. unfold getCStar, bind. now rewrite He.
Qed.

End FormulaTheorems.

Lemma getBurnRate_formula_witness :
  getBurnRate exact 150 twoTabs
  = (burn_rate_formula exact 2 0.5 150, twoTabs)
  /\ burn_rate_formula exact 2 0.5 150 = OK (Float (2 * sqrt 150))
  /\ getBurnRate exact 1e200 twoTabs = (Raise (KeyError "a"), twoTabs).
Proof.
  pose proof (getBurnRate_formula exact twoTabs 150) as (Hsel & _).
  pose proof (getBurnRate_formula exact twoTabs 1e200) as (_ & _ & Hfar & _).
  split; [|split; [reflexivity|]].
  - apply (Hsel 1%nat highTab); reflexivity.
  - apply Hfar. reflexivity.
Defined.

Lemma getCStar_formula_witness :
  getCStar 8314 exact 150 twoTabs
  = (cstar_formula 8314 exact 3 2 4, twoTabs)
  /\ cstar_formula 8314 exact 3 2 4 = OK (Float (sqrt 12471 / 1.5))
  /\ getCStar 8314 exact 1e200 twoTabs = (Raise (KeyError "a"), twoTabs).
Proof.
  pose proof (getCStar_formula 8314 exact twoTabs 150) as (Hsel & _).
  pose proof (getCStar_formula 8314 exact twoTabs 1e200)
    as (_ & _ & Hfar & _).
  split; [|split; [reflexivity|]].
  - apply (Hsel 1%nat highTab); reflexivity.
  - apply Hfar. reflexivity.
Defined.

(** On a negative pressure with the exponent one half the burn rate is
    a complex number, which [getBurnRate] returns. *)
Example getBurnRate_complex :
  getBurnRate exact (-4) wide
  = (OK (Complex (mkComplex 2.4492935982947064e-16 4)), wide).
Proof. reflexivity. Qed.

Lemma Float_neq (x y : float) :
  (x =? y) = false -> notnan x = true -> OK (Float x) <> OK (Float y).
Proof. intros H Hx E. apply (float_neq x y H Hx). congruence. Qed.

(** C6 (as written) fails.  With the ranges 0..100 and 100..200 and the
    pressure 100, the written rule chooses the second tab, whose half-open
    window holds the pressure, and [a * p^n] is 2 * 100^0.5 = 20 there;
    the code takes the first tab and returns 1 * 100^0 = 1.  At the
    pressure 1e200 no tab is within reach and the call raises. *)
Lemma getBurnRate_counterexample :
  written_rule (Props.tabs twoTabs) 100 1%nat = true
  /\ nth_error (Props.tabs twoTabs) 1%nat = Some highTab
  /\ burn_rate_formula exact (Tab.a highTab) (Tab.n highTab) 100
     = OK (Float 20)
  /\ getBurnRate exact 100 twoTabs = (OK (Float 1), twoTabs)
  /\ OK (Float 1) <> OK (Float 20)
  /\ Props.tabs twoTabs <> []
  /\ getBurnRate exact 1e200 twoTabs = (Raise (KeyError "a"), twoTabs).
Proof.
  repeat split; try discriminate; try (apply Float_neq; reflexivity).
Qed.

(** C7 (as written) fails.  The two ranges 0..100 and 100..200 differ in
    temperature, 2 and 8.  At the pressure 100 the written rule chooses
    the second tab, where the formula gives 148.898...; the code takes the
    first and returns 74.449....  At the pressure 1e200 no tab is within
    reach and the call raises. *)
Lemma getCStar_counterexample :
  written_rule (Props.tabs twoTemperatures) 100 1%nat = true
  /\ nth_error (Props.tabs twoTemperatures) 1%nat = Some hotTab
  /\ cstar_formula 8314 exact (Tab.k hotTab) (Tab.t hotTab) (Tab.m hotTab)
     = OK (Float (sqrt 49884 / 1.5))
  /\ getCStar 8314 exact 100 twoTemperatures
     = (OK (Float (sqrt 12471 / 1.5)), twoTemperatures)
  /\ OK (Float (sqrt 12471 / 1.5)) <> OK (Float (sqrt 49884 / 1.5))
  /\ Props.tabs twoTemperatures <> []
  /\ getCStar 8314 exact 1e200 twoTemperatures
     = (Raise (KeyError "a"), twoTemperatures).
Proof.
  repeat split; try discriminate; try (apply Float_neq; reflexivity).
Qed.


(** ** A pressure that is not a number *)

Lemma nan_out_of_reach (pressure : float) (tabs : list PropellantTab) :
  notnan pressure = false -> forallb (out_of_reach pressure) tabs = true.
Proof.
  intros H. apply nan_spec in H. apply forallb_forall. intros tab _.
  unfold out_of_reach, in_range.
  rewrite (nan_ltb_r _ _ H), !(nan_ltb_l _ _ (nan_distance _ _ H)).
  reflexivity.
Qed.

(** X3. A pressure that is NaN is answered by no tab: on every propellant
    [getCombustionProperties], [getBurnRate] and [getCStar] raise
    [KeyError] (they do not return NaN), and [getPressureErrors] returns
    its warning. *)
Theorem nan_pressure_raises (gasConstant : float)
    (py : Python)
    (self : Propellant) (pressure : float) :
  notnan pressure = false ->
  getCombustionProperties pressure self = (Raise (KeyError "a"), self)
  /\ getBurnRate py pressure self = (Raise (KeyError "a"), self)
  /\ getCStar gasConstant py pressure self
     = (Raise (KeyError "a"), self)
  /\ getPressureErrors pressure self = (OK [pressureRangeAlert], self).
Proof.
  intros H.
  pose proof (combustionLoop_outcome pressure (Props.tabs self)) as Ho.
  rewrite (nan_out_of_reach pressure _ H) in Ho.
  unfold getBurnRate, getCStar, getCombustionProperties, getPressureErrors,
    bind, getProperty, lift, ret.
  rewrite Ho. repeat split.
  rewrite pressureErrorsLoop_outside; [reflexivity|].
  intros tab _. unfold in_range.
  now rewrite (nan_ltb_r _ _ (nan_spec _ H)).
Qed.

Lemma nan_pressure_raises_witness :
  getBurnRate exact nan twoTabs = (Raise (KeyError "a"), twoTabs).
Proof.
  apply (nan_pressure_raises 8314 exact twoTabs nan). reflexivity.
Defined.

(** ** No warning, no extrapolation *)

Lemma pressureErrorsLoop_nil pressure tabs :
  pressureErrorsLoop pressure tabs [] = [] ->
  existsb (in_range pressure) tabs = true.
Proof.
  intros H. destruct (existsb (in_range pressure) tabs) eqn:E; [reflexivity|].
  rewrite pressureErrorsLoop_outside in H; [discriminate H|].
  intros tab Hin. destruct (in_range pressure tab) eqn:Et; [|reflexivity].
  assert (existsb (in_range pressure) tabs = true)
    by (apply existsb_exists; eauto).
  congruence.
Qed.

(** X4. When [getPressureErrors(p)] returns no alert, the properties
    [getCombustionProperties(p)] returns are those of a tab whose open
    window holds [p], the first such tab: without a warning nothing is
    taken from a neighbouring range. *)
Theorem no_warning_no_extrapolation (self : Propellant) (pressure : float) :
  getPressureErrors pressure self = (OK [], self) ->
  exists i tab,
    nth_error (Props.tabs self) i = Some tab
    /\ (Tab.minPressure tab <? pressure) && (pressure <? Tab.maxPressure tab)
       = true
    /\ forallb (fun o => negb (in_range pressure o))
               (firstn i (Props.tabs self)) = true
    /\ getCombustionProperties pressure self
       = (OK (properties_of tab), self).
Proof.
  unfold getPressureErrors, bind, getProperty, ret. intros H.
  assert (E : pressureErrorsLoop pressure (Props.tabs self) [] = [])
    by congruence.
  apply pressureErrorsLoop_nil in E.
  destruct (first_satisfying (in_range pressure) _ E)
    as (i & tab & Hn & Hin & Hpre).
  exists i, tab. repeat split; auto.
  apply (selects_getCombustionProperties self pressure i tab); [|exact Hn].
  unfold selects. now rewrite Hn, Hin, Hpre.
Qed.

Lemma no_warning_no_extrapolation_witness :
  exists i tab,
    nth_error (Props.tabs twoTabs) i = Some tab
    /\ (Tab.minPressure tab <? 150) && (150 <? Tab.maxPressure tab) = true
    /\ forallb (fun o => negb (in_range 150 o))
               (firstn i (Props.tabs twoTabs)) = true
    /\ getCombustionProperties 150 twoTabs = (OK (properties_of tab), twoTabs).
Proof.
  apply (no_warning_no_extrapolation twoTabs 150). reflexivity.
Defined.

(** ** getCStar within one tab *)

(** X5. [getCStar] depends on the pressure only through the tab chosen:
    two pressures for which the same tab is selected give the same
    outcome. *)
Theorem getCStar_same_tab (gasConstant : float)
    (py : Python)
    (self : Propellant) (p1 p2 : float) (i : nat) :
  selects (Props.tabs self) p1 i = true ->
  selects (Props.tabs self) p2 i = true ->
  getCStar gasConstant py p1 self
  = getCStar gasConstant py p2 self.
Proof.
  intros H1 H2. destruct (selects_nth _ _ _ H1) as [tab Hn].
  unfold getCStar, bind.
  rewrite (selects_getCombustionProperties self p1 i tab H1 Hn).
  rewrite (selects_getCombustionProperties self p2 i tab H2 Hn).
  reflexivity.
Qed.

Lemma getCStar_same_tab_witness :
  getCStar 8314 exact 120 twoTabs = getCStar 8314 exact 180 twoTabs.
Proof.
  apply (getCStar_same_tab 8314 exact twoTabs 120 180 1%nat);
    reflexivity.
Defined.

(** ** getPressureFromKn: where the result comes from *)

Section KnResults.
Variable gasConstant : float.
Variable py : Python.

(** X6. On a propellant with a single tab [getPressureFromKn] is the
    pressure computed for that tab, whatever its limits are: accepted or
    not, the only candidate is returned, and an exception of the
    computation is passed on.  (A pressure that comes out complex is
    refused by the first comparison, with [TypeError].) *)
Theorem getPressureFromKn_single_tab (self : Propellant)
    (tab : PropellantTab) (kn : float) :
  Props.tabs self = [tab] ->
  getPressureFromKn gasConstant py kn self
  = (match tabPressure gasConstant py kn (Props.density self) tab with
     | OK (Float p) => OK p
     | OK (Complex _) =>
         Raise (if notnan (Tab.minPressure tab)
                then complex_lt_float else float_lt_complex)
     | Raise e => Raise e
     end, self).
Proof.
  intros H. unfold getPressureFromKn, bind at 1 2, getProperty. rewrite H.
  cbn [knLoop]. unfold getMinimumValidPressure, getMaximumValidPressure.
  unfold bind, lift, getProperty, ret. rewrite H.
  destruct (tabPressure gasConstant py kn (Props.density self) tab)
    as [[p|z]|e]; [| |reflexivity].
  - cbn [map py_min fold_left].
    destruct (_ && _); [reflexivity|].
    rewrite H. cbn [map py_max fold_left].
    destruct (_ && _); [reflexivity|].
    destruct (_ && _); [reflexivity|].
    cbn [List.app]. now rewrite list_sort_single.
  - cbn [map py_min fold_left]. unfold notnan.
    destruct (_ =? _); [reflexivity|].
    rewrite H. reflexivity.
Qed.

Lemma knLoop_result (self self' : Propellant) (kn density : float)
    (tabs : list PropellantTab) (acc : list (float * float)) (p : float) :
  knLoop gasConstant py kn density tabs acc self = (OK p, self') ->
  (exists tab, In tab tabs
               /\ tabPressure gasConstant py kn density tab = OK (Float p))
  \/ (exists x, In x acc /\ snd x = p).
Proof.
  revert acc. induction tabs as [|tab rest IH]; intros acc H.
  - right. cbn [knLoop] in H.
    destruct (list_sort fst (sort_unordered py) acc) as [|x s] eqn:E;
      [discriminate H|].
    exists x. split.
    + apply (list_sort_In fst (sort_unordered py)). rewrite E. now left.
    + unfold ret in H. congruence.
  - cbn [knLoop] in H.
    unfold getMinimumValidPressure, getMaximumValidPressure in H.
    unfold bind, lift, getProperty, ret in H.
    destruct (tabPressure gasConstant py kn density tab)
      as [[q|z]|e] eqn:Eq; [| |discriminate H].
    2:{ destruct (py_min _) as [lo|]; [|discriminate H].
        destruct (_ =? _); [discriminate H|].
        destruct (py_max _) as [hi|]; discriminate H. }
    assert (Hq : q = p ->
      exists o, In o (tab :: rest)
                /\ tabPressure gasConstant py kn density o
                   = OK (Float p)).
    { intros <-. exists tab. split; [now left|exact Eq]. }
    destruct (py_min _) as [lo|]; [|discriminate H].
    destruct (_ && _); [left; apply Hq; congruence|].
    destruct (py_max _) as [hi|]; [|discriminate H].
    destruct (_ && _); [left; apply Hq; congruence|].
    destruct (_ && _); [left; apply Hq; congruence|].
    destruct (IH _ H) as [(o & Ho & E)|(x & Hx & E)].
    + left. exists o. split; [now right|exact E].
    + apply in_app_or in Hx as [Hx|[<-|[]]].
      * right. eauto.
      * left. apply Hq. exact E.
Qed.

(** X7. Whatever [getPressureFromKn] returns is the pressure computed for
    one of the stored tabs: the fallback over the recorded candidates
    never returns anything else. *)
Theorem getPressureFromKn_from_tabs (self self' : Propellant)
    (kn p : float) :
  getPressureFromKn gasConstant py kn self = (OK p, self') ->
  exists tab,
    In tab (Props.tabs self)
    /\ tabPressure gasConstant py kn (Props.density self) tab
       = OK (Float p).
Proof.
  unfold getPressureFromKn, bind at 1 2, getProperty. intros H.
  destruct (knLoop_result _ _ _ _ _ _ _ H) as [Ht|(x & [] & _)]. exact Ht.
Qed.

(** X8. A first tab whose burn rate exponent is 1 (so that [1 - n] is
    zero) or whose molar mass is zero makes every call of
    [getPressureFromKn] raise [ZeroDivisionError], whatever [kn], the
    later tabs and the limits are. *)
Theorem getPressureFromKn_zero_division (self : Propellant)
    (tab : PropellantTab) (rest : list PropellantTab) (kn : float) :
  Props.tabs self = tab :: rest ->
  (1 - Tab.n tab =? 0) = true \/ (Tab.m tab =? 0) = true ->
  getPressureFromKn gasConstant py kn self
  = (Raise (ZeroDivisionError "float division by zero"), self).
Proof.
  intros H Hz. unfold getPressureFromKn, bind at 1 2, getProperty. rewrite H.
  cbn [knLoop]. unfold bind at 1, lift, tabPressure, py_div.
  destruct Hz as [Hz|Hz].
  - rewrite Hz. reflexivity.
  - destruct (1 - Tab.n tab =? 0); [reflexivity|].
    cbn [res_bind]. rewrite Hz. reflexivity.
Qed.

End KnResults.

Lemma getPressureFromKn_single_tab_witness :
  getPressureFromKn 8314 exact 1 reversed
  = (match tabPressure 8314 exact 1 1 (range 100 50) with
     | OK (Float p) => OK p
     | OK (Complex _) =>
         Raise (if notnan (Tab.minPressure (range 100 50))
                then complex_lt_float else float_lt_complex)
     | Raise e => Raise e
     end, reversed).
Proof.
  apply (getPressureFromKn_single_tab 8314 exact reversed (range 100 50)).
  reflexivity.
Defined.

Lemma getPressureFromKn_from_tabs_witness :
  exists p,
    getPressureFromKn 8314 exact 1 twoTabs = (OK p, twoTabs)
    /\ exists tab, In tab (Props.tabs twoTabs)
                   /\ tabPressure 8314 exact 1 1 tab = OK (Float p).
Proof.
  eexists. split; [vm_compute; reflexivity|].
  apply (getPressureFromKn_from_tabs 8314 exact twoTabs twoTabs 1).
  vm_compute. reflexivity.
Defined.

Lemma getPressureFromKn_zero_division_witness :
  getPressureFromKn 8314 exact 1
    (Props.mk "linear" 1 [Tab.mk 0 100 1 1 3 2 4])
  = (Raise (ZeroDivisionError "float division by zero"),
     Props.mk "linear" 1 [Tab.mk 0 100 1 1 3 2 4]).
Proof.
  apply (getPressureFromKn_zero_division 8314 exact _
           (Tab.mk 0 100 1 1 3 2 4) [] 1); [reflexivity|].
  left. reflexivity.
Defined.

(** ** The valid pressure range *)

(** X9. On a non-empty list of tabs that each have
    [minPressure < maxPressure], [getMinimumValidPressure] returns the
    least [minPressure] and [getMaximumValidPressure] the greatest
    [maxPressure] of the tabs, and the first lies strictly below the
    second. *)
Theorem valid_pressure_range (self : Propellant) :
  Props.tabs self <> [] ->
  forallb (fun tab => Tab.minPressure tab <? Tab.maxPressure tab)
          (Props.tabs self) = true ->
  exists lo hi,
    getMinimumValidPressure self = (OK lo, self)
    /\ getMaximumValidPressure self = (OK hi, self)
    /\ In lo (map Tab.minPressure (Props.tabs self))
    /\ In hi (map Tab.maxPressure (Props.tabs self))
    /\ (forall tab, In tab (Props.tabs self) ->
          (lo <=? Tab.minPressure tab) = true
          /\ (Tab.maxPressure tab <=? hi) = true)
    /\ (lo <? hi) = true.
Proof.
  intros Hne Hwf.
  unfold getMinimumValidPressure, getMaximumValidPressure, bind, getProperty,
    lift.
  destruct (Props.tabs self) as [|t0 ts] eqn:Et; [congruence|].
  rewrite <- Et in *.
  assert (Hmin : forallb notnan (map Tab.minPressure (Props.tabs self)) = true).
  { rewrite forallb_over_map. apply forallb_forall. intros tab Hin.
    rewrite forallb_forall in Hwf. eapply ltb_notnan_l. now apply Hwf. }
  assert (Hmax : forallb notnan (map Tab.maxPressure (Props.tabs self)) = true).
  { rewrite forallb_over_map. apply forallb_forall. intros tab Hin.
    rewrite forallb_forall in Hwf. eapply ltb_notnan_r. now apply Hwf. }
  destruct (py_min (map Tab.minPressure (Props.tabs self))) as [lo|] eqn:Elo;
    [|rewrite Et in Elo; discriminate Elo].
  destruct (py_max (map Tab.maxPressure (Props.tabs self))) as [hi|] eqn:Ehi;
    [|rewrite Et in Ehi; discriminate Ehi].
  destruct (py_min_least _ _ Hmin Elo) as [Hlo Hlo'].
  destruct (py_max_greatest _ _ Hmax Ehi) as [Hhi Hhi'].
  rewrite forallb_over_map in Hlo', Hhi'.
  rewrite forallb_forall in Hlo', Hhi', Hwf.
  exists lo, hi. repeat split; auto.
  assert (H0 : In t0 (Props.tabs self)) by (rewrite Et; now left).
  eapply leb_ltb_trans; [apply (Hlo' t0 H0)|].
  eapply ltb_leb_trans; [apply (Hwf t0 H0)|apply (Hhi' t0 H0)].
Qed.

Lemma valid_pressure_range_witness :
  exists lo hi,
    getMinimumValidPressure twoTabs = (OK lo, twoTabs)
    /\ getMaximumValidPressure twoTabs = (OK hi, twoTabs)
    /\ In lo (map Tab.minPressure (Props.tabs twoTabs))
    /\ In hi (map Tab.maxPressure (Props.tabs twoTabs))
    /\ (forall tab, In tab (Props.tabs twoTabs) ->
          (lo <=? Tab.minPressure tab) = true
          /\ (Tab.maxPressure tab <=? hi) = true)
    /\ (lo <? hi) = true.
Proof.
  apply (valid_pressure_range twoTabs); [discriminate|reflexivity].
Defined.

(** ** getErrors: what is reported and what is not *)

Lemma In_tabErrors (tabs : list PropellantTab) (i : nat) (tab : PropellantTab)
    (e : SimAlert) :
  In e (tabErrors tabs i tab) <->
  (e = sameLimitsAlert i
   /\ (Tab.maxPressure tab =? Tab.minPressure tab) = true)
  \/ (e = reversedLimitsAlert i
      /\ (Tab.maxPressure tab <? Tab.minPressure tab) = true)
  \/ (exists j other, nth_error tabs j = Some other /\ i <> j
                      /\ overlaps tab other = true /\ e = overlapAlert i j).
Proof.
  rewrite tabErrors_parts, !in_app_iff, In_overlapErrors. split.
  - intros [H|[H|H]].
    + apply In_singleton_if in H as [Hc ->]. now left.
    + apply In_singleton_if in H as [Hc ->]. right. now left.
    + right. now right.
  - intros [[-> Hc]|[[-> Hc]|H]].
    + left. rewrite Hc. now left.
    + right. left. rewrite Hc. now left.
    + right. now right.
Qed.

Lemma In_getErrors (tabs : list PropellantTab) (e : SimAlert) :
  In e (flat_map (fun '(tabId, tab) => tabErrors tabs tabId tab)
          (enumerate tabs)) <->
  exists i tab, nth_error tabs i = Some tab /\ In e (tabErrors tabs i tab).
Proof.
  rewrite in_flat_map. split.
  - intros ([i tab] & Hin & He).
    apply In_enumerate_from in Hin as [_ Hn]. rewrite Nat.sub_0_r in Hn.
    eauto.
  - intros (i & tab & Hn & He). exists (i, tab). split; [|exact He].
    apply In_enumerate_from. rewrite Nat.sub_0_r. split; [lia|exact Hn].
Qed.

Lemma sound_tab_spec (tabs : list PropellantTab) (i : nat)
    (tab : PropellantTab) :
  sound_tab tabs i tab = true <-> tabErrors tabs i tab = [].
Proof.
  rewrite tabErrors_parts. unfold sound_tab. split.
  - intros H. apply andb_true_iff in H as [H Hov].
    apply andb_true_iff in H as [Hs Hr].
    apply negb_true_iff in Hs, Hr. rewrite Hs, Hr. cbn [List.app].
    rewrite forallb_forall in Hov.
    destruct (flat_map _ _) as [|e l] eqn:E; [reflexivity|].
    assert (He : In e (flat_map (overlapErrors tab i) (enumerate tabs)))
      by (rewrite E; now left).
    apply in_flat_map in He as ([j o] & Hin & He).
    specialize (Hov _ Hin). cbv beta iota in Hov. unfold overlapErrors in He.
    destruct (Nat.eqb i j); [destruct He|].
    cbn [orb] in Hov. apply negb_true_iff in Hov. rewrite Hov in He.
    destruct He.
  - intros H. apply app_eq_nil in H as [Hs H].
    apply app_eq_nil in H as [Hr Hov].
    destruct (_ =? _); [discriminate Hs|].
    destruct (_ <? _); [discriminate Hr|]. cbn [negb andb].
    apply forallb_forall. intros [j o] Hin.
    destruct (Nat.eqb i j) eqn:Eij; [reflexivity|]. cbn [orb].
    destruct (overlaps tab o) eqn:Eo; [|reflexivity].
    assert (He : In (overlapAlert i j)
                   (flat_map (overlapErrors tab i) (enumerate tabs))).
    { apply in_flat_map. exists (j, o). split; [exact Hin|].
      unfold overlapErrors. rewrite Eij, Eo. now left. }
    rewrite Hov in He. destruct He.
Qed.

(** X10. [getErrors] returns the empty list exactly when every tab is
    sound: its limits are neither equal nor reversed and its
    [maxPressure] lies strictly inside no other tab's range. *)
Theorem getErrors_empty_iff (self : Propellant) :
  getErrors self = (OK [], self) <->
  forallb (fun '(tabId, tab) => sound_tab (Props.tabs self) tabId tab)
          (enumerate (Props.tabs self)) = true.
Proof.
  unfold getErrors, bind, getProperty, ret.
  set (tabs := Props.tabs self). split.
  - intros H. apply forallb_forall. intros [i tab] Hin.
    apply sound_tab_spec.
    destruct (tabErrors tabs i tab) as [|e l] eqn:E; [reflexivity|].
    assert (He : In e (flat_map (fun '(tabId, tab) => tabErrors tabs tabId tab)
                         (enumerate tabs))).
    { apply in_flat_map. exists (i, tab). split; [exact Hin|].
      rewrite E. now left. }
    replace (flat_map _ _) with (@nil SimAlert) in He by congruence.
    destruct He.
  - intros H. rewrite forallb_forall in H. f_equal. f_equal.
    destruct (flat_map _ _) as [|e l] eqn:E; [reflexivity|].
    assert (He : In e (flat_map (fun '(tabId, tab) => tabErrors tabs tabId tab)
                         (enumerate tabs))) by (rewrite E; now left).
    apply in_flat_map in He as ([i tab] & Hin & He).
    specialize (H _ Hin). cbv beta iota in H.
    apply sound_tab_spec in H. rewrite H in He. destruct He.
Qed.

(** X11. Two tabs with the same [maxPressure] are never reported as
    overlapping, in either order and whatever their lower limits: a
    range repeated word for word, or nested against the same upper
    limit, passes the check. *)
Theorem getErrors_same_upper_limit (self : Propellant)
    (errors : list SimAlert) (i j : nat) (tab otherTab : PropellantTab) :
  getErrors self = (OK errors, self) ->
  nth_error (Props.tabs self) i = Some tab ->
  nth_error (Props.tabs self) j = Some otherTab ->
  (Tab.maxPressure tab =? Tab.maxPressure otherTab) = true ->
  ~ In (overlapAlert i j) errors /\ ~ In (overlapAlert j i) errors.
Proof.
  unfold getErrors, bind, getProperty, ret. intros H Hi Hj Heq.
  inversion H as [H']; clear H H'.
  destruct (eqb_not_ltb _ _ Heq) as [Hlt Hgt].
  split; intros Hin; apply In_getErrors in Hin as (i' & t' & Hn & He);
    apply In_tabErrors in He
      as [[He _]|[[He _]|(j' & o' & Hn' & _ & Hov & He)]];
    try (symmetry in He; now apply same_not_overlap in He);
    try (symmetry in He; now apply reversed_not_overlap in He);
    apply overlapAlert_inj in He as [<- <-];
    unfold overlaps in Hov; apply andb_true_iff in Hov as [_ Hov];
    congruence.
Qed.

Lemma getErrors_same_upper_limit_witness :
  ~ In (overlapAlert 0 1) []
  /\ ~ In (overlapAlert 1 0) [].
Proof.
  apply (getErrors_same_upper_limit
           (Props.mk "twice" 1 [range 0 100; range 50 100]) []
           0%nat 1%nat (range 0 100) (range 50 100)); reflexivity.
Defined.

(** X12. No tab is reported both for equal and for reversed limits: the
    two alerts of one tab never come together. *)
Theorem getErrors_one_limit_alert (self : Propellant)
    (errors : list SimAlert) (i : nat) :
  getErrors self = (OK errors, self) ->
  (count errors (sameLimitsAlert i) + count errors (reversedLimitsAlert i)
   <= 1)%nat.
Proof.
  unfold getErrors, bind, getProperty, ret. intros H.
  inversion H as [H']; clear H H'.
  destruct (nth_error (Props.tabs self) i) as [tab|] eqn:Hn.
  - rewrite !(count_getErrors _ _ i tab Hn).
    + rewrite count_tabErrors_same, count_tabErrors_reversed, Nat.eqb_refl.
      destruct (Tab.maxPressure tab =? Tab.minPressure tab) eqn:E.
      * destruct (eqb_not_ltb _ _ E) as [-> _]. lia.
      * destruct (_ <? _); lia.
    + intros i' tab' Hne. rewrite count_tabErrors_reversed.
      now destruct (Nat.eqb_spec i' i).
    + intros i' tab' Hne. rewrite count_tabErrors_same.
      now destruct (Nat.eqb_spec i' i).
  - assert (Hs : count (flat_map (fun '(tabId, tab) =>
                          tabErrors (Props.tabs self) tabId tab)
                          (enumerate (Props.tabs self))) (sameLimitsAlert i)
                 = 0%nat).
    { apply count_occ_not_In. intros Hin.
      apply In_getErrors in Hin as (i' & t' & Hn' & He).
      apply In_tabErrors in He as [[He _]|[[He _]|(j & o & _ & _ & _ & He)]].
      - apply sameLimitsAlert_inj in He. congruence.
      - now apply same_not_reversed in He.
      - now apply same_not_overlap in He. }
    assert (Hr : count (flat_map (fun '(tabId, tab) =>
                          tabErrors (Props.tabs self) tabId tab)
                          (enumerate (Props.tabs self)))
                   (reversedLimitsAlert i) = 0%nat).
    { apply count_occ_not_In. intros Hin.
      apply In_getErrors in Hin as (i' & t' & Hn' & He).
      apply In_tabErrors in He as [[He _]|[[He _]|(j & o & _ & _ & _ & He)]].
      - symmetry in He. now apply same_not_reversed in He.
      - apply reversedLimitsAlert_inj in He. congruence.
      - now apply reversed_not_overlap in He. }
    rewrite Hs, Hr. lia.
Qed.

Lemma getErrors_one_limit_alert_witness :
  (count [sameLimitsAlert 0] (sameLimitsAlert 0)
   + count [sameLimitsAlert 0] (reversedLimitsAlert 0) <= 1)%nat.
Proof.
  apply (getErrors_one_limit_alert degenerate [sameLimitsAlert 0] 0%nat).
  reflexivity.
Defined.

(** ** find_perimeter: the outcomes by shape *)

Section Outcomes.
Variable _get_perimeter : ndarray -> float -> float.

(** X14. [find_perimeter] returns a value exactly on arrays of two
    dimensions with at least two rows and two columns, and the value is
    then the one [_get_perimeter] computes. *)
Theorem find_perimeter_returns_iff (image : ndarray) (level v : float) :
  find_perimeter _get_perimeter image level = OK v <->
  (exists rows cols, shape image = [rows; cols]
                     /\ (2 <= rows)%nat /\ (2 <= cols)%nat)
  /\ v = _get_perimeter image level.
Proof.
  unfold find_perimeter, shape_at, ndim. destruct image as [sh it].
  cbn [shape]. split.
  - destruct sh as [|d0 [|d1 [|d2 more]]]; cbn [nth_error res_bind List.length];
      try discriminate.
    + destruct (Nat.ltb_spec d0 2); cbn [res_bind]; discriminate.
    + destruct (Nat.ltb_spec d0 2); cbn [res_bind]; [discriminate|].
      destruct (Nat.ltb_spec d1 2); cbn [res_bind]; [discriminate|].
      cbn [Nat.eqb negb]. intros Hv. inversion Hv. split; [|reflexivity].
      exists d0, d1. auto.
    + destruct (Nat.ltb_spec d0 2); cbn [res_bind]; [discriminate|].
      destruct (Nat.ltb_spec d1 2); cbn [res_bind]; discriminate.
  - intros [(rows & cols & -> & H0 & H1) ->].
    cbn [nth_error res_bind List.length].
    destruct (Nat.ltb_spec rows 2); [lia|]. cbn [res_bind].
    destruct (Nat.ltb_spec cols 2); [lia|]. reflexivity.
Qed.

(** X15. The error of the rank, "Only 2D arrays are supported.", is
    raised exactly on arrays of three or more dimensions whose first two
    are both at least 2: an array of fewer than two dimensions never
    gets it, and one with a short first or second dimension gets the
    error of the size whatever its rank. *)
Theorem find_perimeter_rank_error_iff (image : ndarray) (level : float) :
  find_perimeter _get_perimeter image level
  = Raise (ValueError "Only 2D arrays are supported.") <->
  exists d0 d1 d2 more, shape image = d0 :: d1 :: d2 :: more
                        /\ (2 <= d0)%nat /\ (2 <= d1)%nat.
Proof.
  unfold find_perimeter, shape_at, ndim. destruct image as [sh it].
  cbn [shape]. split.
  - destruct sh as [|d0 [|d1 [|d2 more]]]; cbn [nth_error res_bind List.length];
      try discriminate.
    + destruct (Nat.ltb_spec d0 2); cbn [res_bind]; discriminate.
    + destruct (Nat.ltb_spec d0 2); cbn [res_bind]; [discriminate|].
      destruct (Nat.ltb_spec d1 2); cbn [res_bind]; discriminate.
    + destruct (Nat.ltb_spec d0 2); cbn [res_bind]; [discriminate|].
      destruct (Nat.ltb_spec d1 2); cbn [res_bind]; [discriminate|].
      intros _. exists d0, d1, d2, more. auto.
  - intros (d0 & d1 & d2 & more & -> & H0 & H1).
    cbn [nth_error res_bind List.length].
    destruct (Nat.ltb_spec d0 2); [lia|]. cbn [res_bind].
    destruct (Nat.ltb_spec d1 2); [lia|]. reflexivity.
Qed.

(** X16. The error of the size is raised by the first short dimension
    met: on any array whose first dimension is below 2, of whatever
    rank, one-dimensional arrays included, and on any array of two or
    more dimensions whose second is below 2. *)
Theorem find_perimeter_size_error_iff (image : ndarray) (level : float) :
  find_perimeter _get_perimeter image level
  = Raise (ValueError "Input array must be at least 2x2.") <->
  (exists d0 more, shape image = d0 :: more /\ (d0 < 2)%nat)
  \/ (exists d0 d1 more, shape image = d0 :: d1 :: more /\ (d1 < 2)%nat).
Proof.
  unfold find_perimeter, shape_at, ndim. destruct image as [sh it].
  cbn [shape]. split.
  - destruct sh as [|d0 [|d1 more]]; cbn [nth_error res_bind];
      try discriminate.
    + destruct (Nat.ltb_spec d0 2); cbn [res_bind]; [|discriminate].
      intros _. left. exists d0, []. auto.
    + destruct (Nat.ltb_spec d0 2); cbn [res_bind].
      * intros _. left. exists d0, (d1 :: more). auto.
      * destruct (Nat.ltb_spec d1 2); cbn [res_bind].
        -- intros _. right. exists d0, d1, more. auto.
        -- destruct (negb _); discriminate.
  - intros [(d0 & more & -> & H0)|(d0 & d1 & more & -> & H1)];
      cbn [nth_error res_bind].
    + destruct (Nat.ltb_spec d0 2); [reflexivity|lia].
    + destruct (Nat.ltb_spec d0 2); [reflexivity|]. cbn [res_bind].
      destruct (Nat.ltb_spec d1 2); [reflexivity|lia].
Qed.

End Outcomes.

(* ===================================================================== *)
(** * The preview widget: counter, lines and images *)
(* ===================================================================== *)

Lemma for_range_remove (n : nat) (self : Graph.GrainPreviewGraph) :
  (n <= List.length (Graph.lines (Graph.plot self)))%nat ->
  Graph.for_range n (Graph.on_plot Graph.remove_first_line) self
  = (OK tt,
     Graph.mkGraph (Graph.image self) (Graph.numContours self)
       (Graph.mkAxes (skipn n (Graph.lines (Graph.plot self)))
          (Graph.images (Graph.plot self))
          (Graph.created (Graph.plot self)))).
Proof.
  revert self. induction n as [|n IH]; intros [im nc [ls ims cr]] Hn.
  - reflexivity.
  - cbn [Graph.plot Graph.lines Graph.images Graph.created Graph.image
         Graph.numContours] in *.
    destruct ls as [|l ls]; [cbn [List.length] in Hn; lia|].
    cbn [Graph.for_range]. unfold Graph.and_then at 1.
    unfold Graph.on_plot at 1, Graph.remove_first_line at 1.
    cbn [Graph.plot Graph.lines Graph.images Graph.created Graph.image
         Graph.numContours].
    rewrite IH by (cbn [Graph.plot Graph.lines List.length] in *; lia).
    reflexivity.
Qed.

Lemma for_range_remove_none (n : nat) (self : Graph.GrainPreviewGraph) :
  Graph.lines (Graph.plot self) = [] ->
  Graph.for_range (S n) (Graph.on_plot Graph.remove_first_line) self
  = (Raise (IndexError "list index out of range"), self).
Proof.
  intros H. cbn [Graph.for_range].
  unfold Graph.and_then, Graph.on_plot, Graph.remove_first_line.
  rewrite H. reflexivity.
Qed.

Section Widget.
Variable detached_remove : res unit.

Lemma cleanup_tidy (self : Graph.GrainPreviewGraph) :
  tidy self ->
  Graph.cleanup detached_remove self
  = (OK tt,
     Graph.mkGraph None 0
       (Graph.mkAxes [] (other_images self)
          (Graph.created (Graph.plot self)))).
Proof.
  destruct self as [im nc [ls ims cr]]. unfold tidy, other_images.
  cbn [Graph.plot Graph.lines Graph.images Graph.created Graph.image
       Graph.numContours].
  intros (Hn & Him & _). subst nc.
  unfold Graph.cleanup.
  unfold Graph.and_then at 1. unfold Graph.attribute at 1.
  cbn [Graph.image].
  unfold Graph.and_then at 1.
  assert (Hlines : forall im' ims',
    (let self' := Graph.mkGraph im' (List.length ls)
                    (Graph.mkAxes ls ims' cr) in
     Graph.and_then (Graph.attribute Graph.numContours)
       (fun numContours =>
          if Nat.ltb 0 numContours
          then Graph.and_then
                 (Graph.for_range numContours
                    (Graph.on_plot Graph.remove_first_line))
                 (fun _ => Graph.set_numContours 0)
          else Graph.done tt) self')
    = (OK tt, Graph.mkGraph im' 0 (Graph.mkAxes [] ims' cr))).
  { intros im' ims'. cbv zeta.
    unfold Graph.and_then at 1. unfold Graph.attribute at 1.
    cbn [Graph.numContours].
    destruct ls as [|l ls]; [reflexivity|].
    cbn [List.length Nat.ltb Nat.leb].
    unfold Graph.and_then at 1.
    rewrite for_range_remove
      by (cbn [Graph.plot Graph.lines List.length]; lia).
    cbn [Graph.plot Graph.lines Graph.images Graph.created Graph.image
         Graph.numContours].
    change (skipn (S (List.length ls)) (l :: ls))
      with (skipn (List.length (l :: ls)) (l :: ls)).
    rewrite skipn_all. reflexivity. }
  destruct im as [h|].
  - unfold Graph.and_then at 1. unfold Graph.on_plot at 1.
    unfold Graph.remove_image at 1.
    cbn [Graph.plot Graph.lines Graph.images Graph.created Graph.image
         Graph.numContours].
    rewrite (Him h eq_refl).
    unfold Graph.set_image at 1.
    cbn [Graph.plot Graph.lines Graph.images Graph.created Graph.image
         Graph.numContours].
    apply (Hlines None).
  - unfold Graph.done at 1. apply (Hlines None).
Qed.

Lemma for_range_remove_short (n : nat) (self : Graph.GrainPreviewGraph) :
  (List.length (Graph.lines (Graph.plot self)) < n)%nat ->
  Graph.for_range n (Graph.on_plot Graph.remove_first_line) self
  = (Raise (IndexError "list index out of range"),
     Graph.mkGraph (Graph.image self) (Graph.numContours self)
       (Graph.mkAxes [] (Graph.images (Graph.plot self))
          (Graph.created (Graph.plot self)))).
Proof.
  revert self. induction n as [|n IH]; intros [im nc [ls ims cr]] Hn;
    cbn [Graph.plot Graph.lines Graph.images Graph.created Graph.image
         Graph.numContours] in *; [lia|].
  destruct ls as [|l ls].
  - apply for_range_remove_none. reflexivity.
  - cbn [Graph.for_range]. unfold Graph.and_then at 1.
    unfold Graph.on_plot at 1, Graph.remove_first_line at 1.
    cbn [Graph.plot Graph.lines Graph.images Graph.created Graph.image
         Graph.numContours].
    rewrite IH by (cbn [Graph.plot Graph.lines List.length] in *; lia).
    reflexivity.
Qed.

(** [cleanup] on a widget whose image is on the axes: it removes as
    many lines as are counted, from the first on, and fails when the
    axes hold fewer. *)
Lemma cleanup_outcome (self : Graph.GrainPreviewGraph) :
  (forall image, Graph.image self = Some image ->
     existsb (fun im => Nat.eqb (Graph.number im) image)
       (Graph.images (Graph.plot self)) = true) ->
  Graph.cleanup detached_remove self
  = if Nat.leb (Graph.numContours self)
         (List.length (Graph.lines (Graph.plot self)))
    then (OK tt,
          Graph.mkGraph None 0
            (Graph.mkAxes
               (skipn (Graph.numContours self) (Graph.lines (Graph.plot self)))
               (other_images self) (Graph.created (Graph.plot self))))
    else (Raise (IndexError "list index out of range"),
          Graph.mkGraph None (Graph.numContours self)
            (Graph.mkAxes [] (other_images self)
               (Graph.created (Graph.plot self)))).
Proof.
  destruct self as [im nc [ls ims cr]]. unfold other_images.
  cbn [Graph.plot Graph.lines Graph.images Graph.created Graph.image
       Graph.numContours].
  intros Him. unfold Graph.cleanup.
  unfold Graph.and_then at 1. unfold Graph.attribute at 1.
  cbn [Graph.image].
  unfold Graph.and_then at 1.
  assert (Hlines : forall ims',
    (let self' := Graph.mkGraph None nc (Graph.mkAxes ls ims' cr) in
     Graph.and_then (Graph.attribute Graph.numContours)
       (fun numContours =>
          if Nat.ltb 0 numContours
          then Graph.and_then
                 (Graph.for_range numContours
                    (Graph.on_plot Graph.remove_first_line))
                 (fun _ => Graph.set_numContours 0)
          else Graph.done tt) self')
    = if Nat.leb nc (List.length ls)
      then (OK tt, Graph.mkGraph None 0 (Graph.mkAxes (skipn nc ls) ims' cr))
      else (Raise (IndexError "list index out of range"),
            Graph.mkGraph None nc (Graph.mkAxes [] ims' cr))).
  { intros ims'. cbv zeta.
    unfold Graph.and_then at 1. unfold Graph.attribute at 1.
    cbn [Graph.numContours].
    destruct nc as [|n]; [reflexivity|].
    change (Nat.ltb 0 (S n)) with true. cbv iota.
    unfold Graph.and_then at 1.
    destruct (Nat.leb_spec (S n) (List.length ls)) as [Hle|Hgt].
    - rewrite for_range_remove
        by (cbn [Graph.plot Graph.lines]; exact Hle).
      reflexivity.
    - rewrite for_range_remove_short
        by (cbn [Graph.plot Graph.lines]; exact Hgt).
      reflexivity. }
  destruct im as [h|].
  - unfold Graph.and_then at 1. unfold Graph.on_plot at 1.
    unfold Graph.remove_image at 1.
    cbn [Graph.plot Graph.lines Graph.images Graph.created Graph.image
         Graph.numContours].
    rewrite (Him h eq_refl).
    unfold Graph.set_image at 1.
    cbn [Graph.plot Graph.lines Graph.images Graph.created Graph.image
         Graph.numContours].
    apply Hlines.
  - unfold Graph.done at 1. apply Hlines.
Qed.

Lemma tidy_init : tidy Graph.__init__.
Proof.
  unfold tidy. cbn. repeat split; [discriminate|constructor].
Qed.

Lemma tidy_cleanup (self : Graph.GrainPreviewGraph) :
  tidy self -> tidy (snd (Graph.cleanup detached_remove self)).
Proof.
  intros H. rewrite (cleanup_tidy self H). destruct H as (_ & _ & Hb).
  unfold tidy, other_images.
  cbn [snd Graph.plot Graph.lines Graph.images Graph.created Graph.image
       Graph.numContours List.length].
  repeat split; [discriminate|].
  destruct (Graph.image self); [|exact Hb].
  rewrite Forall_forall in *. intros im Hin.
  apply filter_In in Hin as [Hin _]. auto.
Qed.

Lemma showImage_result (app : option bool) (image : Graph.masked)
    (self : Graph.GrainPreviewGraph) :
  exists picture,
    Graph.showImage app image self
    = (OK tt,
       Graph.mkGraph (Some (Graph.created (Graph.plot self)))
         (Graph.numContours self)
         (Graph.mkAxes (Graph.lines (Graph.plot self))
            (Graph.images (Graph.plot self)
             ++ [Graph.mkImage (Graph.created (Graph.plot self)) picture])
            (S (Graph.created (Graph.plot self))))).
Proof.
  eexists. reflexivity.
Qed.

Lemma tidy_showImage (app : option bool) (image : Graph.masked)
    (self : Graph.GrainPreviewGraph) :
  tidy self -> tidy (snd (Graph.showImage app image self)).
Proof.
  intros (Hn & _ & Hb).
  destruct (showImage_result app image self) as [picture ->].
  unfold tidy.
  cbn [snd Graph.plot Graph.lines Graph.images Graph.created Graph.image
       Graph.numContours].
  repeat split.
  - exact Hn.
  - intros h Hh. inversion Hh; subst h. rewrite existsb_app.
    cbn [existsb Graph.number]. rewrite Nat.eqb_refl.
    now rewrite orb_true_r.
  - apply Forall_app. split.
    + revert Hb. apply Forall_impl. intros im. lia.
    + constructor; [cbn [Graph.number]; lia|constructor].
Qed.

Lemma column_flat (l : list float) (j : nat) :
  Graph.column (Graph.flat l) j = l.
Proof.
  unfold Graph.column, Graph.flat. cbn [shape item hd].
  induction l as [|x l IH]; [reflexivity|].
  cbn [List.length seq map nth]. f_equal.
  rewrite <- seq_shift, map_map. exact IH.
Qed.

(** On one-dimensional data of one length [plot] draws one line. *)
Lemma plot_xy_flat (x y : list float) (linewidth : option float)
    (color : string) (ax : Graph.Axes) :
  List.length x = List.length y ->
  Graph.plot_xy (Graph.flat x) (Graph.flat y) linewidth color ax
  = OK (tt, Graph.mkAxes
              (Graph.lines ax ++ [Graph.mkLine x y linewidth color])
              (Graph.images ax) (Graph.created ax)).
Proof.
  intros H. unfold Graph.plot_xy.
  change (Graph.first_dimension (Graph.flat x)) with (List.length x).
  change (Graph.first_dimension (Graph.flat y)) with (List.length y).
  change (ndim (Graph.flat x)) with 1%nat.
  change (ndim (Graph.flat y)) with 1%nat.
  change (Graph.columns (Graph.flat x)) with 1%nat.
  change (Graph.columns (Graph.flat y)) with 1%nat.
  rewrite H, Nat.eqb_refl.
  cbn [negb Nat.ltb Nat.leb orb andb Nat.eqb Nat.max seq map].
  change (0 mod 1)%nat with 0%nat. now rewrite !column_flat.
Qed.

(** Data of at most one dimension give one line or an error. *)
Lemma plot_xy_one (x y : ndarray) (linewidth : option float)
    (color : string) (ax : Graph.Axes) :
  (ndim x <= 1)%nat -> (ndim y <= 1)%nat ->
  (exists e, Graph.plot_xy x y linewidth color ax = Raise e)
  \/ (exists line,
        Graph.plot_xy x y linewidth color ax
        = OK (tt, Graph.mkAxes (Graph.lines ax ++ [line])
                    (Graph.images ax) (Graph.created ax))).
Proof.
  intros Hx Hy. unfold Graph.plot_xy.
  destruct (negb _); [left; eauto|].
  assert (Ex : Graph.columns x = 1%nat).
  { unfold Graph.columns, ndim in *.
    destruct (shape x) as [|d [|c r]]; cbn [List.length] in *;
      [reflexivity|reflexivity|lia]. }
  assert (Ey : Graph.columns y = 1%nat).
  { unfold Graph.columns, ndim in *.
    destruct (shape y) as [|d [|c r]]; cbn [List.length] in *;
      [reflexivity|reflexivity|lia]. }
  destruct (Nat.ltb_spec 2 (ndim x)); [lia|].
  destruct (Nat.ltb_spec 2 (ndim y)); [lia|].
  rewrite Ex, Ey. cbn. right. eauto.
Qed.

Lemma contourSetLoop_result (color : string) (contourSet : list Graph.contour)
    (self : Graph.GrainPreviewGraph) :
  Graph.contourSetLoop color contourSet self
  = (OK tt,
     Graph.mkGraph (Graph.image self)
       (Graph.numContours self + List.length contourSet)
       (Graph.mkAxes
          (Graph.lines (Graph.plot self)
           ++ map (contour_line color) contourSet)
          (Graph.images (Graph.plot self))
          (Graph.created (Graph.plot self)))).
Proof.
  revert self.
  induction contourSet as [|contour more IH]; intros [im nc [ls ims cr]];
    cbn [Graph.plot Graph.lines Graph.images Graph.created Graph.image
         Graph.numContours Graph.contourSetLoop map List.length].
  - unfold Graph.done. now rewrite Nat.add_0_r, app_nil_r.
  - unfold Graph.and_then at 1. unfold Graph.on_plot at 1.
    rewrite plot_xy_flat by now rewrite !length_map.
    cbn [Graph.plot Graph.lines Graph.images Graph.created Graph.image
         Graph.numContours].
    unfold Graph.and_then at 1. unfold Graph.attribute at 1.
    cbn [Graph.numContours].
    unfold Graph.and_then at 1. unfold Graph.set_numContours at 1.
    cbn [Graph.plot Graph.lines Graph.images Graph.created Graph.image
         Graph.numContours].
    rewrite IH.
    cbn [Graph.plot Graph.lines Graph.images Graph.created Graph.image
         Graph.numContours].
    rewrite <- app_assoc. cbn [List.app].
    replace (nc + 1 + List.length more)%nat
      with (nc + S (List.length more))%nat by lia.
    reflexivity.
Qed.

(** Where the colour cycle stands before set [i]. *)
Lemma cycle_step (i : nat) (rest : list string) :
  rest = skipn (i mod 4) colours \/ (i mod 4 = 0%nat /\ rest = []) ->
  exists rest',
    Graph.cycle_next "r"%string ["g"; "b"; "y"]%string rest
    = (nth (i mod 4) colours "r"%string, rest')
    /\ (rest' = skipn (S i mod 4) colours
        \/ (S i mod 4 = 0%nat /\ rest' = [])).
Proof.
  assert (Hlt : (i mod 4 < 4)%nat) by (apply Nat.mod_upper_bound; lia).
  assert (HS : (S i mod 4 = (i mod 4 + 1) mod 4)%nat).
  { rewrite Nat.Div0.add_mod_idemp_l. f_equal. lia. }
  rewrite HS. clear HS.
  destruct (i mod 4)%nat as [|[|[|[|m]]]]; [| | | |lia];
    intros [->|[E ->]]; try discriminate E;
    cbn; eexists; split; try reflexivity; auto.
Qed.

Lemma contoursLoop_result (contours : list (list Graph.contour)) :
  forall (i : nat) (rest : list string) (self : Graph.GrainPreviewGraph),
  rest = skipn (i mod 4) colours \/ (i mod 4 = 0%nat /\ rest = []) ->
  Graph.contoursLoop rest contours self
  = (OK tt,
     Graph.mkGraph (Graph.image self)
       (Graph.numContours self + List.length (List.concat contours))
       (Graph.mkAxes
          (Graph.lines (Graph.plot self) ++ contour_lines i contours)
          (Graph.images (Graph.plot self))
          (Graph.created (Graph.plot self)))).
Proof.
  induction contours as [|contourSet more IH];
    intros i rest [im nc [ls ims cr]] Hrest;
    cbn [Graph.plot Graph.lines Graph.images Graph.created Graph.image
         Graph.numContours Graph.contoursLoop].
  - unfold Graph.done, contour_lines. cbn [enumerate_from flat_map List.concat].
    cbn [List.length]. now rewrite Nat.add_0_r, app_nil_r.
  - destruct (cycle_step i rest Hrest) as (rest' & -> & Hrest').
    unfold Graph.and_then at 1. rewrite contourSetLoop_result.
    cbn [Graph.plot Graph.lines Graph.images Graph.created Graph.image
         Graph.numContours].
    rewrite (IH (S i) rest' _ Hrest').
    cbn [Graph.plot Graph.lines Graph.images Graph.created Graph.image
         Graph.numContours].
    unfold contour_lines. cbn [enumerate_from flat_map List.concat].
    rewrite length_app, <- app_assoc, Nat.add_assoc. reflexivity.
Qed.

Lemma showContours_result (contours : list (list Graph.contour))
    (self : Graph.GrainPreviewGraph) :
  Graph.showContours contours self
  = (OK tt,
     Graph.mkGraph (Graph.image self)
       (Graph.numContours self + List.length (List.concat contours))
       (Graph.mkAxes
          (Graph.lines (Graph.plot self) ++ contour_lines 0 contours)
          (Graph.images (Graph.plot self))
          (Graph.created (Graph.plot self)))).
Proof.
  unfold Graph.showContours. apply contoursLoop_result. left. reflexivity.
Qed.

Lemma length_contour_lines (contours : list (list Graph.contour)) (i : nat) :
  List.length (contour_lines i contours) = List.length (List.concat contours).
Proof.
  revert i. unfold contour_lines.
  induction contours as [|contourSet more IH]; intros i;
    cbn [enumerate_from flat_map List.concat]; [reflexivity|].
  now rewrite !length_app, length_map, IH.
Qed.

Lemma tidy_showContours (contours : list (list Graph.contour))
    (self : Graph.GrainPreviewGraph) :
  tidy self -> tidy (snd (Graph.showContours contours self)).
Proof.
  intros (Hn & Him & Hb). rewrite showContours_result. unfold tidy.
  cbn [snd Graph.plot Graph.lines Graph.images Graph.created Graph.image
       Graph.numContours].
  repeat split; [|exact Him|exact Hb].
  rewrite length_app, length_contour_lines. lia.
Qed.

(** What [plot] does to the axes when it returns. *)
Lemma plot_xy_outcome (x y : ndarray) (linewidth : option float)
    (color : string) (ax : Graph.Axes) :
  (exists e, Graph.plot_xy x y linewidth color ax = Raise e)
  \/ (exists new,
        Graph.plot_xy x y linewidth color ax
        = OK (tt, Graph.mkAxes (Graph.lines ax ++ new)
                    (Graph.images ax) (Graph.created ax))
        /\ List.length new = lines_drawn (x, y)).
Proof.
  unfold Graph.plot_xy, lines_drawn. cbn [fst snd].
  destruct (negb _); [left; eauto|].
  destruct (_ || _); [left; eauto|]. cbv zeta.
  destruct (_ && _); [left; eauto|].
  destruct (_ || _); right.
  - exists []. destruct ax as [ls ims cr]. cbn [Graph.lines Graph.images
      Graph.created]. now rewrite app_nil_r.
  - eexists. split; [reflexivity|]. now rewrite length_map, length_seq.
Qed.

(** A call of [showGraph] either raises and changes nothing, or adds the
    lines [plot] draws and counts one more. *)
Lemma showGraph_outcome (points : ndarray * ndarray)
    (self : Graph.GrainPreviewGraph) :
  (exists e, Graph.showGraph points self = (Raise e, self))
  \/ (exists new,
        Graph.showGraph points self
        = (OK tt,
           Graph.mkGraph (Graph.image self) (Graph.numContours self + 1)
             (Graph.mkAxes (Graph.lines (Graph.plot self) ++ new)
                (Graph.images (Graph.plot self))
                (Graph.created (Graph.plot self))))
        /\ List.length new = lines_drawn points).
Proof.
  destruct (plot_xy_outcome (fst points) (snd points) None "b"
              (Graph.plot self)) as [[e He]|(new & He & Hlen)].
  - left. exists e. unfold Graph.showGraph, Graph.and_then, Graph.on_plot.
    now rewrite He.
  - right. exists new. rewrite <- surjective_pairing in Hlen.
    split; [|exact Hlen].
    unfold Graph.showGraph, Graph.and_then, Graph.on_plot.
    now rewrite He.
Qed.

Lemma lines_drawn_one (points : ndarray * ndarray) :
  (ndim (fst points) <= 1)%nat -> (ndim (snd points) <= 1)%nat ->
  lines_drawn points = 1%nat.
Proof.
  intros Hx Hy. unfold lines_drawn, Graph.columns, ndim in *.
  destruct (shape (fst points)) as [|d [|c r]]; cbn [List.length] in *;
    try lia;
    destruct (shape (snd points)) as [|d' [|c' r']]; cbn [List.length] in *;
    try lia; reflexivity.
Qed.

Lemma tidy_showGraph (points : ndarray * ndarray)
    (self : Graph.GrainPreviewGraph) :
  (ndim (fst points) <= 1)%nat -> (ndim (snd points) <= 1)%nat ->
  tidy self -> tidy (snd (Graph.showGraph points self)).
Proof.
  intros Hx Hy H.
  destruct (showGraph_outcome points self) as [[e ->]|(new & -> & Hlen)];
    [exact H|].
  rewrite (lines_drawn_one points Hx Hy) in Hlen.
  destruct H as (Hn & Him & Hb). unfold tidy.
  cbn [snd Graph.plot Graph.lines Graph.images Graph.created Graph.image
       Graph.numContours].
  repeat split; [|exact Him|exact Hb].
  rewrite length_app. lia.
Qed.

Lemma in_use_tidy (self : Graph.GrainPreviewGraph) :
  in_use detached_remove self -> tidy self.
Proof.
  induction 1.
  - apply tidy_init.
  - now apply tidy_cleanup.
  - now apply tidy_showImage.
  - now apply tidy_showContours.
  - now apply tidy_showGraph.
Qed.

(** X17. However a widget was cleaned up and shown images, contours
    and graphs of one-dimensional data before, [cleanup] returns without
    an error, leaves the axes without a line, the counter at zero and the
    widget without an image: on such data the counter never runs ahead
    of the lines on the axes, nor behind them. *)
Theorem cleanup_clears (self : Graph.GrainPreviewGraph) :
  in_use detached_remove self ->
  exists self',
    Graph.cleanup detached_remove self = (OK tt, self')
    /\ Graph.lines (Graph.plot self') = []
    /\ Graph.numContours self' = 0%nat
    /\ Graph.image self' = None.
Proof.
  intros H. apply in_use_tidy in H. rewrite (cleanup_tidy self H).
  eexists. split; [reflexivity|]. repeat split.
Qed.

(** X18. [resetGraphBounds] clears the axes and keeps the counter:
    while lines are counted, the [cleanup] that follows it does not
    return, and on a widget without an image it raises [IndexError] at
    the first line it looks for and leaves the widget as it found it,
    so that calling it again fails the same way. *)
Theorem cleanup_after_resetGraphBounds (self : Graph.GrainPreviewGraph) :
  (0 < Graph.numContours self)%nat ->
  exists e self',
    Graph.cleanup detached_remove (snd (Graph.resetGraphBounds self))
    = (Raise e, self')
    /\ (Graph.image self = None ->
        e = IndexError "list index out of range"
        /\ self' = snd (Graph.resetGraphBounds self)).
Proof.
  destruct self as [im nc [ls ims cr]].
  cbn [Graph.numContours Graph.image]. intros Hn.
  destruct nc as [|n]; [lia|].
  unfold Graph.resetGraphBounds, Graph.on_plot, Graph.clear.
  cbn [snd Graph.plot Graph.created Graph.image Graph.numContours].
  unfold Graph.cleanup.
  unfold Graph.and_then at 1. unfold Graph.attribute at 1.
  cbn [Graph.image]. unfold Graph.and_then at 1.
  destruct im as [h|].
  - unfold Graph.and_then at 1. unfold Graph.on_plot at 1.
    unfold Graph.remove_image at 1.
    cbn [Graph.plot Graph.images existsb].
    destruct detached_remove as [[]|e]; cbn [res_bind].
    + unfold Graph.set_image at 1.
      cbn [Graph.plot Graph.lines Graph.images Graph.created Graph.image
           Graph.numContours].
      unfold Graph.and_then at 1. unfold Graph.attribute at 1.
      cbn [Graph.numContours Nat.ltb Nat.leb].
      unfold Graph.and_then at 1.
      rewrite for_range_remove_none by reflexivity.
      eexists. eexists. split; [reflexivity|]. discriminate.
    + eexists. eexists. split; [reflexivity|]. discriminate.
  - unfold Graph.done at 1.
    unfold Graph.and_then at 1. unfold Graph.attribute at 1.
    cbn [Graph.numContours Nat.ltb Nat.leb].
    unfold Graph.and_then at 1.
    rewrite for_range_remove_none by reflexivity.
    eexists. eexists. split; [reflexivity|]. intros _. split; reflexivity.
Qed.

(** X19. [showContours] always returns; it adds one line per contour
    after the lines already on the axes, in the order of the contours,
    those of set [i] (counted from 0) in colour number [i mod 4] of
    r, g, b, y, and it raises the counter by the number of contours;
    the image is left alone. *)
Theorem showContours_colours (contours : list (list Graph.contour))
    (self : Graph.GrainPreviewGraph) :
  Graph.showContours contours self
  = (OK tt,
     Graph.mkGraph (Graph.image self)
       (Graph.numContours self + List.length (List.concat contours))
       (Graph.mkAxes
          (Graph.lines (Graph.plot self)
           ++ flat_map
                (fun '(i, contourSet) =>
                   map (contour_line (nth (i mod 4) colours "r"%string))
                     contourSet)
                (enumerate contours))
          (Graph.images (Graph.plot self))
          (Graph.created (Graph.plot self)))).
Proof.
  apply showContours_result.
Qed.

(** X20. [cleanup] removes the last image shown only: after two calls
    of [showImage] with no [cleanup] between them, the image of the
    first call is still on the axes once [cleanup] has returned, and
    the widget no longer refers to it. *)
Theorem showImage_twice (self : Graph.GrainPreviewGraph)
    (app1 app2 : option bool) (image1 image2 : Graph.masked) :
  in_use detached_remove self ->
  let first := snd (Graph.showImage app1 image1 self) in
  let second := snd (Graph.showImage app2 image2 first) in
  exists self',
    Graph.cleanup detached_remove second = (OK tt, self')
    /\ Graph.image self' = None
    /\ Graph.images (Graph.plot self') = Graph.images (Graph.plot first)
    /\ List.length (Graph.images (Graph.plot first))
       = S (List.length (Graph.images (Graph.plot self))).
Proof.
  intros H first second.
  assert (Hsecond : tidy second).
  { apply tidy_showImage, tidy_showImage, in_use_tidy, H. }
  apply in_use_tidy in H. destruct H as (_ & _ & Hb).
  rewrite (cleanup_tidy second Hsecond).
  eexists. split; [reflexivity|].
  cbn [Graph.plot Graph.images Graph.image]. split; [reflexivity|].
  subst second first.
  destruct (showImage_result app1 image1 self) as [p1 ->].
  cbn [snd].
  match goal with
  | |- context [Graph.showImage app2 image2 ?s] =>
      destruct (showImage_result app2 image2 s) as [p2 ->]
  end.
  unfold other_images.
  cbn [snd Graph.plot Graph.lines Graph.images Graph.created Graph.image
       Graph.numContours].
  split; [|rewrite length_app; cbn [List.length]; lia].
  rewrite !filter_app. cbn [filter Graph.number].
  rewrite Nat.eqb_refl. cbn [negb].
  destruct (Nat.eqb_spec (Graph.created (Graph.plot self))
              (S (Graph.created (Graph.plot self)))) as [E|_]; [lia|].
  cbn [negb]. rewrite app_nil_r. f_equal.
  apply forallb_filter_id. apply forallb_forall. intros im Hin.
  rewrite Forall_forall in Hb. specialize (Hb im Hin).
  destruct (Nat.eqb_spec (Graph.number im)
              (S (Graph.created (Graph.plot self)))); [lia|reflexivity].
Qed.

(** X21. The counter counts the calls of [showGraph], not the lines
    drawn.  After a call of [showGraph] that returns, on a widget used as
    above: when the points make several curves (arrays of several
    columns), [cleanup] returns and leaves all of them but one on the
    axes; when they make none (arrays without columns), [cleanup] raises
    [IndexError] and the counter stays above zero, so that every later
    [cleanup] fails again; with a single curve nothing is left. *)
Theorem showGraph_then_cleanup (self shown : Graph.GrainPreviewGraph)
    (points : ndarray * ndarray) :
  in_use detached_remove self ->
  Graph.showGraph points self = (OK tt, shown) ->
  match lines_drawn points with
  | O =>
      exists self',
        Graph.cleanup detached_remove shown
        = (Raise (IndexError "list index out of range"), self')
        /\ Graph.lines (Graph.plot self') = []
        /\ (0 < Graph.numContours self')%nat
        /\ Graph.cleanup detached_remove self'
           = (Raise (IndexError "list index out of range"), self')
  | S more =>
      exists self',
        Graph.cleanup detached_remove shown = (OK tt, self')
        /\ List.length (Graph.lines (Graph.plot self')) = more
        /\ Graph.numContours self' = 0%nat
  end.
Proof.
  intros Huse Hshow. apply in_use_tidy in Huse.
  destruct Huse as (Hn & Him & _).
  destruct (showGraph_outcome points self) as [[e He]|(new & He & Hlen)];
    [congruence|].
  rewrite He in Hshow. inversion Hshow as [Hs]. clear Hshow He.
  rewrite cleanup_outcome by (cbn [Graph.image Graph.plot Graph.images];
                              exact Him).
  cbn [Graph.plot Graph.lines Graph.images Graph.created Graph.image
       Graph.numContours].
  rewrite length_app, Hlen, Hn.
  destruct (lines_drawn points) as [|more].
  - destruct (Nat.leb_spec (List.length (Graph.lines (Graph.plot self)) + 1)
                (List.length (Graph.lines (Graph.plot self)) + 0)); [lia|].
    eexists. split; [reflexivity|].
    cbn [Graph.plot Graph.lines Graph.numContours].
    split; [reflexivity|]. split; [lia|].
    rewrite cleanup_outcome by (cbn [Graph.image]; discriminate).
    cbn [Graph.plot Graph.lines Graph.images Graph.created Graph.image
         Graph.numContours List.length].
    destruct (Nat.leb_spec (List.length (Graph.lines (Graph.plot self)) + 1)
                0); [lia|].
    unfold other_images. reflexivity.
  - destruct (Nat.leb_spec (List.length (Graph.lines (Graph.plot self)) + 1)
                (List.length (Graph.lines (Graph.plot self)) + S more));
      [|lia].
    eexists. split; [reflexivity|].
    cbn [Graph.plot Graph.lines Graph.numContours].
    split; [|reflexivity].
    rewrite length_skipn, length_app, Hlen. lia.
Qed.

End Widget.

Lemma cleanup_clears_witness :
  exists self',
    Graph.cleanup (OK tt) (snd (Graph.showGraph oneCurve Graph.__init__))
    = (OK tt, self')
    /\ Graph.lines (Graph.plot self') = []
    /\ Graph.numContours self' = 0%nat
    /\ Graph.image self' = None.
Proof.
  apply (cleanup_clears (OK tt)).
  apply use_showGraph; [apply use_init|cbn; lia|cbn; lia].
Defined.

Lemma showGraph_then_cleanup_witness :
  (exists self',
     Graph.cleanup (OK tt) (snd (Graph.showGraph twoCurves Graph.__init__))
     = (OK tt, self')
     /\ List.length (Graph.lines (Graph.plot self')) = 1%nat
     /\ Graph.numContours self' = 0%nat)
  /\ (exists self',
        Graph.cleanup (OK tt) (snd (Graph.showGraph noCurve Graph.__init__))
        = (Raise (IndexError "list index out of range"), self')
        /\ Graph.lines (Graph.plot self') = []
        /\ (0 < Graph.numContours self')%nat
        /\ Graph.cleanup (OK tt) self'
           = (Raise (IndexError "list index out of range"), self')).
Proof.
  split.
  - apply (showGraph_then_cleanup (OK tt) Graph.__init__ _ twoCurves);
      [apply use_init|reflexivity].
  - apply (showGraph_then_cleanup (OK tt) Graph.__init__ _ noCurve);
      [apply use_init|reflexivity].
Defined.

Lemma cleanup_after_resetGraphBounds_witness :
  exists e self',
    Graph.cleanup (OK tt)
      (snd (Graph.resetGraphBounds
              (snd (Graph.showGraph oneCurve Graph.__init__))))
    = (Raise e, self')
    /\ (Graph.image (snd (Graph.showGraph oneCurve Graph.__init__))
        = None ->
        e = IndexError "list index out of range"
        /\ self' = snd (Graph.resetGraphBounds
                          (snd (Graph.showGraph oneCurve Graph.__init__)))).
Proof.
  apply (cleanup_after_resetGraphBounds (OK tt)). cbn. lia.
Defined.

Lemma showImage_twice_witness :
  let image := Graph.mkMasked 1 1 (fun _ _ => Some 1) in
  let first := snd (Graph.showImage None image Graph.__init__) in
  let second := snd (Graph.showImage (Some true) image first) in
  exists self',
    Graph.cleanup (OK tt) second = (OK tt, self')
    /\ Graph.image self' = None
    /\ Graph.images (Graph.plot self') = Graph.images (Graph.plot first)
    /\ List.length (Graph.images (Graph.plot first))
       = S (List.length (Graph.images (Graph.plot Graph.__init__))).
Proof.
  intros image.
  apply (showImage_twice (OK tt) Graph.__init__ None (Some true) image image).
  apply use_init.
Defined.
